(** * NeuralProtocol tool orchestration: registry, studios and transports

    Shallow embedding of [utils/tools_manager.py], [utils/mcp_studio.py] and
    [utils/mcp_see_http.py], followed by the properties of the tool
    orchestration layer that were checked against it.

    Conventions of the embedding:
    - a Python coroutine or method that can raise is a computation in the
      monad [M St], a state transformer whose result is [Returned v] or
      [Raised e]; side effects made before a [raise] are kept, as in Python;
    - [py_exc] stands for instances of [Exception], the class every
      [except Exception] clause of the sources catches;
    - calls into libraries outside the repository (the MCP client, aiohttp,
      the langchain adapters, [input]) are answered by an explicit
      environment: a state machine or a script carried in the state;
    - [logging] calls are left out, they have no effect on control flow. *)

From Stdlib Require Import ZArith Lia Ascii String.
From stdpp Require Import base strings list gmap pretty.

Open Scope string_scope.
Open Scope list_scope.
Set Warnings "-register-all".

(** ** Python values, exceptions and the effect monad *)

Module Py.

(** Values exchanged with tools and servers: what [json] parses to. *)
Inductive json : Type :=
| JNull
| JBool (b : bool)
| JNum (z : Z)
| JStr (s : string)
| JList (l : list json)
| JObj (kv : list (string * json)).

(** A Python [dict] with string keys, in insertion order. *)
Definition dict := list (string * json).

(** [d.get(k)] / [k in d]. *)
Fixpoint dict_get (k : string) (d : dict) : option json :=
  match d with
  | [] => None
  | (k', v) :: d' => if String.eqb k k' then Some v else dict_get k d'
  end.

(** [len(v)]: defined on strings, lists and dicts, [TypeError] elsewhere. *)
Definition py_len (v : json) : option nat :=
  match v with
  | JStr s => Some (String.length s)
  | JList l => Some (length l)
  | JObj kv => Some (length kv)
  | _ => None
  end.

(** An instance of [Exception]: its class name and [str(e)]. *)
Record py_exc := Exc { exc_class : string; exc_msg : string }.

Inductive PyResult (A : Type) : Type :=
| Returned (a : A)
| Raised (e : py_exc).
Arguments Returned {A} a.
Arguments Raised {A} e.

(** A Python [str] is held as its UTF-8 encoding, one [ascii] per byte;
    string literals of this file are written the same way.

    [str.strip()] removes the characters for which [str.isspace()] holds.
    On the ASCII range these are the space, \t \n \v \f \r and the
    separators 0x1c..0x1f. *)
Definition is_space (a : ascii) : bool :=
  let n := nat_of_ascii a in
  (n =? 32)%nat || ((9 <=? n)%nat && (n <=? 13)%nat)
  || ((28 <=? n)%nat && (n <=? 31)%nat).

(** The other whitespace characters, by the bytes of their encoding:
    U+0085 and U+00A0 take two bytes (C2 85, C2 A0); U+1680 (E1 9A 80),
    U+2000..U+200A, U+2028, U+2029, U+202F (E2 80 80..8A, A8, A9, AF),
    U+205F (E2 81 9F) and U+3000 (E3 80 80) take three. *)
Definition is_space2 (a b : ascii) : bool :=
  let '(m, n) := (nat_of_ascii a, nat_of_ascii b) in
  (m =? 194)%nat && ((n =? 133)%nat || (n =? 160)%nat).

Definition is_space3 (a b c : ascii) : bool :=
  let '(l, m, n) := (nat_of_ascii a, nat_of_ascii b, nat_of_ascii c) in
  ((l =? 225)%nat && (m =? 154)%nat && (n =? 128)%nat)
  || ((l =? 226)%nat && (m =? 128)%nat
      && (((128 <=? n)%nat && (n <=? 138)%nat)
          || (n =? 168)%nat || (n =? 169)%nat || (n =? 175)%nat))
  || ((l =? 226)%nat && (m =? 129)%nat && (n =? 159)%nat)
  || ((l =? 227)%nat && (m =? 128)%nat && (n =? 128)%nat).

(** Whitespace is dropped from the front of [s]; with [backwards], [s] is
    a reversed string and the bytes of a character come last first. *)
Fixpoint strip_front (backwards : bool) (s : string) : string :=
  match s with
  | String a s1 =>
      if is_space a then strip_front backwards s1
      else
        match s1 with
        | String b s2 =>
            if (if backwards then is_space2 b a else is_space2 a b)
            then strip_front backwards s2
            else
              match s2 with
              | String c s3 =>
                  if (if backwards then is_space3 c b a else is_space3 a b c)
                  then strip_front backwards s3
                  else s
              | EmptyString => s
              end
        | EmptyString => s
        end
  | EmptyString => EmptyString
  end.

Definition lstrip (s : string) : string := strip_front false s.

Definition rstrip (s : string) : string :=
  String.rev (strip_front true (String.rev s)).

Definition strip (s : string) : string := rstrip (lstrip s).

(** [s.rstrip('/')]. *)
Fixpoint lstrip_slash (s : string) : string :=
  match s with
  | String a s' => if Ascii.eqb a "/"%char then lstrip_slash s' else s
  | EmptyString => EmptyString
  end.

Definition rstrip_slash (s : string) : string :=
  String.rev (lstrip_slash (String.rev s)).

(** [s.lower()], used only to compare with words in ASCII that hold no
    letter k: the bytes of A..Z are lowered and all others kept. (The only
    character outside ASCII whose lower case lies within it is the Kelvin
    sign, which gives k.) *)
Definition lower_ascii (a : ascii) : ascii :=
  let n := nat_of_ascii a in
  if (65 <=? n)%nat && (n <=? 90)%nat then ascii_of_nat (n + 32) else a.

Fixpoint lower (s : string) : string :=
  match s with
  | String a s' => String (lower_ascii a) (lower s')
  | EmptyString => EmptyString
  end.

End Py.
Export Py.

(** Computations with state [St] that return or raise. *)
Definition M (St A : Type) : Type := St -> PyResult A * St.

Definition ret {St A} (a : A) : M St A := fun s => (Returned a, s).

Definition raise {St A} (e : py_exc) : M St A := fun s => (Raised e, s).

Definition bind {St A B} (m : M St A) (k : A -> M St B) : M St B :=
  fun s =>
    match m s with
    | (Returned a, s') => k a s'
    | (Raised e, s') => (Raised e, s')
    end.

(** [try: m  except Exception as e: h e]. *)
Definition try_except {St A} (m : M St A) (h : py_exc -> M St A) : M St A :=
  fun s =>
    match m s with
    | (Returned a, s') => (Returned a, s')
    | (Raised e, s') => h e s'
    end.

Definition modify {St} (f : St -> St) : M St unit := fun s => (Returned tt, f s).

Notation "x <- c1 ;; c2" := (bind c1 (fun x => c2))
  (at level 100, c1 at next level, right associativity).
Notation "c1 ;;; c2" := (bind c1 (fun _ => c2))
  (at level 100, right associativity).

(** ** utils/tools_manager.py *)

Module ToolsManagerPy.

Section Manager.

(** State of whatever the tools act on: processes, sockets, files. *)
Variable W : Type.

Record ToolCall := { tc_tool : string; tc_arguments : dict }.

(** [timestamp] defaults to the wall clock and is not modelled. *)
Record ToolResult := {
  tr_tool_name : string;
  tr_success : bool;
  tr_result : json;
  tr_error : option string
}.

Record ToolInfo := {
  ti_name : string;
  ti_description : string;
  ti_source : string;
  ti_parameters : json;
  ti_category : string
}.

(** What calling into a tool does: it acts on [W] and returns or raises. *)
Definition behaviour := dict -> W -> PyResult json * W.

(** A tool object as the manager sees it ([List[Any]]): the attributes
    it reads with [getattr] and the methods it probes with [hasattr].
    [t_name] is [getattr(tool, 'name', str(tool))]; [t_truth] is the
    truth value of the object, what [if not tool] tests: [true] unless
    its class defines [__bool__] or [__len__] to say otherwise; [t_call]
    is the call of a callable object with the arguments as keywords. *)
Record tool := {
  t_name : string;
  t_truth : bool;
  t_description : option string;
  t_parameters : option json;
  t_args_schema : option json;
  t_invoke : option behaviour;
  t_ainvoke : option behaviour;
  t_run : option behaviour;
  t_arun : option behaviour;
  t_call : option behaviour
}.

Record ToolsManager := {
  mcp_tools : list tool;
  http_tools : list tool;
  custom_tools : list tool;
  see_tools : list tool;
  tool_info : gmap string ToolInfo;
  approval_enabled : bool
}.

(** [ToolsManager.__init__] *)
Definition init : ToolsManager :=
  {| mcp_tools := []; http_tools := []; custom_tools := [];
     see_tools := []; tool_info := ∅; approval_enabled := true |}.

Definition set_approval_mode (enabled : bool) (m : ToolsManager) : ToolsManager :=
  {| mcp_tools := mcp_tools m; http_tools := http_tools m;
     custom_tools := custom_tools m; see_tools := see_tools m;
     tool_info := tool_info m; approval_enabled := enabled |}.

Definition with_tool_info (m : ToolsManager) (ti : gmap string ToolInfo) : ToolsManager :=
  {| mcp_tools := mcp_tools m; http_tools := http_tools m;
     custom_tools := custom_tools m; see_tools := see_tools m;
     tool_info := ti; approval_enabled := approval_enabled m |}.

Definition with_mcp_tools (m : ToolsManager) (l : list tool) : ToolsManager :=
  {| mcp_tools := l; http_tools := http_tools m;
     custom_tools := custom_tools m; see_tools := see_tools m;
     tool_info := tool_info m; approval_enabled := approval_enabled m |}.

Definition with_http_tools (m : ToolsManager) (l : list tool) : ToolsManager :=
  {| mcp_tools := mcp_tools m; http_tools := l;
     custom_tools := custom_tools m; see_tools := see_tools m;
     tool_info := tool_info m; approval_enabled := approval_enabled m |}.

Definition with_custom_tools (m : ToolsManager) (l : list tool) : ToolsManager :=
  {| mcp_tools := mcp_tools m; http_tools := http_tools m;
     custom_tools := l; see_tools := see_tools m;
     tool_info := tool_info m; approval_enabled := approval_enabled m |}.

Definition with_see_tools (m : ToolsManager) (l : list tool) : ToolsManager :=
  {| mcp_tools := mcp_tools m; http_tools := http_tools m;
     custom_tools := custom_tools m; see_tools := l;
     tool_info := tool_info m; approval_enabled := approval_enabled m |}.

(** [ToolInfo(...)]: a pydantic model, validated when it is built. The
    names, descriptions and sources handed to it are strings;
    [parameters: Dict[str, Any]] accepts a dict only. *)
Definition ToolInfo_new (name description source : string) (parameters : json)
    (category : string) : PyResult ToolInfo :=
  match parameters with
  | JObj _ =>
      Returned {| ti_name := name; ti_description := description;
                  ti_source := source; ti_parameters := parameters;
                  ti_category := category |}
  | _ =>
      Raised (Exc "ValidationError"
                  "parameters: Input should be a valid dictionary")
  end.

(** The [ToolInfo(...)] built at each registration site from the
    attributes of the tool. *)
Definition mk_info (t : tool) (default_description source category : string)
    : PyResult ToolInfo :=
  ToolInfo_new (t_name t) (default default_description (t_description t))
    source (default (JObj []) (t_parameters t)) category.

(** The inner [for tool in tools: self.tool_info[tool_name] = ...]: it
    ends with the [ValidationError] of the first [ToolInfo(...)] that
    fails, the infos stored so far being kept. *)
Fixpoint store_infos (mk : tool -> PyResult ToolInfo) (tools : list tool)
    (ti : gmap string ToolInfo) : PyResult unit * gmap string ToolInfo :=
  match tools with
  | [] => (Returned tt, ti)
  | t :: tools' =>
      match mk t with
      | Returned i => store_infos mk tools' (<[t_name t := i]> ti)
      | Raised e => (Raised e, ti)
      end
  end.

(** [load_mcp_tools]. [servers] is [mcp_studio.get_initialized_servers()],
    each server given by its name and by what [_load_tools_from_server]
    does for it: it returns the adapter's tools, returns [[]] when the
    adapter raises, and raises itself when the server has no session. The
    [try] around the body of the loop logs whatever is raised, that of a
    [ToolInfo(...)] included, and the loop goes on with the next server:
    the tools of the server were all added by then. *)
Definition load_from_mcp_server (m : ToolsManager)
    (srv : string * PyResult (list tool)) : ToolsManager :=
  match srv with
  | (name, Returned tools) =>
      with_tool_info
        (with_mcp_tools m (mcp_tools m ++ tools))
        (store_infos
           (fun t => mk_info t "No description available"
                       ("mcp_server:" +:+ name) "mcp")
           tools (tool_info m)).2
  | (name, Raised _) => m
  end.

Definition load_mcp_tools (servers : list (string * PyResult (list tool)))
    (m : ToolsManager) : ToolsManager :=
  foldl load_from_mcp_server (with_mcp_tools m []) servers.

(** [add_custom_tools] and [add_see_tools]: each tool is appended, then
    its info is stored. Nothing catches the [ValidationError] of a
    [ToolInfo(...)]: it leaves the call, the tool that caused it being
    appended already and the tools after it not. *)
Fixpoint add_each (append : tool -> ToolsManager -> ToolsManager)
    (mk : tool -> PyResult ToolInfo) (tools : list tool)
    : M ToolsManager unit :=
  match tools with
  | [] => ret tt
  | t :: tools' =>
      modify (append t) ;;;
      (fun m =>
         match mk t with
         | Returned i =>
             (Returned tt, with_tool_info m (<[t_name t := i]> (tool_info m)))
         | Raised e => (Raised e, m)
         end) ;;;
      add_each append mk tools'
  end.

Definition add_custom_tools (tools : list tool) : M ToolsManager unit :=
  add_each (fun t m => with_custom_tools m (custom_tools m ++ [t]))
    (fun t => mk_info t "Custom tool - no description available"
                "custom" "custom")
    tools.

Definition add_see_tools (tools : list tool) : M ToolsManager unit :=
  add_each (fun t m => with_see_tools m (see_tools m ++ [t]))
    (fun t => mk_info t "SEE tool - vision and analysis" "see" "see")
    tools.

(** [_load_langchain_tools]: the adapter's tools are added as they are,
    then one info is stored per tool; [tool.description] is read without a
    default, so a tool that has none ends the loop with an
    [AttributeError], and so does, with a [ValidationError], a tool whose
    [args_schema] is not a dict. Both are logged. An adapter failure is
    logged and changes nothing. *)
Fixpoint store_langchain_infos (name : string) (tools : list tool)
    (ti : gmap string ToolInfo) : gmap string ToolInfo :=
  match tools with
  | [] => ti
  | t :: tools' =>
      match t_description t with
      | None => ti
      | Some description =>
          match ToolInfo_new (t_name t) description ("http_server:" +:+ name)
                  (default (JObj []) (t_args_schema t)) "http" with
          | Returned i => store_langchain_infos name tools' (<[t_name t := i]> ti)
          | Raised _ => ti
          end
      end
  end.

Definition _load_langchain_tools (name : string) (got : PyResult (list tool))
    (m : ToolsManager) : ToolsManager :=
  match got with
  | Returned tools =>
      with_tool_info
        (with_http_tools m (http_tools m ++ tools))
        (store_langchain_infos name tools (tool_info m))
  | Raised _ => m
  end.

(** One entry of [server.list_tools()], as far as the registry reads it:
    the optional keys [name], [description] and [parameters], the first
    two being strings when they are there. *)
Record tool_data := {
  td_name : option string;
  td_description : option string;
  td_parameters : option json
}.

(** [_create_http_tool]: a [BaseTool] subclass whose [_arun] forwards to
    [server.call_tool] and turns a failure into an error string, and
    whose synchronous [_run] refuses to run. [call] is the forwarded
    call, already bound to the server; [str] is Python's [str]. *)
Definition _create_http_tool (str : json -> string)
    (call : string -> behaviour) (entry : tool_data) : tool :=
  let tool_name := default "http_tool" (td_name entry) in
  let tool_description := default "HTTP/SSE MCP tool" (td_description entry) in
  let arun : behaviour := fun args w =>
    match call tool_name args w with
    | (Returned r, w') => (Returned (JStr (str r)), w')
    | (Raised e, w') =>
        (Returned (JStr ("Error executing HTTP tool " +:+ tool_name
                         +:+ ": " +:+ exc_msg e)), w')
    end in
  let run : behaviour := fun _ w =>
    (Raised (Exc "NotImplementedError" "Use async version"), w) in
  {| t_name := tool_name;
     t_truth := true;
     t_description := Some tool_description;
     t_parameters := None;
     t_args_schema := None;
     t_invoke := Some run;
     t_ainvoke := Some arun;
     t_run := Some run;
     t_arun := Some arun;
     t_call := None |}.

(** [_load_aiohttp_tools]: one tool per entry of [server.list_tools()].
    The tool is named after the entry, or "http_tool" when the entry has
    no name, while its info is keyed by the entry's name, or by
    [f'{server.name}_tool'] when it has none. The tool just made is an
    instance of a [BaseTool] subclass, which is true for [if tool]. An
    entry whose [parameters] is not a dict has its tool appended; the
    [ValidationError] of its [ToolInfo(...)] then ends the loop and is
    logged. *)
Definition load_aiohttp_entry (str : json -> string)
    (call : string -> behaviour) (name : string)
    (m : ToolsManager) (entry : tool_data) : PyResult unit * ToolsManager :=
  let t := _create_http_tool str call entry in
  let m1 := with_http_tools m (http_tools m ++ [t]) in
  let tool_name := default (name +:+ "_tool") (td_name entry) in
  match ToolInfo_new tool_name
          (default "HTTP/SSE MCP tool" (td_description entry))
          ("http_server:" +:+ name)
          (default (JObj []) (td_parameters entry)) "http" with
  | Returned i =>
      (Returned tt, with_tool_info m1 (<[tool_name := i]> (tool_info m1)))
  | Raised e => (Raised e, m1)
  end.

Fixpoint load_aiohttp_entries (str : json -> string)
    (call : string -> behaviour) (name : string)
    (entries : list tool_data) (m : ToolsManager) : ToolsManager :=
  match entries with
  | [] => m
  | entry :: entries' =>
      match load_aiohttp_entry str call name m entry with
      | (Returned _, m') => load_aiohttp_entries str call name entries' m'
      | (Raised _, m') => m'
      end
  end.

Definition _load_aiohttp_tools (str : json -> string)
    (call : string -> behaviour) (name : string)
    (listed : PyResult (list tool_data)) (m : ToolsManager) : ToolsManager :=
  match listed with
  | Returned entries => load_aiohttp_entries str call name entries m
  | Raised _ => m
  end.

(** [get_all_tools] and [find_tool_by_name]. *)
Definition get_all_tools (m : ToolsManager) : list tool :=
  mcp_tools m ++ http_tools m ++ custom_tools m ++ see_tools m.

Fixpoint find_by_name (tool_name : string) (tools : list tool) : option tool :=
  match tools with
  | [] => None
  | t :: tools' =>
      if String.eqb (t_name t) tool_name then Some t
      else find_by_name tool_name tools'
  end.

Definition find_tool_by_name (m : ToolsManager) (tool_name : string) : option tool :=
  find_by_name tool_name (get_all_tools m).

(** *** Console, trace and world of one execution *)

(** What one call of [input()] yields. An exhausted console is end of
    file, which [input] reports as [EOFError]. *)
Inductive console_input :=
| Line (s : string)
| KeyboardInterrupt
| InputError (e : py_exc).

Inductive event :=
| EvApprovalRequest (tool_name : string) (arguments : dict)
| EvInput
| EvInvoke (tool_name : string) (arguments : dict).

Record world := {
  w_stdin : list console_input;
  w_tools : W;
  w_trace : list event
}.

Definition emit (e : event) : M world unit :=
  modify (fun w => {| w_stdin := w_stdin w; w_tools := w_tools w;
                      w_trace := w_trace w ++ [e] |}).

(** [_display_tool_approval_request]: it prints the request; reading
    [tool_info.description] fails when the name has no [ToolInfo]. *)
Definition _display_tool_approval_request (tool_name : string)
    (arguments : dict) (info : option ToolInfo) : M world unit :=
  emit (EvApprovalRequest tool_name arguments) ;;;
  match info with
  | Some _ => ret tt
  | None =>
      raise (Exc "AttributeError"
                 "'NoneType' object has no attribute 'description'")
  end.

(** [_get_user_approval]: the [while True] loop reads until it gets
    "1" or "2"; an interrupt or a read error means disapproval. The
    console script is finite, so the loop ends at end of file at the
    latest. *)
Fixpoint approval_loop (stdin : list console_input)
    : bool * list console_input * nat :=
  match stdin with
  | [] => (false, [], 1%nat)
  | Line s :: rest =>
      if String.eqb (strip s) "1" then (true, rest, 1%nat)
      else if String.eqb (strip s) "2" then (false, rest, 1%nat)
      else let '(b, rest', n) := approval_loop rest in (b, rest', S n)
  | KeyboardInterrupt :: rest => (false, rest, 1%nat)
  | InputError _ :: rest => (false, rest, 1%nat)
  end.

Definition _get_user_approval : M world bool :=
  fun w =>
    let '(b, rest, n) := approval_loop (w_stdin w) in
    (Returned b,
     {| w_stdin := rest; w_tools := w_tools w;
        w_trace := w_trace w ++ replicate n EvInput |}).

(** Running a tool method against the tools' state. *)
Definition invoke (tool_name : string) (arguments : dict) (f : behaviour)
    : M world json :=
  emit (EvInvoke tool_name arguments) ;;;
  (fun w =>
     let '(r, s) := f arguments (w_tools w) in
     (r, {| w_stdin := w_stdin w; w_tools := s; w_trace := w_trace w |})).

Definition failure (tool_name error_msg : string) : ToolResult :=
  {| tr_tool_name := tool_name; tr_success := false;
     tr_result := JNull; tr_error := Some error_msg |}.

(** The [hasattr] ladder of [execute_tool_call]; [None] is the
    "not executable" branch. *)
Definition dispatch (t : tool) : option behaviour :=
  match t_invoke t with
  | Some inv => Some (default inv (t_ainvoke t))
  | None =>
      match t_run t with
      | Some run => Some (default run (t_arun t))
      | None => t_call t
      end
  end.

(** [tool = self.find_tool_by_name(...)] followed by [if not tool]: the
    tool found, unless Python takes it as false. *)
Definition found_tool (m : ToolsManager) (tool_name : string) : option tool :=
  match find_tool_by_name m tool_name with
  | Some t => if t_truth t then Some t else None
  | None => None
  end.

(** [execute_tool_call] *)
Definition execute_tool_call (m : ToolsManager) (tool_call : ToolCall)
    : M world ToolResult :=
  let name := tc_tool tool_call in
  let arguments := tc_arguments tool_call in
  try_except
    (match found_tool m name with
     | None => ret (failure name ("Tool '" +:+ name +:+ "' not found"))
     | Some t =>
         let info := tool_info m !! name in
         approved <-
           (if approval_enabled m then
              _display_tool_approval_request name arguments info ;;;
              _get_user_approval
            else ret true) ;;
         if negb approved then
           ret (failure name "Tool execution disapproved by user")
         else
           match dispatch t with
           | Some f =>
               result <- invoke name arguments f ;;
               ret {| tr_tool_name := name; tr_success := true;
                      tr_result := result; tr_error := None |}
           | None =>
               ret (failure name ("Tool '" +:+ name +:+ "' is not executable"))
           end
     end)
    (fun e =>
       ret (failure name
              ("Error executing tool '" +:+ name +:+ "': " +:+ exc_msg e))).

(** *** The two halves of [execute_tool_call], for the statements below *)

(** The world once the gate has been consulted: the request was shown and
    [n] lines were read. *)
Definition gated (tc : ToolCall) (rest : list console_input) (n : nat) (w : world) : world :=
  {| w_stdin := rest; w_tools := w_tools w;
     w_trace := (w_trace w ++ [EvApprovalRequest (tc_tool tc) (tc_arguments tc)])
                ++ replicate n EvInput |}.

(** What dispatching does once the gate is behind, from the world [w1]. *)
Definition dispatched (tc : ToolCall) (t : tool) (w1 : world)
    : PyResult ToolResult * world :=
  match dispatch t with
  | None =>
      (Returned (failure (tc_tool tc)
                   ("Tool '" +:+ tc_tool tc +:+ "' is not executable")), w1)
  | Some f =>
      let w2 s := {| w_stdin := w_stdin w1; w_tools := s;
                     w_trace := w_trace w1
                                ++ [EvInvoke (tc_tool tc) (tc_arguments tc)] |} in
      match f (tc_arguments tc) (w_tools w1) with
      | (Returned v, s) =>
          (Returned {| tr_tool_name := tc_tool tc; tr_success := true;
                       tr_result := v; tr_error := None |}, w2 s)
      | (Raised e, s) =>
          (Returned (failure (tc_tool tc)
                       ("Error executing tool '" +:+ tc_tool tc +:+ "': "
                        +:+ exc_msg e)), w2 s)
      end
  end.

(** *** The public operations, as a caller sequences them

    The manager each operation leaves is what counts here: for
    [add_custom_tools] and [add_see_tools] it is the manager at the time
    the call returns or raises, the caller going on in both cases. *)

Inductive operation :=
| LoadMcpTools (servers : list (string * PyResult (list tool)))
| LoadLangchainTools (server : string) (got : PyResult (list tool))
| LoadAiohttpTools (str : json -> string) (call : string -> behaviour)
                   (server : string) (listed : PyResult (list tool_data))
| AddCustomTools (tools : list tool)
| AddSeeTools (tools : list tool)
| SetApprovalMode (enabled : bool).

Definition apply (m : ToolsManager) (o : operation) : ToolsManager :=
  match o with
  | LoadMcpTools servers => load_mcp_tools servers m
  | LoadLangchainTools server got => _load_langchain_tools server got m
  | LoadAiohttpTools str call server listed =>
      _load_aiohttp_tools str call server listed m
  | AddCustomTools tools => (add_custom_tools tools m).2
  | AddSeeTools tools => (add_see_tools tools m).2
  | SetApprovalMode enabled => set_approval_mode enabled m
  end.

(** The manager after [ops], starting from a fresh one. *)
Definition after (ops : list operation) : ToolsManager := foldl apply init ops.

Definition disables_approval (o : operation) : bool :=
  match o with
  | SetApprovalMode false => true
  | _ => false
  end.

End Manager.

Arguments t_name {W}.
Arguments t_truth {W}.
Arguments t_description {W}.
Arguments t_parameters {W}.
Arguments t_args_schema {W}.
Arguments t_invoke {W}.
Arguments t_ainvoke {W}.
Arguments t_run {W}.
Arguments t_arun {W}.
Arguments t_call {W}.
Arguments mcp_tools {W}.
Arguments http_tools {W}.
Arguments custom_tools {W}.
Arguments see_tools {W}.
Arguments tool_info {W}.
Arguments approval_enabled {W}.
Arguments w_stdin {W}.
Arguments w_tools {W}.
Arguments w_trace {W}.
Arguments set_approval_mode {W}.
Arguments with_tool_info {W}.
Arguments with_mcp_tools {W}.
Arguments with_http_tools {W}.
Arguments with_custom_tools {W}.
Arguments with_see_tools {W}.
Arguments mk_info {W}.
Arguments store_infos {W}.
Arguments load_from_mcp_server {W}.
Arguments load_mcp_tools {W}.
Arguments add_each {W}.
Arguments add_custom_tools {W}.
Arguments add_see_tools {W}.
Arguments store_langchain_infos {W}.
Arguments _load_langchain_tools {W}.
Arguments _create_http_tool {W}.
Arguments load_aiohttp_entry {W}.
Arguments load_aiohttp_entries {W}.
Arguments _load_aiohttp_tools {W}.
Arguments get_all_tools {W}.
Arguments find_by_name {W}.
Arguments find_tool_by_name {W}.
Arguments found_tool {W}.
Arguments emit {W}.
Arguments _display_tool_approval_request {W}.
Arguments _get_user_approval {W}.
Arguments invoke {W}.
Arguments dispatch {W}.
Arguments execute_tool_call {W}.
Arguments init {W}.
Arguments gated {W}.
Arguments dispatched {W}.
Arguments apply {W}.
Arguments after {W}.
Arguments disables_approval {W}.
Arguments LoadMcpTools {W}.
Arguments LoadLangchainTools {W}.
Arguments LoadAiohttpTools {W}.
Arguments AddCustomTools {W}.
Arguments AddSeeTools {W}.
Arguments SetApprovalMode {W}.

End ToolsManagerPy.

(** ** Runtime shared by the two studios

    Handles of what a connection holds open, the requests of the plain
    HTTP client, the trace of what reached the outside world, and
    [contextlib.AsyncExitStack]. *)

Module Runtime.

Definition resource := nat.

Inductive http_method := GET | POST.

Record request := {
  rq_method : http_method;
  rq_url : string;
  rq_headers : list (string * string);
  rq_json : option json
}.

(** What [session.get] / [session.post] yields: the request raises, or a
    response arrives whose [json()] and [text()] may raise in turn. *)
Inductive reply :=
| NetError (e : py_exc)
| Response (status : Z) (headers : list (string * string))
           (body_json : PyResult json) (body_text : PyResult string).

(** [response.headers.get(k)]: header names compare without case. *)
Fixpoint header_get (k : string) (hs : list (string * string)) : option string :=
  match hs with
  | [] => None
  | (k', v) :: hs' =>
      if String.eqb (lower k) (lower k') then Some v else header_get k hs'
  end.

Inductive event :=
| EvInitialize (server : string)
| EvCleanup (server : string)
| EvSpawn (server : string) (command : string) (args : list string)
| EvOpenSession (server : string)
| EvLangchainClient (server : string)
| EvRequest (server : string) (rq : request)
| EvRelease (r : resource).

Section World.

(** State of the outside world: processes, remote servers. *)
Variable E : Type.

Record world := { w_env : E; w_trace : list event }.

(** Releasing one resource: the exit callback of a context manager. *)
Variable release : resource -> E -> option py_exc * E.

(** A method of an object of type [O]: it reads and writes [self] and
    the world. *)
Definition method (O A : Type) := M (O * world) A.

Definition self {O} : method O O := fun s => (Returned (fst s), s).

Definition set_self {O} (f : O -> O) : method O unit :=
  fun s => (Returned tt, (f (fst s), snd s)).

Definition emit {O} (ev : event) : method O unit :=
  fun s => (Returned tt,
            (fst s, {| w_env := w_env (snd s);
                       w_trace := w_trace (snd s) ++ [ev] |})).

(** A call answered by the environment. *)
Definition env_call {O A} (f : E -> A * E) : method O A :=
  fun s =>
    let '(a, e') := f (w_env (snd s)) in
    (Returned a, (fst s, {| w_env := e'; w_trace := w_trace (snd s) |})).

(** [AsyncExitStack.aclose()]: the callbacks are popped and run last in
    first out; every one of them runs even when an earlier one raised,
    and the exception raised last is the one that leaves [aclose]. The
    stack is empty afterwards in every case. The head of the list is
    the top of the stack. *)
Fixpoint unwind (stack : list resource) (pending : option py_exc)
    (w : world) : option py_exc * world :=
  match stack with
  | [] => (pending, w)
  | r :: stack' =>
      let '(o, e') := release r (w_env w) in
      unwind stack'
             (match o with Some x => Some x | None => pending end)
             {| w_env := e'; w_trace := w_trace w ++ [EvRelease r] |}
  end.

Definition aclose {O} (get_stack : O -> list resource)
    (clear_stack : O -> O) : method O unit :=
  fun s =>
    let '(o, w') := unwind (get_stack (fst s)) None (snd s) in
    match o with
    | None => (Returned tt, (clear_stack (fst s), w'))
    | Some e => (Raised e, (clear_stack (fst s), w'))
    end.

(** A studio holds its servers in a list; a method call on the [i]-th
    one updates that object in place. *)
Definition studio (O A : Type) := M (list O * world) A.

Definition on_server {O A} (i : nat) (m : method O A) : studio O A :=
  fun s =>
    match fst s !! i with
    | Some o =>
        let '(r, (o', w')) := m (o, snd s) in
        (r, (<[i := o']> (fst s), w'))
    | None => (Raised (Exc "IndexError" "list index out of range"), s)
    end.

(** [for i in idxs: body i] *)
Fixpoint for_each {St} (idxs : list nat) (body : nat -> M St unit) : M St unit :=
  match idxs with
  | [] => ret tt
  | i :: idxs' => body i ;;; for_each idxs' body
  end.

(** The isolated reading of a fleet operation: every object undergoes [m]
    in turn, from the world its predecessor left, and what [m] returned or
    raised is only recorded. The studio loops are compared with it. *)
Fixpoint each_in_turn {O} (m : method O unit) (os : list O) (w : world)
    : list (PyResult unit) * (list O * world) :=
  match os with
  | [] => ([], ([], w))
  | o :: os' =>
      let '(r, (o', w1)) := m (o, w) in
      let '(rs, (os'', w2)) := each_in_turn m os' w1 in
      (r :: rs, (o' :: os'', w2))
  end.

(** The replies the remote end gives to a fixed sequence of requests. *)
Variable serve : request -> E -> reply * E.

Fixpoint replies (rqs : list request) (e : E) : list reply :=
  match rqs with
  | [] => []
  | rq :: rqs' => let '(rep, e') := serve rq e in rep :: replies rqs' e'
  end.

End World.

Arguments w_env {E}.
Arguments w_trace {E}.

(** The requests recorded in a trace. *)
Definition requests_of (tr : list event) : list request :=
  omap (fun ev => match ev with EvRequest _ rq => Some rq | _ => None end) tr.

(** A reply that is not a 200 response: the request raised, or another
    status came back. *)
Definition not_ok (rep : reply) : bool :=
  match rep with
  | NetError _ => true
  | Response status _ _ _ => negb (status =? 200)%Z
  end.

(** A reply the connectivity probe does not accept: the request raised, or
    the status is 500 or more. *)
Definition server_error (rep : reply) : bool :=
  match rep with
  | NetError _ => true
  | Response status _ _ _ => negb (status <? 500)%Z
  end.

End Runtime.

(** ** Pydantic field validation

    A [BaseModel] built from keyword arguments: a missing required field or
    a value of the wrong type raises [ValidationError]; a missing optional
    field takes its default; unknown keys are ignored. Validation is in
    pydantic's lax mode: a field of type [str], [List[str]] or
    [Dict[str, str]] takes no value of another JSON type, while the fields
    of type [int] and [bool] convert. *)

Module Pydantic.

Definition validation_error (field reason : string) : py_exc :=
  Exc "ValidationError" (field +:+ ": " +:+ reason).

Definition required_str (field : string) (d : dict) : PyResult string :=
  match dict_get field d with
  | None => Raised (validation_error field "Field required")
  | Some (JStr s) => Returned s
  | Some _ => Raised (validation_error field "Input should be a valid string")
  end.

Definition default_str (field dflt : string) (d : dict) : PyResult string :=
  match dict_get field d with
  | None => Returned dflt
  | Some (JStr s) => Returned s
  | Some _ => Raised (validation_error field "Input should be a valid string")
  end.

Definition optional_str (field : string) (d : dict) : PyResult (option string) :=
  match dict_get field d with
  | None | Some JNull => Returned None
  | Some (JStr s) => Returned (Some s)
  | Some _ => Raised (validation_error field "Input should be a valid string")
  end.

(** An [Optional[int]] field: an int is taken as it is and a bool as 0 or
    1; a string is converted when pydantic reads an int in it, which
    [int_of_str] stands for (what it accepts beyond plain decimal digits
    differs between versions of pydantic). *)
Definition optional_int (int_of_str : string -> option Z) (field : string)
    (dflt : option Z) (d : dict) : PyResult (option Z) :=
  match dict_get field d with
  | None => Returned dflt
  | Some JNull => Returned None
  | Some (JNum z) => Returned (Some z)
  | Some (JBool b) => Returned (Some (if b then 1%Z else 0%Z))
  | Some (JStr s) =>
      match int_of_str s with
      | Some z => Returned (Some z)
      | None =>
          Raised (validation_error field
                    "Input should be a valid integer, unable to parse string as an integer")
      end
  | Some _ => Raised (validation_error field "Input should be a valid integer")
  end.

(** The strings pydantic reads as a bool, compared without ASCII case. *)
Definition bool_of_str (s : string) : option bool :=
  let l := lower s in
  if existsb (String.eqb l) ["0"; "off"; "f"; "false"; "n"; "no"] then Some false
  else if existsb (String.eqb l) ["1"; "on"; "t"; "true"; "y"; "yes"] then Some true
  else None.

(** An [Optional[bool]] field: a bool, the ints 0 and 1, or one of the
    strings above. *)
Definition optional_bool (field : string) (dflt : option bool) (d : dict)
    : PyResult (option bool) :=
  match dict_get field d with
  | None => Returned dflt
  | Some JNull => Returned None
  | Some (JBool b) => Returned (Some b)
  | Some (JNum 0) => Returned (Some false)
  | Some (JNum 1) => Returned (Some true)
  | Some (JStr s) =>
      match bool_of_str s with
      | Some b => Returned (Some b)
      | None =>
          Raised (validation_error field
                    "Input should be a valid boolean, unable to interpret input")
      end
  | Some _ => Raised (validation_error field "Input should be a valid boolean")
  end.

Fixpoint all_str (l : list json) : option (list string) :=
  match l with
  | [] => Some []
  | JStr s :: l' => cons s <$> all_str l'
  | _ :: _ => None
  end.

Fixpoint all_str_values (kv : list (string * json)) : option (list (string * string)) :=
  match kv with
  | [] => Some []
  | (k, JStr s) :: kv' => cons (k, s) <$> all_str_values kv'
  | _ :: _ => None
  end.

Definition optional_str_list (field : string) (d : dict)
    : PyResult (option (list string)) :=
  match dict_get field d with
  | None | Some JNull => Returned None
  | Some (JList l) =>
      match all_str l with
      | Some ss => Returned (Some ss)
      | None => Raised (validation_error field "Input should be a valid string")
      end
  | Some _ => Raised (validation_error field "Input should be a valid list")
  end.

Definition optional_str_dict (field : string) (d : dict)
    : PyResult (option (list (string * string))) :=
  match dict_get field d with
  | None | Some JNull => Returned None
  | Some (JObj kv) =>
      match all_str_values kv with
      | Some ss => Returned (Some ss)
      | None => Raised (validation_error field "Input should be a valid string")
      end
  | Some _ => Raised (validation_error field "Input should be a valid dictionary")
  end.

(** Sequencing of field validations. *)
Definition and_then {A B} (r : PyResult A) (k : A -> PyResult B) : PyResult B :=
  match r with
  | Returned a => k a
  | Raised e => Raised e
  end.

End Pydantic.

(** ** utils/mcp_studio.py *)

Module McpStudioPy.
Import Runtime Pydantic.

Record ServerConfig := {
  sc_transport : string;
  sc_command : option string;
  sc_args : option (list string);
  sc_env : option (list (string * string));
  sc_url : option string
}.

(** [ServerConfig] built from the keys of [config]. *)
Definition ServerConfig_new (config : dict) : PyResult ServerConfig :=
  and_then (default_str "transport" "stdio" config) (fun transport =>
  and_then (optional_str "command" config) (fun command =>
  and_then (optional_str_list "args" config) (fun args =>
  and_then (optional_str_dict "env" config) (fun env =>
  and_then (optional_str "url" config) (fun url =>
  Returned {| sc_transport := transport; sc_command := command;
              sc_args := args; sc_env := env; sc_url := url |}))))).

(** [session] holds the handle of the MCP client session; [exit_stack]
    is the [AsyncExitStack], top first. [stdio_context] is never
    assigned anything but [None]. *)
Record MCPServer := {
  name : string;
  config : ServerConfig;
  session : option resource;
  exit_stack : list resource
}.

(** [MCPServer.__init__] *)
Definition MCPServer_new (nm : string) (cfg : dict) : PyResult MCPServer :=
  and_then (ServerConfig_new cfg) (fun c =>
  Returned {| name := nm; config := c; session := None; exit_stack := [] |}).

Definition is_initialized (srv : MCPServer) : bool :=
  match session srv with Some _ => true | None => false end.

Definition set_session (o : option resource) (srv : MCPServer) : MCPServer :=
  {| name := name srv; config := config srv; session := o;
     exit_stack := exit_stack srv |}.

Definition set_exit_stack (st : list resource) (srv : MCPServer) : MCPServer :=
  {| name := name srv; config := config srv; session := session srv;
     exit_stack := st |}.

Definition push (r : resource) (srv : MCPServer) : MCPServer :=
  set_exit_stack (r :: exit_stack srv) srv.

(** [StdioServerParameters]: [env] is the process environment overridden
    by the configured one, or [None] when none is configured. *)
Record StdioServerParameters := {
  sp_command : string;
  sp_args : list string;
  sp_env : option (gmap string string)
}.

(** How far bringing up the subprocess gets: [stdio_client] may fail to
    start it, [ClientSession] may fail to open on its pipes, the
    [initialize] handshake may fail, or all three succeed. Each context
    entered so far is on the exit stack. *)
Inductive spawn_outcome :=
| StdioClientFails (e : py_exc)
| ClientSessionFails (transport : resource) (e : py_exc)
| HandshakeFails (transport : resource) (sess : resource) (e : py_exc)
| Connected (transport : resource) (sess : resource).

(** What one [cleanup] leaves in the trace: the visit, then the release of
    everything on the exit stack, top first. *)
Definition stdio_visit (srv : MCPServer) : list event :=
  EvCleanup (name srv) :: map EvRelease (exit_stack srv).

Section Env.

Variable E : Type.
Variable release : resource -> E -> option py_exc * E.
Variable spawn : StdioServerParameters -> E -> spawn_outcome * E.
(** [shutil.which("npx")] and [os.environ]. *)
Variable which_npx : option string.
Variable os_environ : gmap string string.

Abbreviation world := (world E).
Abbreviation method := (method E).
Abbreviation studio := (studio E).

(** [MCPServer.cleanup] *)
Definition cleanup : method MCPServer unit :=
  srv <- self E ;;
  emit E (EvCleanup (name srv)) ;;;
  try_except
    (aclose E release exit_stack (set_exit_stack []) ;;;
     set_self E (set_session None))
    (fun _ => ret tt).

Definition ValueError (msg : string) : py_exc := Exc "ValueError" msg.

(** [MCPServer.initialize] *)
Definition initialize : method MCPServer unit :=
  srv <- self E ;;
  emit E (EvInitialize (name srv)) ;;;
  if negb (String.eqb (sc_transport (config srv)) "stdio") then
    raise (ValueError ("Server " +:+ name srv +:+ " uses "
                       +:+ sc_transport (config srv)
                       +:+ " transport, but only stdio is supported"))
  else
    match sc_command (config srv) with
    | None | Some "" =>
        raise (ValueError ("Server " +:+ name srv
                           +:+ " requires a command for stdio transport"))
    | Some cmd =>
        match (if String.eqb cmd "npx" then which_npx else Some cmd) with
        | None =>
            raise (ValueError
                     "The command must be a valid string and cannot be None.")
        | Some command =>
            let server_params :=
              {| sp_command := command;
                 sp_args := default [] (sc_args (config srv));
                 sp_env :=
                   match sc_env (config srv) with
                   | None | Some [] => None
                   | Some env => Some (list_to_map env ∪ os_environ)
                   end |} in
            try_except
              (emit E (EvSpawn (name srv) command (sp_args server_params)) ;;;
               out <- env_call E (spawn server_params) ;;
               match out with
               | StdioClientFails e => raise e
               | ClientSessionFails tr e => set_self E (push tr) ;;; raise e
               | HandshakeFails tr ss e =>
                   set_self E (push tr) ;;; set_self E (push ss) ;;; raise e
               | Connected tr ss =>
                   set_self E (push tr) ;;; set_self E (push ss) ;;;
                   set_self E (set_session (Some ss))
               end)
              (fun e => cleanup ;;; raise e)
        end
    end.

(** *** MCPStudio *)

(** [add_server]: the server is appended unless its configuration is
    rejected, in which case the [ValidationError] is raised again. *)
Definition add_server (nm : string) (server_config : dict)
    : studio MCPServer unit :=
  fun s =>
    match MCPServer_new nm server_config with
    | Returned srv => (Returned tt, ((fst s ++ [srv])%list, snd s))
    | Raised e => (Raised e, s)
    end.

(** [cleanup_all_servers]: [for server in reversed(self.servers)]. *)
Definition cleanup_all_servers : studio MCPServer unit :=
  fun s =>
    for_each (rev (seq 0 (length (fst s))))
      (fun i => try_except (on_server E i cleanup) (fun _ => ret tt)) s.

(** [initialize_all_servers]: the first failure tears everything down
    and is raised again. *)
Definition initialize_all_servers : studio MCPServer unit :=
  fun s =>
    for_each (seq 0 (length (fst s)))
      (fun i =>
         try_except (on_server E i initialize)
           (fun e => cleanup_all_servers ;;; raise e)) s.

Definition get_initialized_servers (servers : list MCPServer) : list MCPServer :=
  filter (fun srv => is_initialized srv = true) servers.

End Env.

End McpStudioPy.


(** ** utils/mcp_see_http.py *)

Module McpSeeHttpPy.
Import Runtime Pydantic.

Record HttpServerConfig := {
  hc_transport : string;
  hc_url : string;
  hc_headers : option (list (string * string));
  hc_timeout : option Z;
  hc_ssl_verify : option bool
}.

(** [HttpServerConfig] built from the keys of [config]; [int_of_str] is
    pydantic's reading of a string as an int, for [timeout]. *)
Definition HttpServerConfig_new (int_of_str : string -> option Z)
    (config : dict) : PyResult HttpServerConfig :=
  and_then (required_str "transport" config) (fun transport =>
  and_then (required_str "url" config) (fun url =>
  and_then (optional_str_dict "headers" config) (fun headers =>
  and_then (optional_int int_of_str "timeout" (Some 30%Z) config) (fun timeout =>
  and_then (optional_bool "ssl_verify" (Some true) config) (fun ssl_verify =>
  Returned {| hc_transport := transport; hc_url := url;
              hc_headers := headers; hc_timeout := timeout;
              hc_ssl_verify := ssl_verify |}))))).

(** [session] is the handle of the [aiohttp.ClientSession],
    [_langchain_client] that of the [MultiServerMCPClient]; [exit_stack]
    is the [AsyncExitStack], top first. *)
Record HttpMCPServer := {
  name : string;
  config : HttpServerConfig;
  session : option resource;
  is_connected : bool;
  exit_stack : list resource;
  base_url : string;
  mcp_session_id : option string;
  _langchain_client : option resource
}.

(** [HttpMCPServer.__init__] *)
Definition HttpMCPServer_new (int_of_str : string -> option Z)
    (nm : string) (cfg : dict) : PyResult HttpMCPServer :=
  and_then (HttpServerConfig_new int_of_str cfg) (fun c =>
  Returned {| name := nm; config := c; session := None;
              is_connected := false; exit_stack := [];
              base_url := rstrip_slash (hc_url c);
              mcp_session_id := None; _langchain_client := None |}).

Definition is_initialized (srv : HttpMCPServer) : bool :=
  is_connected srv
  && (match session srv with Some _ => true | None => false end
      || match _langchain_client srv with Some _ => true | None => false end).

Definition set_session (o : option resource) (srv : HttpMCPServer) : HttpMCPServer :=
  {| name := name srv; config := config srv; session := o;
     is_connected := is_connected srv; exit_stack := exit_stack srv;
     base_url := base_url srv; mcp_session_id := mcp_session_id srv;
     _langchain_client := _langchain_client srv |}.

Definition set_is_connected (b : bool) (srv : HttpMCPServer) : HttpMCPServer :=
  {| name := name srv; config := config srv; session := session srv;
     is_connected := b; exit_stack := exit_stack srv;
     base_url := base_url srv; mcp_session_id := mcp_session_id srv;
     _langchain_client := _langchain_client srv |}.

Definition set_exit_stack (st : list resource) (srv : HttpMCPServer) : HttpMCPServer :=
  {| name := name srv; config := config srv; session := session srv;
     is_connected := is_connected srv; exit_stack := st;
     base_url := base_url srv; mcp_session_id := mcp_session_id srv;
     _langchain_client := _langchain_client srv |}.

Definition set_mcp_session_id (o : option string) (srv : HttpMCPServer) : HttpMCPServer :=
  {| name := name srv; config := config srv; session := session srv;
     is_connected := is_connected srv; exit_stack := exit_stack srv;
     base_url := base_url srv; mcp_session_id := o;
     _langchain_client := _langchain_client srv |}.

Definition set_langchain_client (o : option resource) (srv : HttpMCPServer) : HttpMCPServer :=
  {| name := name srv; config := config srv; session := session srv;
     is_connected := is_connected srv; exit_stack := exit_stack srv;
     base_url := base_url srv; mcp_session_id := mcp_session_id srv;
     _langchain_client := o |}.

Definition push (r : resource) (srv : HttpMCPServer) : HttpMCPServer :=
  set_exit_stack (r :: exit_stack srv) srv.

(** The [headers] built before each listing or call request:
    [if self.mcp_session_id: headers['mcp-session-id'] = ...]. *)
Definition session_headers (srv : HttpMCPServer) : list (string * string) :=
  match mcp_session_id srv with
  | None | Some "" => []
  | Some id => [("mcp-session-id", id)]
  end.

Definition health_endpoints : list string := ["/"; "/health"; "/status"].

Definition tool_endpoints : list string := ["/tools"; "/api/tools"; "/mcp/tools"].

Definition call_endpoints (tool_name : string) : list string :=
  ["/tools/" +:+ tool_name; "/api/tools/" +:+ tool_name;
   "/mcp/tools/" +:+ tool_name].

Definition mcp_request (meth : string) (params : json) : json :=
  JObj [("jsonrpc", JStr "2.0"); ("id", JNum 1); ("method", JStr meth);
        ("params", params)].

(** [type(v).__name__], as it appears in an [AttributeError]. *)
Definition type_name (v : json) : string :=
  match v with
  | JNull => "NoneType"
  | JBool _ => "bool"
  | JNum _ => "int"
  | JStr _ => "str"
  | JList _ => "list"
  | JObj _ => "dict"
  end.

Definition no_attribute (v : json) (attr : string) : py_exc :=
  Exc "AttributeError"
      ("'" +:+ type_name v +:+ "' object has no attribute '" +:+ attr +:+ "'").

Definition no_len (v : json) : py_exc :=
  Exc "TypeError" ("object of type '" +:+ type_name v +:+ "' has no len()").

(** What the body of a 200 listing response is turned into. The envelope's
    [tools] value is returned as it is; its [len] is taken for the log
    line first, which raises on a value without length. *)
Definition parse_listing (tools_data : json) : PyResult json :=
  match tools_data with
  | JObj kv =>
      match dict_get "tools" kv with
      | Some tools_list =>
          match py_len tools_list with
          | Some _ => Returned tools_list
          | None => Raised (no_len tools_list)
          end
      | None => Returned (JList [])
      end
  | JList _ => Returned tools_data
  | _ => Returned (JList [])
  end.

(** [result.get('result', {}).get('tools', [])], then [len(tools)]. *)
Definition parse_rpc_listing (result : json) : PyResult json :=
  match result with
  | JObj kv =>
      match default (JObj []) (dict_get "result" kv) with
      | JObj kv' =>
          let tools := default (JList []) (dict_get "tools" kv') in
          match py_len tools with
          | Some _ => Returned tools
          | None => Raised (no_len tools)
          end
      | v => Raised (no_attribute v "get")
      end
  | v => Raised (no_attribute v "get")
  end.

(** [result.get('result', result)] *)
Definition parse_rpc_call (result : json) : PyResult json :=
  match result with
  | JObj kv => Returned (default result (dict_get "result" kv))
  | v => Raised (no_attribute v "get")
  end.

Definition RuntimeError (msg : string) : py_exc := Exc "RuntimeError" msg.
Definition ClientError (msg : string) : py_exc := Exc "ClientError" msg.

(** A tool as the langchain adapter hands it out. *)
Record adapter_tool (E : Type) := {
  at_name : string;
  at_description : string;
  at_args_schema : option json;
  at_ainvoke : dict -> E -> PyResult json * E
}.
Arguments at_name {E}.
Arguments at_description {E}.
Arguments at_args_schema {E}.
Arguments at_ainvoke {E}.

(** What one [cleanup] leaves in the trace: the visit, then the release of
    the exit stack when a session is held. *)
Definition http_visit (srv : HttpMCPServer) : list event :=
  EvCleanup (name srv)
  :: match session srv with
     | Some _ => map EvRelease (exit_stack srv)
     | None => []
     end.

(** What an accepted probe reply does to the server: a 200 that carries a
    non-empty [mcp-session-id] sets the token, anything else leaves the
    server as it is. *)
Definition captured (status : Z) (headers : list (string * string))
    (srv : HttpMCPServer) : HttpMCPServer :=
  if (status =? 200)%Z then
    match header_get "mcp-session-id" headers with
    | None | Some "" => srv
    | Some id => set_mcp_session_id (Some id) srv
    end
  else srv.

(** The value of the JSON-RPC step of the listing, from its reply. *)
Definition rpc_listing_value (rep : reply) : json :=
  match rep with
  | Response status _ (Returned result) _ =>
      if (status =? 200)%Z then
        match parse_rpc_listing result with
        | Returned tools => tools
        | Raised _ => JList []
        end
      else JList []
  | _ => JList []
  end.

Section Env.

Variable E : Type.
(** pydantic's reading of a string as an int. *)
Variable int_of_str : string -> option Z.
Variable release : resource -> E -> option py_exc * E.
(** [aiohttp.ClientSession(...)] entered on the exit stack. *)
Variable open_session : string -> HttpServerConfig -> E -> PyResult resource * E.
(** [MultiServerMCPClient(server_config)] and its [get_tools()]. *)
Variable new_client : string -> HttpServerConfig -> E -> PyResult resource * E.
Variable get_tools : resource -> E -> PyResult (list (adapter_tool E)) * E.
(** The remote end: one request, one reply. *)
Variable serve : request -> E -> reply * E.
(** [urllib.parse.urljoin] and [datetime.now().isoformat()]. *)
Variable urljoin : string -> string -> string.
Variable clock : E -> string.

Abbreviation world := (world E).
Abbreviation method := (method E).
Abbreviation studio := (studio E).

(** [self.session.get(...)] / [self.session.post(...)] *)
Definition send (rq : request) : method HttpMCPServer reply :=
  srv <- self E ;;
  emit E (EvRequest (name srv) rq) ;;;
  env_call E (serve rq).

(** The world after one exchange: the request is recorded and the remote
    end has answered. *)
Definition exchanged (srv : HttpMCPServer) (rq : request) (w : world) : world :=
  {| w_env := (serve rq (w_env w)).2;
     w_trace := w_trace w ++ [EvRequest (name srv) rq] |}.

(** The requests of the connectivity probe, in the order of the source:
    one GET per health endpoint, then the GET of the base URL. *)
Definition probe_requests_for (eps : list string) (srv : HttpMCPServer)
    : list request :=
  map (fun ep => {| rq_method := GET; rq_url := urljoin (base_url srv) ep;
                    rq_headers := []; rq_json := None |}) eps
  ++ [{| rq_method := GET; rq_url := base_url srv;
         rq_headers := []; rq_json := None |}].

Definition probe_requests := probe_requests_for health_endpoints.

(** The requests of the listing cascade: one GET per listing endpoint,
    then the JSON-RPC POST to the base URL. *)
Definition listing_requests_for (eps : list string) (srv : HttpMCPServer)
    : list request :=
  map (fun ep => {| rq_method := GET; rq_url := urljoin (base_url srv) ep;
                    rq_headers := session_headers srv; rq_json := None |}) eps
  ++ [{| rq_method := POST; rq_url := base_url srv;
         rq_headers := session_headers srv;
         rq_json := Some (mcp_request "tools/list" (JObj [])) |}].

Definition listing_requests := listing_requests_for tool_endpoints.

(** [_test_connection]: the loop over the health endpoints, then, when no
    endpoint made it return, the plain GET of the base URL. The probe
    requests pass no [headers] argument. *)
Fixpoint probe (endpoints : list string) : method HttpMCPServer unit :=
  match endpoints with
  | [] =>
      srv <- self E ;;
      _ <- send {| rq_method := GET; rq_url := base_url srv;
                   rq_headers := []; rq_json := None |} ;;
      ret tt
  | endpoint :: rest =>
      srv <- self E ;;
      rep <- send {| rq_method := GET;
                     rq_url := urljoin (base_url srv) endpoint;
                     rq_headers := []; rq_json := None |} ;;
      match rep with
      | NetError _ => probe rest
      | Response status headers _ _ =>
          if (status =? 200)%Z then
            match header_get "mcp-session-id" headers with
            | None | Some "" => ret tt
            | Some id => set_self E (set_mcp_session_id (Some id))
            end
          else if (status <? 500)%Z then ret tt
          else probe rest
      end
  end.

Definition _test_connection : method HttpMCPServer unit :=
  try_except (probe health_endpoints) (fun _ => ret tt).

(** [cleanup] *)
Definition cleanup : method HttpMCPServer unit :=
  srv <- self E ;;
  emit E (EvCleanup (name srv)) ;;;
  try_except
    (match session srv with
     | Some _ =>
         aclose E release exit_stack (set_exit_stack []) ;;;
         set_self E (set_session None)
     | None => ret tt
     end ;;;
     set_self E (set_langchain_client None) ;;;
     set_self E (set_is_connected false) ;;;
     set_self E (set_mcp_session_id None))
    (fun _ => ret tt).

(** [_initialize_langchain] and [_initialize_aiohttp]; both log and raise
    again whatever goes wrong. *)
Definition _initialize_langchain : method HttpMCPServer unit :=
  srv <- self E ;;
  emit E (EvLangchainClient (name srv)) ;;;
  r <- env_call E (new_client (name srv) (config srv)) ;;
  match r with
  | Raised e => raise e
  | Returned c =>
      set_self E (set_langchain_client (Some c)) ;;;
      set_self E (set_is_connected true)
  end.

Definition _initialize_aiohttp : method HttpMCPServer unit :=
  srv <- self E ;;
  emit E (EvOpenSession (name srv)) ;;;
  r <- env_call E (open_session (name srv) (config srv)) ;;
  match r with
  | Raised e => raise e
  | Returned s =>
      set_self E (push s) ;;;
      set_self E (set_session (Some s)) ;;;
      _test_connection ;;;
      set_self E (set_is_connected true)
  end.

(** [initialize] *)
Definition initialize : method HttpMCPServer unit :=
  srv <- self E ;;
  emit E (EvInitialize (name srv)) ;;;
  try_except
    (let transport := lower (hc_transport (config srv)) in
     if String.eqb transport "sse" || String.eqb transport "streamable_http"
     then _initialize_langchain
     else _initialize_aiohttp)
    (fun e => cleanup ;;; raise e).

(** [_list_tools_aiohttp]: the loop over the listing endpoints, continued
    by the JSON-RPC request once the endpoints are exhausted. A request
    that raises, a body that does not parse and a failing [len] all land
    in the [except] of the loop body, which moves on. *)
Fixpoint list_cascade (endpoints : list string) : method HttpMCPServer json :=
  match endpoints with
  | [] =>
      srv <- self E ;;
      rep <- send {| rq_method := POST; rq_url := base_url srv;
                     rq_headers := session_headers srv;
                     rq_json := Some (mcp_request "tools/list" (JObj [])) |} ;;
      match rep with
      | NetError _ => ret (JList [])
      | Response status _ body _ =>
          if (status =? 200)%Z then
            match body with
            | Raised _ => ret (JList [])
            | Returned result =>
                match parse_rpc_listing result with
                | Returned tools => ret tools
                | Raised _ => ret (JList [])
                end
            end
          else ret (JList [])
      end
  | endpoint :: rest =>
      srv <- self E ;;
      rep <- send {| rq_method := GET;
                     rq_url := urljoin (base_url srv) endpoint;
                     rq_headers := session_headers srv; rq_json := None |} ;;
      match rep with
      | NetError _ => list_cascade rest
      | Response status _ body _ =>
          if (status =? 200)%Z then
            match body with
            | Raised _ => list_cascade rest
            | Returned tools_data =>
                match parse_listing tools_data with
                | Returned tools => ret tools
                | Raised _ => list_cascade rest
                end
            end
          else if (status =? 404)%Z then list_cascade rest
          else list_cascade rest
      end
  end.

Definition _list_tools_aiohttp : method HttpMCPServer json :=
  srv <- self E ;;
  match session srv with
  | None => raise (RuntimeError ("Session not initialized for " +:+ name srv))
  | Some _ => try_except (list_cascade tool_endpoints) (fun _ => ret (JList []))
  end.

(** [_list_tools_langchain] *)
Definition _list_tools_langchain (client : resource) : method HttpMCPServer json :=
  r <- env_call E (get_tools client) ;;
  match r with
  | Returned tools =>
      ret (JList (map (fun t =>
                         JObj [("name", JStr (at_name t));
                               ("description", JStr (at_description t));
                               ("parameters",
                                default (JObj []) (at_args_schema t))])
                      tools))
  | Raised _ => ret (JList [])
  end.

(** [list_tools] *)
Definition list_tools : method HttpMCPServer json :=
  srv <- self E ;;
  if negb (is_connected srv) then
    raise (RuntimeError ("Server " +:+ name srv +:+ " not initialized"))
  else
    match _langchain_client srv with
    | Some c => _list_tools_langchain c
    | None => _list_tools_aiohttp
    end.

(** [_call_tool_aiohttp]: the same shape; exhausting the endpoints leads to
    the JSON-RPC call, whose every failure is raised as a [ClientError]. *)
Definition all_failed (e : py_exc) : py_exc :=
  ClientError ("All tool call methods failed: " +:+ exc_msg e).

Fixpoint call_cascade (tool_name : string) (arguments : dict)
    (endpoints : list string) : method HttpMCPServer json :=
  match endpoints with
  | [] =>
      srv <- self E ;;
      rep <- send {| rq_method := POST; rq_url := base_url srv;
                     rq_headers := session_headers srv;
                     rq_json :=
                       Some (mcp_request "tools/call"
                               (JObj [("name", JStr tool_name);
                                      ("arguments", JObj arguments)])) |} ;;
      match rep with
      | NetError e => raise (all_failed e)
      | Response status _ body text =>
          if (status =? 200)%Z then
            match body with
            | Raised e => raise (all_failed e)
            | Returned result =>
                match parse_rpc_call result with
                | Returned v => ret v
                | Raised e => raise (all_failed e)
                end
            end
          else
            match text with
            | Raised e => raise (all_failed e)
            | Returned error_text =>
                raise (all_failed
                         (ClientError ("HTTP " +:+ pretty status +:+ ": "
                                       +:+ error_text)))
            end
      end
  | endpoint :: rest =>
      srv <- self E ;;
      now <- env_call E (fun e => (clock e, e)) ;;
      rep <- send {| rq_method := POST;
                     rq_url := urljoin (base_url srv) endpoint;
                     rq_headers := session_headers srv;
                     rq_json :=
                       Some (JObj [("tool", JStr tool_name);
                                   ("arguments", JObj arguments);
                                   ("timestamp", JStr now)]) |} ;;
      match rep with
      | NetError _ => call_cascade tool_name arguments rest
      | Response status _ body _ =>
          if (status =? 200)%Z then
            match body with
            | Raised _ => call_cascade tool_name arguments rest
            | Returned result => ret result
            end
          else if (status =? 404)%Z then call_cascade tool_name arguments rest
          else call_cascade tool_name arguments rest
      end
  end.

Definition _call_tool_aiohttp (tool_name : string) (arguments : dict)
    : method HttpMCPServer json :=
  srv <- self E ;;
  match session srv with
  | None => raise (RuntimeError ("Session not initialized for " +:+ name srv))
  | Some _ => call_cascade tool_name arguments (call_endpoints tool_name)
  end.

(** [_call_tool_langchain] *)
Definition _call_tool_langchain (client : resource) (tool_name : string)
    (arguments : dict) : method HttpMCPServer json :=
  srv <- self E ;;
  r <- env_call E (get_tools client) ;;
  match r with
  | Raised e => raise e
  | Returned tools =>
      match List.find (fun t => String.eqb (at_name t) tool_name) tools with
      | Some t =>
          res <- env_call E (at_ainvoke t arguments) ;;
          match res with
          | Returned v => ret v
          | Raised e => raise e
          end
      | None =>
          raise (RuntimeError ("Tool " +:+ tool_name +:+ " not found on server "
                               +:+ name srv))
      end
  end.

(** [call_tool] *)
Definition call_tool (tool_name : string) (arguments : dict)
    : method HttpMCPServer json :=
  srv <- self E ;;
  if negb (is_connected srv) then
    raise (RuntimeError ("Server " +:+ name srv +:+ " not initialized"))
  else
    match _langchain_client srv with
    | Some c => _call_tool_langchain c tool_name arguments
    | None => _call_tool_aiohttp tool_name arguments
    end.

(** *** HttpMCPStudio *)

Definition add_server (nm : string) (server_config : dict)
    : studio HttpMCPServer unit :=
  fun s =>
    match HttpMCPServer_new int_of_str nm server_config with
    | Returned srv => (Returned tt, ((fst s ++ [srv])%list, snd s))
    | Raised e => (Raised e, s)
    end.

(** [initialize_all_servers]: a failure is logged and the loop goes on. *)
Definition initialize_all_servers : studio HttpMCPServer unit :=
  fun s =>
    for_each (seq 0 (length (fst s)))
      (fun i => try_except (on_server E i initialize) (fun _ => ret tt)) s.

(** [cleanup_all_servers]: [for server in reversed(self.servers)]. *)
Definition cleanup_all_servers : studio HttpMCPServer unit :=
  fun s =>
    for_each (rev (seq 0 (length (fst s))))
      (fun i => try_except (on_server E i cleanup) (fun _ => ret tt)) s.

Definition get_initialized_servers (servers : list HttpMCPServer)
    : list HttpMCPServer :=
  filter (fun srv => is_initialized srv = true) servers.

End Env.

End McpSeeHttpPy.


(** ** utils/mcp_studio.py: [Configuration] *)

Module ConfigurationPy.

(** The three keys read from the environment by [__init__]; [None] is an
    unset variable. *)
Record Configuration := {
  api_key : option string;
  openai_api_key : option string;
  anthropic_api_key : option string
}.

(** Truth value of an optional string: [None] and "" are false. *)
Definition truthy (o : option string) : bool :=
  match o with
  | None | Some "" => false
  | Some _ => true
  end.

Definition ValueError (msg : string) : py_exc := Exc "ValueError" msg.

(** The property [llm_api_key]. *)
Definition llm_api_key (c : Configuration) : PyResult string :=
  if truthy (api_key c) then Returned (default "" (api_key c))
  else if truthy (openai_api_key c) then Returned (default "" (openai_api_key c))
  else if truthy (anthropic_api_key c) then
    Returned (default "" (anthropic_api_key c))
  else
    Raised (ValueError ("No API key found in environment variables "
                        +:+ "(GOOGLE_API_KEY, OPENAI_API_KEY, or ANTHROPIC_API_KEY)")).

(** The entries of [provider_configs]: the variable and the key. *)
Definition provider_configs (c : Configuration)
    : list (string * (string * option string)) :=
  [("google_genai", ("GOOGLE_API_KEY", api_key c));
   ("openai", ("OPENAI_API_KEY", openai_api_key c));
   ("anthropic", ("ANTHROPIC_API_KEY", anthropic_api_key c))].

Fixpoint lookup_provider (provider : string)
    (l : list (string * (string * option string)))
    : option (string * option string) :=
  match l with
  | [] => None
  | (p, v) :: l' => if String.eqb provider p then Some v else lookup_provider provider l'
  end.

(** [get_provider_config]: the [env_var] and the [api_key] of the
    provider. *)
Definition get_provider_config (provider : string) (c : Configuration)
    : PyResult (string * string) :=
  match lookup_provider provider (provider_configs c) with
  | None => Raised (ValueError ("Unsupported provider: " +:+ provider))
  | Some (env_var, key) =>
      if truthy key then Returned (env_var, default "" key)
      else Raised (ValueError (env_var +:+ " not found in environment variables"))
  end.

End ConfigurationPy.

(** ** Loading the studios from a configuration mapping

    [MCPStudio.load_servers_from_config], [MCPStudio.get_server_by_name],
    [HttpMCPStudio.load_servers_from_config] and
    [get_supported_transports]. *)

(** [try: m  except cls as e: h e]: only exceptions of class [cls] are
    caught. *)
Definition try_except_only {St A} (cls : string) (m : M St A)
    (h : py_exc -> M St A) : M St A :=
  fun s =>
    match m s with
    | (Returned a, s') => (Returned a, s')
    | (Raised e, s') =>
        if String.eqb (exc_class e) cls then h e s' else (Raised e, s')
    end.

Module StudioConfigPy.
Import Runtime.

(** Unpacking a value that is not a mapping into keyword arguments. *)
Definition not_a_mapping (callee : string) (v : json) : py_exc :=
  Exc "TypeError"
      (callee +:+ "() argument after ** must be a mapping, not "
       +:+ McpSeeHttpPy.type_name v).

(** [get_supported_transports] *)
Definition get_supported_transports : list string :=
  ["http"; "sse"; "streamable_http"].

(** [srv_config.get("transport", "").lower()] *)
Definition entry_transport (srv_config : json) : PyResult string :=
  match srv_config with
  | JObj cfg =>
      match dict_get "transport" cfg with
      | None => Returned (lower "")
      | Some (JStr t) => Returned (lower t)
      | Some v => Raised (McpSeeHttpPy.no_attribute v "lower")
      end
  | v => Raised (McpSeeHttpPy.no_attribute v "get")
  end.

(** [transport in ["http", "sse", "streamable_http"]] *)
Definition is_network_transport (t : string) : bool :=
  String.eqb t "http" || String.eqb t "sse" || String.eqb t "streamable_http".

Section Loading.

Variable E : Type.
(** pydantic's reading of a string as an int. *)
Variable int_of_str : string -> option Z.

(** [MCPStudio.get_server_by_name] *)
Fixpoint get_server_by_name (nm : string) (servers : list McpStudioPy.MCPServer)
    : option McpStudioPy.MCPServer :=
  match servers with
  | [] => None
  | srv :: servers' =>
      if String.eqb (McpStudioPy.name srv) nm then Some srv
      else get_server_by_name nm servers'
  end.

(** The loop of [MCPStudio.load_servers_from_config]. The [try] holds the
    validation and [add_server]; only a [ValidationError] is caught. *)
Fixpoint stdio_load_entries (entries : list (string * json))
    : studio E McpStudioPy.MCPServer unit :=
  match entries with
  | [] => ret tt
  | (nm, srv_config) :: rest =>
      try_except_only "ValidationError"
        (match srv_config with
         | JObj cfg =>
             match McpStudioPy.ServerConfig_new cfg with
             | Raised e => raise e
             | Returned server_cfg =>
                 if String.eqb (McpStudioPy.sc_transport server_cfg) "stdio"
                 then McpStudioPy.add_server E nm cfg
                 else ret tt
             end
         | v => raise (not_a_mapping "ServerConfig" v)
         end)
        (fun _ => ret tt) ;;;
      stdio_load_entries rest
  end.

(** [MCPStudio.load_servers_from_config]. [loaded] is what
    [self.config.load_config(config_file)] gives: the parsed mapping, or
    the error of opening or parsing the file. *)
Definition stdio_load_servers_from_config (loaded : PyResult dict)
    : studio E McpStudioPy.MCPServer unit :=
  match loaded with
  | Raised e => raise e
  | Returned server_config =>
      match dict_get "mcpServers" server_config with
      | None => raise (Exc "KeyError" "'mcpServers'")
      | Some (JObj entries) => stdio_load_entries entries
      | Some v => raise (McpSeeHttpPy.no_attribute v "items")
      end
  end.

(** The loop of [HttpMCPStudio.load_servers_from_config]: every exception
    of the body is logged and the loop goes on. *)
Fixpoint http_load_entries (entries : list (string * json))
    : studio E McpSeeHttpPy.HttpMCPServer unit :=
  match entries with
  | [] => ret tt
  | (nm, srv_config) :: rest =>
      try_except
        (match entry_transport srv_config with
         | Raised e => raise e
         | Returned transport =>
             if is_network_transport transport then
               match srv_config with
               | JObj cfg => McpSeeHttpPy.add_server E int_of_str nm cfg
               | v => raise (not_a_mapping "HttpServerConfig" v)
               end
             else ret tt
         end)
        (fun _ => ret tt) ;;;
      http_load_entries rest
  end.

(** [HttpMCPStudio.load_servers_from_config] *)
Definition http_load_servers_from_config (config_data : dict)
    : studio E McpSeeHttpPy.HttpMCPServer unit :=
  match dict_get "mcpServers" config_data with
  | None => ret tt
  | Some (JObj entries) => http_load_entries entries
  | Some v => raise (McpSeeHttpPy.no_attribute v "items")
  end.

End Loading.

(** The server an entry gives rise to in each studio, if any. *)
Definition stdio_accepts (entry : string * json) : option McpStudioPy.MCPServer :=
  match entry with
  | (nm, JObj cfg) =>
      match McpStudioPy.ServerConfig_new cfg with
      | Returned server_cfg =>
          if String.eqb (McpStudioPy.sc_transport server_cfg) "stdio" then
            match McpStudioPy.MCPServer_new nm cfg with
            | Returned srv => Some srv
            | Raised _ => None
            end
          else None
      | Raised _ => None
      end
  | _ => None
  end.

Definition http_accepts (int_of_str : string -> option Z)
    (entry : string * json) : option McpSeeHttpPy.HttpMCPServer :=
  match entry with
  | (nm, JObj cfg) =>
      match entry_transport (JObj cfg) with
      | Returned transport =>
          if is_network_transport transport then
            match McpSeeHttpPy.HttpMCPServer_new int_of_str nm cfg with
            | Returned srv => Some srv
            | Raised _ => None
            end
          else None
      | Raised _ => None
      end
  | _ => None
  end.

(** An entry that is a mapping, as a configuration file has them. *)
Definition is_mapping (v : json) : bool :=
  match v with
  | JObj _ => true
  | _ => false
  end.

End StudioConfigPy.

(** ** Readings of the subprocess bring-up *)

Module StdioBringUp.
Import Runtime McpStudioPy.

(** The contexts entered by a bring-up, the last one first: what is on
    the exit stack when it ends. *)
Definition entered (out : spawn_outcome) : list resource :=
  match out with
  | StdioClientFails _ => []
  | ClientSessionFails tr _ => [tr]
  | HandshakeFails tr ss _ => [ss; tr]
  | Connected tr ss => [ss; tr]
  end.

(** A server that passes the guards of [initialize] with the command
    [command]. *)
Definition resolves_to (which_npx : option string) (srv : MCPServer)
    (command : string) : Prop :=
  sc_transport (config srv) = "stdio"
  /\ exists cmd,
       sc_command (config srv) = Some cmd /\ cmd <> ""
       /\ (if String.eqb cmd "npx" then which_npx else Some cmd) = Some command.

(** The parameters [initialize] hands to [stdio_client]. *)
Definition server_params (os_environ : gmap string string) (srv : MCPServer)
    (command : string) : StdioServerParameters :=
  {| sp_command := command;
     sp_args := default [] (sc_args (config srv));
     sp_env :=
       match sc_env (config srv) with
       | None | Some [] => None
       | Some env => Some (list_to_map env ∪ os_environ)
       end |}.

End StdioBringUp.

(** ** Readings of the registry *)

Module RegistryReadings.
Import ToolsManagerPy.

Section Readings.

Context {W : Type}.

(** What a loop over [tools] that stores [mk t] under the name of each
    tool has stored when it ends: the infos of the tools before the first
    one whose [ToolInfo(...)] is refused. *)
Fixpoint stored (mk : tool W -> PyResult ToolInfo) (tools : list (tool W))
    : list (string * ToolInfo) :=
  match tools with
  | [] => []
  | t :: tools' =>
      match mk t with
      | Returned i => (t_name t, i) :: stored mk tools'
      | Raised _ => []
      end
  end.

(** The tools [add_custom_tools] and [add_see_tools] have appended when
    they end: those up to the first one whose [ToolInfo(...)] is refused,
    that one included. *)
Fixpoint appended (mk : tool W -> PyResult ToolInfo) (tools : list (tool W))
    : list (tool W) :=
  match tools with
  | [] => []
  | t :: tools' =>
      t :: match mk t with
           | Returned _ => appended mk tools'
           | Raised _ => []
           end
  end.

(** A value [ToolInfo(...)] accepts as [parameters], the attribute or key
    being absent or a dict. *)
Definition accepted_parameters (o : option json) : bool :=
  match o with
  | None | Some (JObj _) => true
  | Some _ => false
  end.

(** An operation after which every tool it registered has a descriptor
    under its own name: no [ToolInfo(...)] it builds is refused, the
    adapter tools it loads have a description and the listing entries it
    loads have a name. *)
Definition keeps_descriptors (o : operation W) : bool :=
  match o with
  | LoadMcpTools servers =>
      forallb (fun srv =>
                 match srv.2 with
                 | Returned tools =>
                     forallb (fun t => accepted_parameters (t_parameters t)) tools
                 | Raised _ => true
                 end) servers
  | LoadLangchainTools _ (Returned tools) =>
      forallb (fun t => match t_description t with
                        | Some _ => accepted_parameters (t_args_schema t)
                        | None => false
                        end) tools
  | LoadAiohttpTools _ _ _ (Returned entries) =>
      forallb (fun e => match td_name e with
                        | Some _ => accepted_parameters (td_parameters e)
                        | None => false
                        end) entries
  | AddCustomTools tools | AddSeeTools tools =>
      forallb (fun t => accepted_parameters (t_parameters t)) tools
  | _ => true
  end.

(** Every tool the manager resolves has a descriptor. *)
Definition described (m : ToolsManager W) : Prop :=
  forall t, t ∈ get_all_tools m -> is_Some (tool_info m !! t_name t).

End Readings.

End RegistryReadings.

Module StdioReadings.
Import Runtime McpStudioPy.

(** The exception a bring-up ends with, if it fails. *)
Definition failure_of (out : spawn_outcome) : option py_exc :=
  match out with
  | StdioClientFails e => Some e
  | ClientSessionFails _ e => Some e
  | HandshakeFails _ _ e => Some e
  | Connected _ _ => None
  end.

End StdioReadings.

(** ** [HttpMCPStudio.get_all_tools] *)

Module HttpStudioPy.
Import Runtime McpSeeHttpPy.

Section Env.

Variable E : Type.
Variable get_tools : resource -> E -> PyResult (list (adapter_tool E)) * E.
Variable serve : request -> E -> reply * E.
Variable urljoin : string -> string -> string.

(** The positions of [self.get_initialized_servers()] in [self.servers]:
    the comprehension is evaluated once, before the loop. *)
Definition initialized_indices (servers : list HttpMCPServer) : list nat :=
  filter (fun i => from_option is_initialized false (servers !! i) = true)
         (seq 0 (length servers)).

(** The loop of [get_all_tools]: the listing of each server is stored under
    its name, and the empty list when the listing raised. *)
Fixpoint collect (idxs : list nat) (all_tools : gmap string json)
    : studio E HttpMCPServer (gmap string json) :=
  match idxs with
  | [] => ret all_tools
  | i :: rest =>
      tools <- try_except (on_server E i (list_tools E get_tools serve urljoin))
                 (fun _ => ret (JList [])) ;;
      nm <- (fun s => (Returned (from_option name "" (fst s !! i)), s)) ;;
      collect rest (<[nm := tools]> all_tools)
  end.

Definition get_all_tools : studio E HttpMCPServer (gmap string json) :=
  fun s => collect (initialized_indices (fst s)) ∅ s.

End Env.

End HttpStudioPy.

(** ** Sample inputs

    Small concrete registries, consoles and servers on which the
    properties below are exercised. *)

Module Samples.
Import ToolsManagerPy.

(** A tool with a synchronous [invoke] only, which answers [out] and
    counts its calls in the tools' state. *)
Definition counting_tool (n out : string) : tool nat :=
  {| t_name := n; t_truth := true; t_description := Some ("answers " +:+ out);
     t_parameters := None; t_args_schema := None;
     t_invoke := Some (fun _ calls => (Returned (JStr out), S calls));
     t_ainvoke := None; t_run := None; t_arun := None; t_call := None |}.

(** A tool whose [invoke] raises. *)
Definition failing_tool (n msg : string) : tool nat :=
  {| t_name := n; t_truth := true; t_description := None;
     t_parameters := None; t_args_schema := None;
     t_invoke := Some (fun _ calls => (Raised (Exc "RuntimeError" msg), S calls));
     t_ainvoke := None; t_run := None; t_arun := None; t_call := None |}.

Definition console (lines : list console_input) : world nat :=
  {| w_stdin := lines; w_tools := 0%nat; w_trace := [] |}.

(** The answers 1 and 2 typed after a no-break space (U+00A0, the bytes
    C2 A0). *)
Definition nbsp (s : string) : string :=
  String (ascii_of_nat 194) (String (ascii_of_nat 160) s).

Definition call_x : ToolCall := {| tc_tool := "x"; tc_arguments := [] |}.
Definition call_y : ToolCall := {| tc_tool := "y"; tc_arguments := [] |}.

(** "x" registered from the subprocess server "A", then again as a custom
    tool. *)
Definition x_from_A : tool nat := counting_tool "x" "A".
Definition x_from_B : tool nat := counting_tool "x" "B".

Definition registered_twice : ToolsManager nat :=
  (add_custom_tools [x_from_B]
     (load_mcp_tools [("A", Returned [x_from_A])] init)).2.

Definition one_custom_tool : ToolsManager nat :=
  (add_custom_tools [x_from_B] init).2.

Definition one_failing_tool : ToolsManager nat :=
  set_approval_mode false (add_custom_tools [failing_tool "x" "boom"] init).2.

End Samples.


(** A plain-http connection in state Ready, and fake remote ends without
    state. *)
Module HttpSamples.
Import Runtime McpSeeHttpPy.

Definition join (base endpoint : string) : string := base +:+ endpoint.

(** A reading of strings as ints that knows plain decimal digits only. *)
Fixpoint digits (acc : Z) (s : string) : option Z :=
  match s with
  | EmptyString => Some acc
  | String a s' =>
      let n := nat_of_ascii a in
      if (48 <=? n)%nat && (n <=? 57)%nat
      then digits (10 * acc + Z.of_nat (n - 48)) s'
      else None
  end.

Definition decimal (s : string) : option Z :=
  match s with
  | EmptyString => None
  | _ => digits 0 s
  end.

Definition ready_server : HttpMCPServer :=
  {| name := "math";
     config := {| hc_transport := "http"; hc_url := "http://h/";
                  hc_headers := None; hc_timeout := Some 30%Z;
                  hc_ssl_verify := Some true |};
     session := Some 7%nat; is_connected := true; exit_stack := [7%nat];
     base_url := "http://h"; mcp_session_id := None;
     _langchain_client := None |}.

Definition quiet : world unit := {| w_env := tt; w_trace := [] |}.

Definition add_tool : json :=
  JObj [("name", JStr "add"); ("description", JStr "a + b")].

Definition not_found : reply :=
  Response 404 [] (Raised (Exc "ContentTypeError" "not json")) (Returned "Not Found").

(** 404 on [/tools] and [/api/tools], the envelope on [/mcp/tools]. *)
Definition third_path_only (rq : request) (_ : unit) : reply * unit :=
  (if String.eqb (rq_url rq) "http://h/mcp/tools" then
     Response 200 [] (Returned (JObj [("tools", JList [add_tool])])) (Returned "")
   else not_found, tt).

(** 404 on every GET, the JSON-RPC result on POST. *)
Definition rpc_only (rq : request) (_ : unit) : reply * unit :=
  (match rq_method rq with
   | POST =>
       Response 200 []
         (Returned (JObj [("jsonrpc", JStr "2.0"); ("id", JNum 1);
                          ("result", JObj [("tools", JList [add_tool])])]))
         (Returned "")
   | GET => not_found
   end, tt).

(** 404 everywhere, each reply carrying a session token. *)
Definition token_on_404 (rq : request) (_ : unit) : reply * unit :=
  (Response 404 [("mcp-session-id", "abc")]
     (Raised (Exc "ContentTypeError" "not json")) (Returned "Not Found"), tt).

(** 200 on [/health] with a session token, 503 on [/]. *)
Definition token_on_health (rq : request) (_ : unit) : reply * unit :=
  (if String.eqb (rq_url rq) "http://h/health" then
     Response 200 [("Mcp-Session-Id", "abc")] (Returned (JObj [])) (Returned "{}")
   else
     Response 503 [] (Raised (Exc "ContentTypeError" "not json")) (Returned "down"),
   tt).

Definition fixed_clock (_ : unit) : string := "2025-01-01T00:00:00".

Definition no_adapter (_ : resource) (_ : unit)
    : PyResult (list (adapter_tool unit)) * unit :=
  (Raised (Exc "RuntimeError" "no adapter"), tt).

Definition no_release (_ : resource) (_ : unit) : option py_exc * unit := (None, tt).

End HttpSamples.


(** Subprocess descriptors and a process environment in which every spawn
    succeeds. *)
Module StdioSamples.
Import Runtime McpStudioPy.

Definition with_command : dict :=
  [("command", JStr "python"); ("args", JList [JStr "server.py"])].

(** A subprocess descriptor without [command]. *)
Definition without_command : dict :=
  [("transport", JStr "stdio"); ("args", JList [JStr "-y"])].

(** A network descriptor without [url]. *)
Definition without_url : dict := [("transport", JStr "http")].

Definition server_of (nm : string) (cfg : dict) : MCPServer :=
  match MCPServer_new nm cfg with
  | Returned srv => srv
  | Raised _ =>
      {| name := nm;
         config := {| sc_transport := "stdio"; sc_command := None;
                      sc_args := None; sc_env := None; sc_url := None |};
         session := None; exit_stack := [] |}
  end.

(** The environment counts the processes it started and hands out their
    handles. *)
Definition spawn_ok (_ : StdioServerParameters) (n : nat) : spawn_outcome * nat :=
  (Connected (2 * n) (2 * n + 1), S n).

Definition release_ok (_ : resource) (n : nat) : option py_exc * nat := (None, n).

Definition fleet : list MCPServer :=
  [server_of "first" with_command; server_of "broken" without_command;
   server_of "last" with_command].

Definition start : world nat := {| w_env := 0%nat; w_trace := [] |}.

End StdioSamples.


(** Further registries, servers and environments. *)
Module Scenarios.
Import Runtime.

(** A listing entry without [name], and one called "add". *)
Definition nameless_entry : ToolsManagerPy.tool_data :=
  {| ToolsManagerPy.td_name := None;
     ToolsManagerPy.td_description := None;
     ToolsManagerPy.td_parameters := None |}.

Definition add_entry : ToolsManagerPy.tool_data :=
  {| ToolsManagerPy.td_name := Some "add";
     ToolsManagerPy.td_description := Some "a + b";
     ToolsManagerPy.td_parameters := None |}.

Definition plain_str (v : json) : string :=
  match v with
  | JStr s => s
  | _ => "..."
  end.

(** A forwarded call that the remote end answers, and one it refuses. *)
Definition answered_call (_ : string) (_ : dict) (calls : nat)
    : PyResult json * nat :=
  (Returned (JStr "3"), S calls).

Definition refused_call (_ : string) (_ : dict) (calls : nat)
    : PyResult json * nat :=
  (Raised (Exc "ClientError" "All tool call methods failed: down"), S calls).

Definition call_http_tool : ToolsManagerPy.ToolCall :=
  {| ToolsManagerPy.tc_tool := "http_tool"; ToolsManagerPy.tc_arguments := [] |}.

Definition call_add : ToolsManagerPy.ToolCall :=
  {| ToolsManagerPy.tc_tool := "add"; ToolsManagerPy.tc_arguments := [] |}.

(** The registry of the server "math" whose calls are refused, with the
    gate off. *)
Definition refused_registry : ToolsManagerPy.ToolsManager nat :=
  ToolsManagerPy.set_approval_mode false
    (ToolsManagerPy._load_aiohttp_tools plain_str refused_call "math"
       (Returned [add_entry]) ToolsManagerPy.init).

(** A configuration file with a subprocess server and a network one. *)
Definition network_descriptor : dict :=
  [("transport", JStr "http"); ("url", JStr "http://h//")].

Definition two_servers : dict :=
  [("mcpServers",
    JObj [("first", JObj StdioSamples.with_command);
          ("remote", JObj network_descriptor)])].

(** A subprocess server with an environment of its own. *)
Definition with_environment : McpStudioPy.MCPServer :=
  {| McpStudioPy.name := "first";
     McpStudioPy.config :=
       {| McpStudioPy.sc_transport := "stdio";
          McpStudioPy.sc_command := Some "python";
          McpStudioPy.sc_args := None;
          McpStudioPy.sc_env := Some [("HOME", "/srv")];
          McpStudioPy.sc_url := None |};
     McpStudioPy.session := None;
     McpStudioPy.exit_stack := [] |}.

Definition process_environment : gmap string string :=
  <["PATH" := "/bin"]> (<["HOME" := "/root"]> ∅).

(** A subprocess server that is up: transport 0 and session 1 are on its
    exit stack. *)
Definition connected_server : McpStudioPy.MCPServer :=
  McpStudioPy.set_session (Some 1%nat)
    (McpStudioPy.push 1%nat
       (McpStudioPy.push 0%nat
          (StdioSamples.server_of "first" StdioSamples.with_command))).

(** A process environment in which the handshake fails. *)
Definition handshake_fails (_ : McpStudioPy.StdioServerParameters) (n : nat)
    : McpStudioPy.spawn_outcome * nat :=
  (McpStudioPy.HandshakeFails (2 * n) (2 * n + 1)
     (Exc "McpError" "handshake failed"), S n).

(** Releases that raise. *)
Definition release_fails (_ : resource) (n : nat) : option py_exc * nat :=
  (Some (Exc "OSError" "broken pipe"), n).

Definition broken_release (_ : resource) (_ : unit) : option py_exc * unit :=
  (Some (Exc "OSError" "connection reset"), tt).

(** A remote end that answers 404 to everything. *)
Definition nothing_there (_ : request) (_ : unit) : reply * unit :=
  (HttpSamples.not_found, tt).

(** A connection over the adapter. *)
Definition adapter_server : McpSeeHttpPy.HttpMCPServer :=
  {| McpSeeHttpPy.name := "events";
     McpSeeHttpPy.config :=
       {| McpSeeHttpPy.hc_transport := "sse";
          McpSeeHttpPy.hc_url := "http://h/sse";
          McpSeeHttpPy.hc_headers := None;
          McpSeeHttpPy.hc_timeout := Some 30%Z;
          McpSeeHttpPy.hc_ssl_verify := Some true |};
     McpSeeHttpPy.session := None;
     McpSeeHttpPy.is_connected := true;
     McpSeeHttpPy.exit_stack := [];
     McpSeeHttpPy.base_url := "http://h/sse";
     McpSeeHttpPy.mcp_session_id := None;
     McpSeeHttpPy._langchain_client := Some 9%nat |}.

End Scenarios.


(** * Properties *)

(** ** The effect monad *)

Lemma bind_returned {St A B} (m : M St A) (k : A -> M St B) s a s' :
  m s = (Returned a, s') -> bind m k s = k a s'.
Proof. intros H. unfold bind. now rewrite H. Qed.

Lemma bind_raised {St A B} (m : M St A) (k : A -> M St B) s e s' :
  m s = (Raised e, s') -> bind m k s = (Raised e, s').
Proof. intros H. unfold bind. now rewrite H. Qed.

Lemma try_except_returned {St A} (m : M St A) h s a s' :
  m s = (Returned a, s') -> try_except m h s = (Returned a, s').
Proof. intros H. unfold try_except. now rewrite H. Qed.

Lemma try_except_raised {St A} (m : M St A) h s e s' :
  m s = (Raised e, s') -> try_except m h s = h e s'.
Proof. intros H. unfold try_except. now rewrite H. Qed.

(** ** The registry: [ToolsManager] *)

Module RegistryFacts.
Import ToolsManagerPy RegistryReadings.

Section Facts.

Context {W : Type}.
Implicit Types (m : ToolsManager W) (t : tool W) (w : world W).

Local Abbreviation ins :=
  (fun (acc : gmap string ToolInfo) (p : string * ToolInfo) => <[p.1 := p.2]> acc).

Lemma find_by_name_None (n : string) (tools : list (tool W)) :
  (forall t, t ∈ tools -> t_name t <> n) -> find_by_name n tools = None.
Proof.
  induction tools as [|t tools IH]; intros H; simpl; [reflexivity|].
  destruct (String.eqb_spec (t_name t) n) as [Heq|Hne].
  - exfalso. apply (H t); [left | exact Heq].
  - apply IH. intros t' Ht'. apply H. now right.
Qed.

Lemma find_by_name_Some (n : string) (tools : list (tool W)) t :
  find_by_name n tools = Some t -> t ∈ tools /\ t_name t = n.
Proof.
  induction tools as [|t' tools IH]; simpl; [discriminate|].
  destruct (String.eqb_spec (t_name t') n) as [Heq|Hne].
  - intros [= <-]. split; [left | exact Heq].
  - intros H. destruct (IH H) as [Hin Hn]. split; [now right | exact Hn].
Qed.

(** The first tool of that name in the scan order is the one found. *)
Lemma find_by_name_app_l (n : string) (l1 l2 : list (tool W)) t :
  find_by_name n l1 = Some t -> find_by_name n (l1 ++ l2) = Some t.
Proof.
  induction l1 as [|t' l1 IH]; simpl; [discriminate|].
  destruct (String.eqb (t_name t') n); [trivial | exact IH].
Qed.

(** *** What the registration loops store *)

Lemma mk_info_accepted t dflt source category :
  accepted_parameters (t_parameters t) = true ->
  exists i, mk_info t dflt source category = Returned i.
Proof.
  unfold mk_info, ToolInfo_new.
  destruct (t_parameters t) as [[| | | | |kv]|]; try discriminate; eauto.
Qed.

Lemma mk_info_refused t dflt source category e :
  mk_info t dflt source category = Raised e ->
  accepted_parameters (t_parameters t) = false.
Proof.
  unfold mk_info, ToolInfo_new.
  destruct (t_parameters t) as [[| | | | |kv]|]; try discriminate; reflexivity.
Qed.

Lemma store_infos_as_foldl (mk : tool W -> PyResult ToolInfo) tools ti :
  (store_infos mk tools ti).2 = foldl ins ti (stored mk tools).
Proof.
  revert ti. induction tools as [|t tools IH]; intros ti; simpl; [reflexivity|].
  destruct (mk t) as [i|e]; [apply IH | reflexivity].
Qed.

Lemma stored_snoc (mk : tool W -> PyResult ToolInfo) tools t i :
  Forall (fun t' => exists i', mk t' = Returned i') tools ->
  mk t = Returned i ->
  stored mk (tools ++ [t]) = stored mk tools ++ [(t_name t, i)].
Proof.
  intros Hall Ht. induction Hall as [|t' tools [i' Hi'] _ IH]; simpl.
  - now rewrite Ht.
  - now rewrite Hi', IH.
Qed.

Lemma foldl_ins_other (l : list (string * ToolInfo)) ti (n : string) :
  (forall p, p ∈ l -> p.1 <> n) -> foldl ins ti l !! n = ti !! n.
Proof.
  revert ti. induction l as [|p l IH]; intros ti H; [reflexivity|].
  simpl. rewrite IH.
  - apply lookup_insert_ne. apply H. now left.
  - intros q Hq. apply H. now right.
Qed.

Lemma stored_names (mk : tool W -> PyResult ToolInfo) tools p :
  p ∈ stored mk tools -> exists t, t ∈ tools /\ t_name t = p.1.
Proof.
  induction tools as [|t tools IH]; simpl; [intros H; inversion H|].
  destruct (mk t) as [i|e]; [|intros H; inversion H].
  intros H. apply elem_of_cons in H as [->|H].
  - exists t. split; [left | reflexivity].
  - destruct (IH H) as (t' & Hin & Hn). exists t'. split; [now right | exact Hn].
Qed.

(** A name that none of the tools carries keeps the info it had. *)
Lemma store_infos_other (mk : tool W -> PyResult ToolInfo) tools ti (n : string) :
  (forall t, t ∈ tools -> t_name t <> n) ->
  (store_infos mk tools ti).2 !! n = ti !! n.
Proof.
  intros H. rewrite store_infos_as_foldl. apply foldl_ins_other.
  intros p Hp. destruct (stored_names mk tools p Hp) as (t & Hin & <-).
  now apply H.
Qed.

(** What [add_custom_tools] and [add_see_tools] leave. *)
Lemma add_custom_tools_eq tools m :
  let mk := fun t => mk_info t "Custom tool - no description available"
                       "custom" "custom" in
  (add_custom_tools tools m).2
  = with_tool_info (with_custom_tools m (custom_tools m ++ appended mk tools))
      (foldl ins (tool_info m) (stored mk tools)).
Proof.
  intros mk. unfold add_custom_tools. fold mk. revert m.
  induction tools as [|t tools IH]; intros m.
  - simpl. rewrite app_nil_r. now destruct m.
  - cbn [add_each appended stored]. unfold bind at 1. unfold modify at 1.
    unfold bind at 1. destruct (mk t) as [i|e].
    + rewrite IH. simpl. now rewrite <- app_assoc.
    + reflexivity.
Qed.

Lemma add_see_tools_eq tools m :
  let mk := fun t => mk_info t "SEE tool - vision and analysis" "see" "see" in
  (add_see_tools tools m).2
  = with_tool_info (with_see_tools m (see_tools m ++ appended mk tools))
      (foldl ins (tool_info m) (stored mk tools)).
Proof.
  intros mk. unfold add_see_tools. fold mk. revert m.
  induction tools as [|t tools IH]; intros m.
  - simpl. rewrite app_nil_r. now destruct m.
  - cbn [add_each appended stored]. unfold bind at 1. unfold modify at 1.
    unfold bind at 1. destruct (mk t) as [i|e].
    + rewrite IH. simpl. now rewrite <- app_assoc.
    + reflexivity.
Qed.

(** Registering custom tools overwrites the info of a name already
    present, but leaves the tool found under that name as it was when an
    earlier list already holds one. *)
Lemma add_custom_tools_info_last_wins m tools t i :
  Forall (fun t' => accepted_parameters (t_parameters t') = true) tools ->
  mk_info t "Custom tool - no description available" "custom" "custom"
  = Returned i ->
  tool_info (add_custom_tools (tools ++ [t]) m).2 !! t_name t = Some i.
Proof.
  intros Hall Ht. rewrite add_custom_tools_eq. cbn [tool_info with_tool_info].
  rewrite (stored_snoc _ tools t i); [| |exact Ht].
  - rewrite foldl_app. apply lookup_insert_eq.
  - eapply Forall_impl; [exact Hall|]. intros t' H'. now apply mk_info_accepted.
Qed.

Lemma add_custom_tools_keeps_dispatch m tools (x : string) t :
  find_by_name x (mcp_tools m ++ http_tools m ++ custom_tools m) = Some t ->
  find_tool_by_name (add_custom_tools tools m).2 x = Some t.
Proof.
  intros H. rewrite add_custom_tools_eq.
  unfold find_tool_by_name, get_all_tools. simpl.
  match goal with
  | |- find_by_name x (_ ++ _ ++ (_ ++ ?l) ++ _) = _ =>
      replace (mcp_tools m ++ http_tools m ++ (custom_tools m ++ l) ++ see_tools m)
        with ((mcp_tools m ++ http_tools m ++ custom_tools m) ++ l ++ see_tools m)
        by now rewrite <- !app_assoc
  end.
  now apply find_by_name_app_l.
Qed.

(** *** What [execute_tool_call] does, case by case *)

Lemma found_tool_true m (n : string) t :
  find_tool_by_name m n = Some t -> t_truth t = true -> found_tool m n = Some t.
Proof. intros H Ht. unfold found_tool. now rewrite H, Ht. Qed.

Lemma found_tool_false m (n : string) t :
  find_tool_by_name m n = Some t -> t_truth t = false -> found_tool m n = None.
Proof. intros H Ht. unfold found_tool. now rewrite H, Ht. Qed.

Lemma found_tool_None m (n : string) :
  find_tool_by_name m n = None -> found_tool m n = None.
Proof. intros H. unfold found_tool. now rewrite H. Qed.

Lemma execute_total m (tc : ToolCall) w :
  exists r w', execute_tool_call m tc w = (Returned r, w').
Proof.
  unfold execute_tool_call, try_except.
  match goal with |- context [match ?x with _ => _ end] => destruct x as [[r|e] w'] end;
    eauto.
Qed.

Lemma execute_not_found m (tc : ToolCall) w :
  found_tool m (tc_tool tc) = None ->
  execute_tool_call m tc w
  = (Returned (failure (tc_tool tc) ("Tool '" +:+ tc_tool tc +:+ "' not found")), w).
Proof. intros H. unfold execute_tool_call. now rewrite H. Qed.

Lemma execute_rejected m (tc : ToolCall) w t i rest n :
  found_tool m (tc_tool tc) = Some t ->
  approval_enabled m = true ->
  tool_info m !! tc_tool tc = Some i ->
  approval_loop (w_stdin w) = (false, rest, n) ->
  execute_tool_call m tc w
  = (Returned (failure (tc_tool tc) "Tool execution disapproved by user"),
     gated tc rest n w).
Proof.
  intros Hf Ha Hi Hl. unfold execute_tool_call, try_except, bind.
  rewrite Hf, Ha, Hi. cbn. unfold _get_user_approval. cbn. now rewrite Hl.
Qed.

Lemma execute_no_info m (tc : ToolCall) w t :
  found_tool m (tc_tool tc) = Some t ->
  approval_enabled m = true ->
  tool_info m !! tc_tool tc = None ->
  execute_tool_call m tc w
  = (Returned (failure (tc_tool tc)
                 ("Error executing tool '" +:+ tc_tool tc +:+ "': "
                  +:+ "'NoneType' object has no attribute 'description'")),
     {| w_stdin := w_stdin w; w_tools := w_tools w;
        w_trace := w_trace w ++ [EvApprovalRequest (tc_tool tc) (tc_arguments tc)] |}).
Proof.
  intros Hf Ha Hi. unfold execute_tool_call, try_except, bind.
  rewrite Hf, Ha, Hi. reflexivity.
Qed.

Lemma execute_ungated m (tc : ToolCall) w t :
  found_tool m (tc_tool tc) = Some t ->
  approval_enabled m = false ->
  execute_tool_call m tc w = dispatched tc t w.
Proof.
  intros Hf Ha. unfold execute_tool_call, dispatched, try_except, bind.
  rewrite Hf, Ha. cbn. destruct (dispatch t) as [f|]; cbn.
  - destruct (f (tc_arguments tc) (w_tools w)) as [[v|e] s]; cbn;
      destruct w; reflexivity.
  - destruct w; reflexivity.
Qed.

Lemma execute_approved m (tc : ToolCall) w t i rest n :
  found_tool m (tc_tool tc) = Some t ->
  approval_enabled m = true ->
  tool_info m !! tc_tool tc = Some i ->
  approval_loop (w_stdin w) = (true, rest, n) ->
  execute_tool_call m tc w = dispatched tc t (gated tc rest n w).
Proof.
  intros Hf Ha Hi Hl. unfold execute_tool_call, dispatched, try_except, bind.
  rewrite Hf, Ha, Hi. cbn. unfold _get_user_approval. cbn. rewrite Hl. cbn.
  destruct (dispatch t) as [f|]; cbn; [|reflexivity].
  destruct (f (tc_arguments tc) (w_tools w)) as [[v|e] s]; reflexivity.
Qed.

Lemma approval_loop_reads (stdin : list console_input) :
  (0 < (approval_loop stdin).2)%nat.
Proof.
  induction stdin as [|[s| |e] stdin IH]; simpl; try lia.
  destruct (String.eqb (strip s) "1"); [simpl; lia|].
  destruct (String.eqb (strip s) "2"); [simpl; lia|].
  destruct (approval_loop stdin) as [[b r] k]. simpl. lia.
Qed.

(** The tool made by [_create_http_tool] is dispatched to its [_arun]. *)
Lemma dispatched_http_tool str call (entry : tool_data) (tc : ToolCall) w1 :
  dispatched tc (_create_http_tool str call entry) w1
  = let '(r, s) := call (default "http_tool" (td_name entry)) (tc_arguments tc)
                     (w_tools w1) in
    (Returned {| tr_tool_name := tc_tool tc; tr_success := true;
                 tr_result :=
                   JStr match r with
                        | Returned v => str v
                        | Raised e =>
                            "Error executing HTTP tool "
                            +:+ default "http_tool" (td_name entry)
                            +:+ ": " +:+ exc_msg e
                        end;
                 tr_error := None |},
     {| w_stdin := w_stdin w1; w_tools := s;
        w_trace := w_trace w1 ++ [EvInvoke (tc_tool tc) (tc_arguments tc)] |}).
Proof.
  unfold dispatched. cbn.
  destruct (call (default "http_tool" (td_name entry)) (tc_arguments tc) (w_tools w1))
    as [[v|e] s]; reflexivity.
Qed.

(** *** Approval stays on until it is switched off *)

Lemma approval_load_from_mcp_server m srv :
  approval_enabled (load_from_mcp_server m srv) = approval_enabled m.
Proof. destruct srv as [n [tools|e]]; reflexivity. Qed.

Lemma approval_load_mcp_tools servers m :
  approval_enabled (load_mcp_tools servers m) = approval_enabled m.
Proof.
  unfold load_mcp_tools.
  change (approval_enabled m) with (approval_enabled (with_mcp_tools m [])).
  generalize (with_mcp_tools m []). induction servers as [|srv servers IH];
    intros m0; simpl; [reflexivity|].
  rewrite IH. apply approval_load_from_mcp_server.
Qed.

Lemma approval_load_aiohttp_tools str call n listed m :
  approval_enabled (_load_aiohttp_tools str call n listed m) = approval_enabled m.
Proof.
  destruct listed as [tools_data|e]; [|reflexivity]. simpl.
  revert m. induction tools_data as [|d tools_data IH]; intros m; simpl;
    [reflexivity|].
  unfold load_aiohttp_entry.
  destruct (ToolInfo_new _ _ _ _ _) as [i|e]; [|reflexivity].
  now rewrite IH.
Qed.

Lemma approval_apply m (o : operation W) :
  approval_enabled (apply m o)
  = match o with SetApprovalMode b => b | _ => approval_enabled m end.
Proof.
  destruct o as [servers|n got|str call n listed|tools|tools|b]; simpl;
    try reflexivity.
  - apply approval_load_mcp_tools.
  - destruct got; reflexivity.
  - apply approval_load_aiohttp_tools.
  - now rewrite add_custom_tools_eq.
  - now rewrite add_see_tools_eq.
Qed.

Lemma approval_after (ops : list (operation W)) :
  Forall (fun o => disables_approval o = false) ops ->
  approval_enabled (after ops) = true.
Proof.
  unfold after. induction ops as [|o ops IH] using rev_ind; intros H;
    [reflexivity|].
  rewrite foldl_app. simpl. rewrite approval_apply.
  apply Forall_app in H as [Hops Ho]. apply Forall_cons in Ho as [Ho _].
  destruct o as [| | | | |[|]]; auto; discriminate.
Qed.

(** What executing a tool with approval mode on leaves in the trace. *)
Lemma execute_gated m (tc : ToolCall) w t :
  found_tool m (tc_tool tc) = Some t ->
  approval_enabled m = true ->
  exists r w' rest,
    execute_tool_call m tc w = (Returned r, w')
    /\ w_trace w'
       = w_trace w ++ EvApprovalRequest (tc_tool tc) (tc_arguments tc) :: rest
    /\ (forall name args,
          EvInvoke name args ∈ rest ->
          EvInput ∈ rest /\ (approval_loop (w_stdin w)).1.1 = true).
Proof.
  intros Hf Ha.
  destruct (tool_info m !! tc_tool tc) as [i|] eqn:Hi.
  - destruct (approval_loop (w_stdin w)) as [[[|] stdin'] n] eqn:Hl.
    + rewrite (execute_approved _ tc w t i stdin' n Hf Ha Hi Hl).
      pose proof (approval_loop_reads (w_stdin w)) as Hn. rewrite Hl in Hn.
      simpl in Hn. unfold dispatched.
      assert (Hin : EvInput ∈ replicate n EvInput).
      { destruct n; [lia|]. left. }
      destruct (dispatch t) as [f|].
      * destruct (f (tc_arguments tc) (w_tools (gated tc stdin' n w)))
          as [[v|e] s];
          eexists _, _, (replicate n EvInput
                         ++ [EvInvoke (tc_tool tc) (tc_arguments tc)]);
          (split; [reflexivity|]); simpl;
          (split; [now rewrite <- !app_assoc|]);
          intros; split; [apply elem_of_app; now left | reflexivity
                         |apply elem_of_app; now left | reflexivity].
      * eexists _, _, (replicate n EvInput). split; [reflexivity|]. simpl.
        split; [now rewrite <- app_assoc|]. intros; now split.
    + rewrite (execute_rejected _ tc w t i stdin' n Hf Ha Hi Hl).
      eexists _, _, (replicate n EvInput). split; [reflexivity|]. simpl.
      split; [now rewrite <- app_assoc|].
      intros nm args Hin. apply elem_of_replicate in Hin as [Hin _]. discriminate.
  - rewrite (execute_no_info _ tc w t Hf Ha Hi).
    eexists _, _, []. split; [reflexivity|]. split; [reflexivity|].
    intros nm args Hin. inversion Hin.
Qed.

(** *** The claims on [execute_tool_call] *)

(** C5. Executing a name that no registered tool carries returns a
    [ToolResult] with [success = False] and the error
    "Tool '<name>' not found"; nothing is raised, whatever the arguments,
    and neither the console nor the tools are touched. *)
Theorem execute_unknown_name_not_found m (tc : ToolCall) w :
  (forall t, t ∈ get_all_tools m -> t_name t <> tc_tool tc) ->
  execute_tool_call m tc w
  = (Returned {| tr_tool_name := tc_tool tc; tr_success := false;
                 tr_result := JNull;
                 tr_error := Some ("Tool '" +:+ tc_tool tc +:+ "' not found") |},
     w).
Proof.
  intros H. apply execute_not_found, found_tool_None. now apply find_by_name_None.
Qed.

(** C4, as the code has it. With approval mode on and a console that makes
    the gate answer no, executing a registered tool returns
    [success = False], no tool is invoked and the tools' state is
    unchanged. When the tool object is true for Python and the name has
    its [ToolInfo], the error is "Tool execution disapproved by user" (the
    claim's shorter "disapproved by user" is not the string returned); a
    tool object that is false for Python is answered "not found" without
    the gate being asked. *)
Theorem execute_rejected_leaves_tools_alone m (tc : ToolCall) w t rest n :
  find_tool_by_name m (tc_tool tc) = Some t ->
  approval_enabled m = true ->
  approval_loop (w_stdin w) = (false, rest, n) ->
  exists r w' added,
    execute_tool_call m tc w = (Returned r, w')
    /\ tr_success r = false
    /\ w_tools w' = w_tools w
    /\ w_trace w' = w_trace w ++ added
    /\ (forall name args, EvInvoke name args ∉ added)
    /\ (t_truth t = true ->
        is_Some (tool_info m !! tc_tool tc) ->
        tr_error r = Some "Tool execution disapproved by user")
    /\ (t_truth t = false ->
        added = []
        /\ tr_error r = Some ("Tool '" +:+ tc_tool tc +:+ "' not found")).
Proof.
  intros Hfind Ha Hl. destruct (t_truth t) eqn:Ht.
  - pose proof (found_tool_true m _ t Hfind Ht) as Hf.
    destruct (tool_info m !! tc_tool tc) as [i|] eqn:Hi.
    + eexists _, _, ([EvApprovalRequest (tc_tool tc) (tc_arguments tc)]
                     ++ replicate n EvInput).
      rewrite (execute_rejected m tc w t i rest n Hf Ha Hi Hl).
      split; [reflexivity|]. repeat split; try discriminate.
      * simpl. now rewrite <- app_assoc.
      * intros nm args Hin. apply elem_of_app in Hin as [Hin|Hin].
        -- apply list_elem_of_singleton in Hin. discriminate.
        -- apply elem_of_replicate in Hin as [Hin _]. discriminate.
    + eexists _, _, [EvApprovalRequest (tc_tool tc) (tc_arguments tc)].
      rewrite (execute_no_info m tc w t Hf Ha Hi).
      split; [reflexivity|]. repeat split; try discriminate.
      * intros nm args Hin. apply list_elem_of_singleton in Hin. discriminate.
      * intros _ [x Hx]. discriminate.
  - pose proof (found_tool_false m _ t Hfind Ht) as Hf.
    exists (failure (tc_tool tc) ("Tool '" +:+ tc_tool tc +:+ "' not found")), w, [].
    rewrite (execute_not_found m tc w Hf).
    split; [reflexivity|]. repeat split; try discriminate.
    + now rewrite app_nil_r.
    + intros nm args Hin. inversion Hin.
Qed.



End Facts.

(** *** The claims on concrete registries *)

Import Samples Scenarios.

Lemma execute_unknown_name_not_found_witness :
  execute_tool_call one_custom_tool call_y (console [Line "1"])
  = (Returned {| tr_tool_name := "y"; tr_success := false; tr_result := JNull;
                 tr_error := Some "Tool 'y' not found" |},
     console [Line "1"]).
Proof.
  apply (execute_unknown_name_not_found one_custom_tool call_y (console [Line "1"])).
  intros t Ht. apply list_elem_of_singleton in Ht. subst t. discriminate.
Defined.

(** C4 as stated fails: the error of a rejected call is not the string
    "disapproved by user". *)
Lemma rejected_error_is_not_the_claimed_string :
  ~ (exists r w',
       execute_tool_call one_custom_tool call_x (console [Line "2"]) = (Returned r, w')
       /\ tr_success r = false
       /\ tr_error r = Some "disapproved by user").
Proof.
  intros (r & w' & H & _ & He). vm_compute in H.
  injection H as <- _. discriminate.
Qed.

Lemma execute_rejected_leaves_tools_alone_witness :
  exists r w' added,
    execute_tool_call one_custom_tool call_x (console [Line "2"]) = (Returned r, w')
    /\ tr_success r = false
    /\ w_tools w' = 0%nat
    /\ w_trace w' = [] ++ added
    /\ (forall name args, EvInvoke name args ∉ added)
    /\ (t_truth x_from_B = true ->
        is_Some (tool_info one_custom_tool !! "x") ->
        tr_error r = Some "Tool execution disapproved by user")
    /\ (t_truth x_from_B = false ->
        added = [] /\ tr_error r = Some ("Tool '" +:+ "x" +:+ "' not found")).
Proof.
  apply (execute_rejected_leaves_tools_alone one_custom_tool call_x
           (console [Line "2"]) x_from_B [] 1%nat); reflexivity.
Defined.




(** C1 on the code. "x" is registered from the subprocess server "A" and
    then as a custom tool: [tool_info] holds the second registration, yet
    the scan of [find_tool_by_name] reaches the first one, and an approved
    call runs it. *)
Theorem reregistered_name_runs_first_registration :
  ti_source <$> tool_info registered_twice !! "x" = Some "custom"
  /\ find_tool_by_name registered_twice "x" = Some x_from_A
  /\ (execute_tool_call registered_twice call_x (console [Line "1"])).1
     = Returned {| tr_tool_name := "x"; tr_success := true;
                   tr_result := JStr "A"; tr_error := None |}.
Proof. split; [|split]; vm_compute; reflexivity. Qed.

End RegistryFacts.

(** ** Loops over a fleet *)

Module RuntimeFacts.
Import Runtime.

Section Facts.

Context {E : Type}.
Implicit Types (w : world E).

(** A loop body that logs a failure and goes on. *)
Local Abbreviation tolerant m :=
  (fun i => try_except (on_server _ i m) (fun _ => ret tt)).

Lemma on_server_middle {O} (m : method E O unit) (pre post : list O) o w :
  on_server E (length pre) m (pre ++ o :: post, w)
  = let '(r, (o', w')) := m (o, w) in (r, (pre ++ o' :: post, w')).
Proof.
  unfold on_server. simpl.
  rewrite list_lookup_middle by reflexivity.
  destruct (m (o, w)) as [r [o' w']].
  now rewrite (insert_app_r_alt pre (o :: post) (length pre)), Nat.sub_diag by lia.
Qed.

Lemma tolerant_middle {O} (m : method E O unit) (pre post : list O) o w :
  tolerant m (length pre) (pre ++ o :: post, w)
  = let '(r, (o', w')) := m (o, w) in (Returned tt, (pre ++ o' :: post, w')).
Proof.
  unfold try_except. rewrite on_server_middle.
  destruct (m (o, w)) as [[[]|e] [o' w']]; reflexivity.
Qed.

Lemma each_in_turn_length {O} (m : method E O unit) (os : list O) w :
  length (each_in_turn E m os w).2.1 = length os.
Proof.
  revert w. induction os as [|o os IH]; intros w; simpl; [reflexivity|].
  destruct (m (o, w)) as [r [o' w1]]. specialize (IH w1).
  destruct (each_in_turn E m os w1) as [rs [os' w2]]. simpl in *. now rewrite IH.
Qed.

(** A forward loop with a tolerant body visits every object in turn. *)
Lemma for_each_forward {O} (m : method E O unit) (pre os : list O) w :
  for_each (seq (length pre) (length os)) (tolerant m) (pre ++ os, w)
  = (Returned tt,
     (pre ++ (each_in_turn E m os w).2.1, (each_in_turn E m os w).2.2)).
Proof.
  revert pre w. induction os as [|o os IH]; intros pre w; simpl.
  - reflexivity.
  - unfold bind at 1. rewrite tolerant_middle.
    destruct (m (o, w)) as [r [o' w1]].
    replace (pre ++ o' :: os) with ((pre ++ [o']) ++ os)
      by now rewrite <- app_assoc.
    replace (S (length pre)) with (length (pre ++ [o']))
      by (rewrite length_app; simpl; lia).
    rewrite IH. destruct (each_in_turn E m os w1) as [rs [os' w2]]. simpl.
    now rewrite <- app_assoc.
Qed.

(** A backward loop with a tolerant body visits every object in turn,
    last first. *)
Lemma for_each_backward {O} (m : method E O unit) (os post : list O) w :
  for_each (rev (seq 0 (length os))) (tolerant m) (os ++ post, w)
  = (Returned tt,
     (rev (each_in_turn E m (rev os) w).2.1 ++ post,
      (each_in_turn E m (rev os) w).2.2)).
Proof.
  revert post w. induction os as [|o os IH] using rev_ind; intros post w.
  - reflexivity.
  - rewrite length_app. simpl. rewrite Nat.add_1_r, seq_S, rev_app_distr. simpl.
    unfold bind at 1. rewrite <- app_assoc. simpl. rewrite tolerant_middle.
    rewrite rev_app_distr. simpl.
    destruct (m (o, w)) as [r [o' w1]]. rewrite IH.
    destruct (each_in_turn E m (rev os) w1) as [rs [os' w2]]. simpl.
    now rewrite <- app_assoc.
Qed.

(** What [each_in_turn] does to the objects and to the trace, from what
    one visit does. *)
Lemma each_in_turn_spec {O} (m : method E O unit) (P : O -> O -> Prop)
    (tr : O -> list event) :
  (forall o w, P o (m (o, w)).2.1
               /\ w_trace (m (o, w)).2.2 = w_trace w ++ tr o) ->
  forall os w,
    Forall2 P os (each_in_turn E m os w).2.1
    /\ w_trace (each_in_turn E m os w).2.2 = w_trace w ++ flat_map tr os.
Proof.
  intros Hm. induction os as [|o os IH]; intros w; simpl.
  - split; [constructor | now rewrite app_nil_r].
  - destruct (Hm o w) as [HP Htr]. destruct (m (o, w)) as [r [o' w1]].
    destruct (IH w1) as [HF Htr']. simpl in *.
    destruct (each_in_turn E m os w1) as [rs [os' w2]]. simpl in *.
    split; [now constructor|]. rewrite Htr', Htr. now rewrite <- app_assoc.
Qed.

(** A forward loop whose body, on a failure, runs [h] and raises again:
    it stops at the first failure. *)
Lemma for_each_forward_abort {O} (m : method E O unit) (h : studio E O unit)
    (done pre post : list O) o w rs pre' w1 e o' w2 :
  (forall s, exists s', h s = (Returned tt, s')) ->
  each_in_turn E m pre w = (rs, (pre', w1)) ->
  Forall (fun r => r = Returned tt) rs ->
  m (o, w1) = (Raised e, (o', w2)) ->
  for_each (seq (length done) (length (pre ++ o :: post)))
    (fun i => try_except (on_server E i m) (fun e => h ;;; raise e))
    (done ++ pre ++ o :: post, w)
  = (Raised e, (h (done ++ pre' ++ o' :: post, w2)).2).
Proof.
  intros Hh.
  set (body := fun i => try_except (on_server E i m) (fun e => h ;;; raise e)).
  assert (Hgood : forall done p post w p' wp,
             m (p, w) = (Returned tt, (p', wp)) ->
             body (length done) (done ++ p :: post, w)
             = (Returned tt, (done ++ p' :: post, wp))).
  { intros d p q v p' wp Hp. unfold body, try_except.
    now rewrite on_server_middle, Hp. }
  assert (Hbad : forall done p post w x p' wp,
             m (p, w) = (Raised x, (p', wp)) ->
             body (length done) (done ++ p :: post, w)
             = (Raised x, (h (done ++ p' :: post, wp)).2)).
  { intros d p q v x p' wp Hp. unfold body, try_except.
    rewrite on_server_middle, Hp. unfold bind, raise.
    destruct (Hh (d ++ p' :: q, wp)) as [s' Hs']. now rewrite Hs'. }
  clearbody body. revert done w rs pre'.
  induction pre as [|p pre IH]; intros done w rs pre' Heach Hok Hm.
  - simpl in Heach. injection Heach as <- <- <-. simpl.
    unfold bind at 1. now rewrite (Hbad done o post w e o' w2 Hm).
  - simpl in Heach. destruct (m (p, w)) as [r [p' wp]] eqn:Hp.
    destruct (each_in_turn E m pre wp) as [rs0 [pre0 w0]] eqn:Hrest.
    injection Heach as <- <- <-. apply Forall_cons in Hok as [Hr Hok]. subst r.
    change (length ((p :: pre) ++ o :: post))
      with (S (length (pre ++ o :: post))).
    change ((p :: pre) ++ o :: post) with (p :: (pre ++ o :: post)).
    cbn [seq for_each]. unfold bind at 1.
    rewrite (Hgood done p (pre ++ o :: post) w p' wp Hp).
    replace (done ++ p' :: pre ++ o :: post)
      with ((done ++ [p']) ++ pre ++ o :: post) by now rewrite <- app_assoc.
    replace (S (length done)) with (length (done ++ [p']))
      by (rewrite length_app; simpl; lia).
    rewrite (IH (done ++ [p']) wp rs0 pre0 Hrest Hok Hm).
    now rewrite <- app_assoc.
Qed.

Lemma unwind_trace (release : resource -> E -> option py_exc * E)
    (stack : list resource) pending w :
  w_trace (unwind E release stack pending w).2
  = w_trace w ++ map EvRelease stack.
Proof.
  revert pending w. induction stack as [|r stack IH]; intros pending w; simpl.
  - now rewrite app_nil_r.
  - destruct (release r (w_env w)) as [o e']. rewrite IH. simpl.
    now rewrite <- app_assoc.
Qed.

End Facts.
End RuntimeFacts.

Module StudioFacts.
Import Runtime RuntimeFacts.

Section Stdio.
Import McpStudioPy.

Context {E : Type}.
Variable release : resource -> E -> option py_exc * E.
Variable spawn : StdioServerParameters -> E -> spawn_outcome * E.
Variable which_npx : option string.
Variable os_environ : gmap string string.

Lemma stdio_cleanup_spec (srv : MCPServer) (w : world E) :
  (name (cleanup E release (srv, w)).2.1 = name srv
   /\ exit_stack (cleanup E release (srv, w)).2.1 = [])
  /\ w_trace (cleanup E release (srv, w)).2.2 = w_trace w ++ stdio_visit srv.
Proof.
  unfold cleanup, bind, self, emit, try_except, aclose, set_self. simpl.
  pose proof (unwind_trace release (exit_stack srv) None
                {| w_env := w_env w; w_trace := w_trace w ++ [EvCleanup (name srv)] |})
    as Htr.
  destruct (unwind E release (exit_stack srv) None _) as [[e|] w1]; simpl in *;
    (split; [split; reflexivity|]); rewrite Htr; unfold stdio_visit;
    now rewrite <- app_assoc.
Qed.

Lemma stdio_cleanup_returns (srv : MCPServer) (w : world E) :
  (cleanup E release (srv, w)).1 = Returned tt.
Proof.
  unfold cleanup, bind, self, emit, try_except, aclose, set_self. simpl.
  destruct (unwind E release (exit_stack srv) None _) as [[e|] w1]; reflexivity.
Qed.

Lemma stdio_cleanup_all_eq (servers : list MCPServer) (w : world E) :
  cleanup_all_servers E release (servers, w)
  = (Returned tt,
     (rev (each_in_turn E (cleanup E release) (rev servers) w).2.1,
      (each_in_turn E (cleanup E release) (rev servers) w).2.2)).
Proof.
  unfold cleanup_all_servers. simpl.
  pose proof (for_each_backward (cleanup E release) servers [] w) as H.
  rewrite !app_nil_r in H. exact H.
Qed.

Lemma stdio_cleanup_all_total (s : list MCPServer * world E) :
  exists s', cleanup_all_servers E release s = (Returned tt, s').
Proof. destruct s as [servers w]. rewrite stdio_cleanup_all_eq. eauto. Qed.

Lemma stdio_cleanup_all_twice (servers : list MCPServer) (w : world E) :
  exists servers1 w1 servers2 w2,
    cleanup_all_servers E release (servers, w) = (Returned tt, (servers1, w1))
    /\ w_trace w1 = w_trace w ++ flat_map stdio_visit (rev servers)
    /\ cleanup_all_servers E release (servers1, w1) = (Returned tt, (servers2, w2))
    /\ w_trace w2
       = w_trace w1 ++ map (fun srv => EvCleanup (name srv)) (rev servers).
Proof.
  pose proof (each_in_turn_spec (cleanup E release)
                (fun o o' => name o' = name o /\ exit_stack o' = [])
                stdio_visit (stdio_cleanup_spec)) as Hspec.
  destruct (Hspec (rev servers) w) as [HF Htr].
  destruct (each_in_turn E (cleanup E release) (rev servers) w)
    as [rs [os1 w1]] eqn:H1. simpl in *.
  destruct (Hspec os1 w1) as [HF2 Htr2].
  destruct (each_in_turn E (cleanup E release) os1 w1)
    as [rs2 [os2 w2]] eqn:H2. simpl in *.
  exists (rev os1), w1, (rev os2), w2.
  rewrite stdio_cleanup_all_eq, H1. simpl.
  split; [reflexivity|]. split; [exact Htr|].
  rewrite stdio_cleanup_all_eq, rev_involutive, H2. simpl.
  split; [reflexivity|]. rewrite Htr2. f_equal.
  clear -HF. induction HF as [|o o' os os' [Hn Hs] HF IH]; simpl; [reflexivity|].
  unfold stdio_visit at 1. rewrite Hs, Hn. cbn [map app]. f_equal. exact IH.
Qed.

(** The first failing [initialize] of the subprocess fleet. *)
Lemma stdio_initialize_all_aborts (pre post : list MCPServer) srv w rs pre' w1
    e srv' w2 :
  let init := initialize E release spawn which_npx os_environ in
  each_in_turn E init pre w = (rs, (pre', w1)) ->
  Forall (fun r => r = Returned tt) rs ->
  init (srv, w1) = (Raised e, (srv', w2)) ->
  initialize_all_servers E release spawn which_npx os_environ
    (pre ++ srv :: post, w)
  = (Raised e,
     (cleanup_all_servers E release (pre' ++ srv' :: post, w2)).2).
Proof.
  intros init Heach Hok Hfail. unfold initialize_all_servers. simpl.
  exact (for_each_forward_abort init (cleanup_all_servers E release)
           [] pre post srv w rs pre' w1 e srv' w2
           stdio_cleanup_all_total Heach Hok Hfail).
Qed.

End Stdio.

Section Http.
Import McpSeeHttpPy.

Context {E : Type}.
Variable release : resource -> E -> option py_exc * E.
Variable open_session : string -> HttpServerConfig -> E -> PyResult resource * E.
Variable new_client : string -> HttpServerConfig -> E -> PyResult resource * E.
Variable serve : request -> E -> reply * E.
Variable urljoin : string -> string -> string.

Lemma http_cleanup_spec (srv : HttpMCPServer) (w : world E) :
  (name (cleanup E release (srv, w)).2.1 = name srv
   /\ (session (cleanup E release (srv, w)).2.1 = None
       \/ exit_stack (cleanup E release (srv, w)).2.1 = [])
   /\ (is_connected srv = false ->
       is_connected (cleanup E release (srv, w)).2.1 = false))
  /\ w_trace (cleanup E release (srv, w)).2.2 = w_trace w ++ http_visit srv.
Proof.
  unfold cleanup, bind, self, emit, try_except, aclose, set_self, http_visit.
  simpl. destruct (session srv) as [s|] eqn:Hs; simpl.
  - pose proof (unwind_trace release (exit_stack srv) None
                  {| w_env := w_env w; w_trace := w_trace w ++ [EvCleanup (name srv)] |})
      as Htr.
    destruct (unwind E release (exit_stack srv) None _) as [[e|] w1];
      simpl in *; rewrite Htr, <- app_assoc; simpl; auto.
  - rewrite Hs. auto.
Qed.

Lemma http_cleanup_returns (srv : HttpMCPServer) (w : world E) :
  (cleanup E release (srv, w)).1 = Returned tt.
Proof.
  unfold cleanup, bind, self, emit, try_except, aclose, set_self. simpl.
  destruct (session srv) as [s|]; simpl; [|reflexivity].
  destruct (unwind E release (exit_stack srv) None _) as [[e|] w1]; reflexivity.
Qed.

Lemma http_cleanup_all_eq (servers : list HttpMCPServer) (w : world E) :
  cleanup_all_servers E release (servers, w)
  = (Returned tt,
     (rev (each_in_turn E (cleanup E release) (rev servers) w).2.1,
      (each_in_turn E (cleanup E release) (rev servers) w).2.2)).
Proof.
  unfold cleanup_all_servers. simpl.
  pose proof (for_each_backward (cleanup E release) servers [] w) as H.
  rewrite !app_nil_r in H. exact H.
Qed.

Lemma http_cleanup_all_twice (servers : list HttpMCPServer) (w : world E) :
  exists servers1 w1 servers2 w2,
    cleanup_all_servers E release (servers, w) = (Returned tt, (servers1, w1))
    /\ w_trace w1 = w_trace w ++ flat_map http_visit (rev servers)
    /\ cleanup_all_servers E release (servers1, w1) = (Returned tt, (servers2, w2))
    /\ w_trace w2
       = w_trace w1 ++ map (fun srv => EvCleanup (name srv)) (rev servers).
Proof.
  assert (Hone : forall o (w : world E),
             (name (cleanup E release (o, w)).2.1 = name o
              /\ (session (cleanup E release (o, w)).2.1 = None
                  \/ exit_stack (cleanup E release (o, w)).2.1 = []))
             /\ w_trace (cleanup E release (o, w)).2.2 = w_trace w ++ http_visit o).
  { intros o v. destruct (http_cleanup_spec o v) as [(Hn & Hs & _) Ht]. auto. }
  pose proof (each_in_turn_spec (cleanup E release)
                (fun o o' => name o' = name o
                             /\ (session o' = None \/ exit_stack o' = []))
                http_visit Hone) as Hspec.
  destruct (Hspec (rev servers) w) as [HF Htr].
  destruct (each_in_turn E (cleanup E release) (rev servers) w)
    as [rs [os1 w1]] eqn:H1. simpl in *.
  destruct (Hspec os1 w1) as [HF2 Htr2].
  destruct (each_in_turn E (cleanup E release) os1 w1)
    as [rs2 [os2 w2]] eqn:H2. simpl in *.
  exists (rev os1), w1, (rev os2), w2.
  rewrite http_cleanup_all_eq, H1. simpl.
  split; [reflexivity|]. split; [exact Htr|].
  rewrite http_cleanup_all_eq, rev_involutive, H2. simpl.
  split; [reflexivity|]. rewrite Htr2. f_equal.
  clear -HF. induction HF as [|o o' os os' [Hn Hs] HF IH]; simpl; [reflexivity|].
  unfold http_visit at 1. rewrite Hn.
  replace (match session o' with
           | Some _ => map EvRelease (exit_stack o')
           | None => []
           end) with (@nil event)
    by (destruct Hs as [Hs|Hs]; rewrite Hs; [reflexivity | now destruct (session o')]).
  cbn [app]. f_equal. exact IH.
Qed.

Lemma test_connection_returns (srv : HttpMCPServer) (w : world E) :
  (_test_connection E serve urljoin (srv, w)).1 = Returned tt.
Proof.
  unfold _test_connection, try_except.
  destruct (probe E serve urljoin health_endpoints (srv, w)) as [[[]|e] s];
    reflexivity.
Qed.

Abbreviation init_http :=
  (initialize E release open_session new_client serve urljoin).

(** The probe changes nothing in the server but, possibly, the token. *)
Lemma probe_keeps_server eps (srv : HttpMCPServer) (w : world E) :
  (probe E serve urljoin eps (srv, w)).1 = Returned tt
  /\ set_mcp_session_id None (probe E serve urljoin eps (srv, w)).2.1
     = set_mcp_session_id None srv.
Proof.
  revert w. induction eps as [|ep eps IH]; intros w.
  - simpl. unfold bind, self, send, emit, env_call, bind, self. simpl.
    destruct (serve _ (w_env w)) as [rep e1]. simpl. auto.
  - simpl. unfold bind at 1. unfold self at 1. simpl.
    unfold bind at 1. unfold send, bind, self, emit, env_call. simpl.
    destruct (serve _ (w_env w)) as [rep e1]. simpl.
    destruct rep as [x|status headers bj bt]; [apply IH|].
    destruct (status =? 200)%Z.
    + destruct (header_get "mcp-session-id" headers) as [[|a id]|]; simpl; auto.
    + destruct (status <? 500)%Z; [simpl; auto | apply IH].
Qed.

Lemma test_connection_keeps_server (srv : HttpMCPServer) (w : world E) :
  (_test_connection E serve urljoin (srv, w)).1 = Returned tt
  /\ set_mcp_session_id None (_test_connection E serve urljoin (srv, w)).2.1
     = set_mcp_session_id None srv.
Proof.
  unfold _test_connection, try_except.
  destruct (probe_keeps_server health_endpoints srv w) as [Hr Hs].
  destruct (probe E serve urljoin health_endpoints (srv, w)) as [[[]|e] s];
    simpl in *; [auto | discriminate].
Qed.

Lemma cleanup_then_raise (srv : HttpMCPServer) (w : world E) x e srv' w' :
  is_connected srv = false ->
  bind (cleanup E release) (fun _ => @raise _ unit x) (srv, w)
  = (Raised e, (srv', w')) ->
  is_initialized srv' = false.
Proof.
  intros Hc. unfold bind, raise.
  pose proof (http_cleanup_returns srv w) as Hr.
  destruct (http_cleanup_spec srv w) as [(_ & _ & Hk) _].
  destruct (cleanup E release (srv, w)) as [[[]|y] [s1 w1]];
    simpl in *; [|discriminate].
  intros [= _ <- _]. unfold is_initialized. now rewrite (Hk Hc).
Qed.

Lemma http_initialize_failure (srv : HttpMCPServer) (w : world E) e srv' w' :
  is_connected srv = false ->
  init_http (srv, w) = (Raised e, (srv', w')) ->
  is_initialized srv' = false.
Proof.
  intros Hc. unfold initialize. unfold bind at 1. unfold self at 1. simpl.
  unfold bind at 1. unfold emit at 1. simpl. unfold try_except.
  destruct (String.eqb (lower (hc_transport (config srv))) "sse"
            || String.eqb (lower (hc_transport (config srv))) "streamable_http").
  - unfold _initialize_langchain. unfold bind at 1. unfold self at 1. simpl.
    unfold bind at 1. unfold emit at 1. simpl.
    unfold bind at 1. unfold env_call at 1. simpl.
    destruct (new_client (name srv) (config srv) (w_env w)) as [[c|x] e1]; simpl.
    + discriminate.
    + intros H. eapply cleanup_then_raise; [exact Hc | exact H].
  - unfold _initialize_aiohttp. unfold bind at 1. unfold self at 1. simpl.
    unfold bind at 1. unfold emit at 1. simpl.
    unfold bind at 1. unfold env_call at 1. simpl.
    destruct (open_session (name srv) (config srv) (w_env w)) as [[c|x] e1]; simpl.
    + unfold bind, set_self. simpl.
      match goal with
      | |- context [_test_connection E serve urljoin (?s, ?v)] =>
          destruct (test_connection_keeps_server s v) as [Hr _];
          destruct (_test_connection E serve urljoin (s, v)) as [[[]|y] [s1 w1]]
      end; simpl in *; discriminate.
    + intros H. eapply cleanup_then_raise; [exact Hc | exact H].
Qed.

Lemma http_initialize_success (srv : HttpMCPServer) (w : world E) srv' w' :
  init_http (srv, w) = (Returned tt, (srv', w')) ->
  is_initialized srv' = true.
Proof.
  unfold initialize. unfold bind at 1. unfold self at 1. simpl.
  unfold bind at 1. unfold emit at 1. simpl. unfold try_except.
  destruct (String.eqb (lower (hc_transport (config srv))) "sse"
            || String.eqb (lower (hc_transport (config srv))) "streamable_http").
  - unfold _initialize_langchain. unfold bind at 1. unfold self at 1. simpl.
    unfold bind at 1. unfold emit at 1. simpl.
    unfold bind at 1. unfold env_call at 1. simpl.
    destruct (new_client (name srv) (config srv) (w_env w)) as [[c|x] e1]; simpl.
    + intros [= <- _]. unfold is_initialized. simpl. apply orb_true_r.
    + unfold bind, raise.
      destruct (cleanup E release _) as [[[]|y] [s1 w1]]; discriminate.
  - unfold _initialize_aiohttp. unfold bind at 1. unfold self at 1. simpl.
    unfold bind at 1. unfold emit at 1. simpl.
    unfold bind at 1. unfold env_call at 1. simpl.
    destruct (open_session (name srv) (config srv) (w_env w)) as [[c|x] e1]; simpl.
    + unfold bind, set_self. simpl.
      match goal with
      | |- context [_test_connection E serve urljoin (?s, ?v)] =>
          destruct (test_connection_keeps_server s v) as [Hr Hk];
          destruct (_test_connection E serve urljoin (s, v)) as [[[]|y] [s1 w1]]
      end; simpl in *; [|discriminate].
      intros [= <- _]. unfold is_initialized. simpl.
      apply (f_equal session) in Hk. simpl in Hk. now rewrite Hk.
    + unfold bind, raise.
      destruct (cleanup E release _) as [[[]|y] [s1 w1]]; discriminate.
Qed.

Lemma http_initialize_all_eq (servers : list HttpMCPServer) (w : world E) :
  initialize_all_servers E release open_session new_client serve urljoin
    (servers, w)
  = (Returned tt, (each_in_turn E init_http servers w).2).
Proof.
  unfold initialize_all_servers. simpl.
  pose proof (for_each_forward init_http [] servers w) as H. simpl in H.
  rewrite H. now destruct (each_in_turn E init_http servers w) as [rs [os w']].
Qed.

End Http.

(** *** The claims on the studios *)

(** C9. In both studios [cleanup_all_servers] returns normally whatever
    the releases do; it visits the servers in the reverse of their order
    in [servers], releasing what each one holds once; run a second time
    it visits them again without error and releases nothing. *)
Theorem cleanup_all_reverse_and_idempotent :
  (forall (E : Type) (release : resource -> E -> option py_exc * E)
          (servers : list McpStudioPy.MCPServer) (w : world E),
     exists servers1 w1 servers2 w2,
       McpStudioPy.cleanup_all_servers E release (servers, w)
       = (Returned tt, (servers1, w1))
       /\ w_trace w1 = w_trace w ++ flat_map McpStudioPy.stdio_visit (rev servers)
       /\ McpStudioPy.cleanup_all_servers E release (servers1, w1)
          = (Returned tt, (servers2, w2))
       /\ w_trace w2
          = w_trace w1
            ++ map (fun srv => EvCleanup (McpStudioPy.name srv)) (rev servers))
  /\ (forall (E : Type) (release : resource -> E -> option py_exc * E)
             (servers : list McpSeeHttpPy.HttpMCPServer) (w : world E),
        exists servers1 w1 servers2 w2,
          McpSeeHttpPy.cleanup_all_servers E release (servers, w)
          = (Returned tt, (servers1, w1))
          /\ w_trace w1 = w_trace w ++ flat_map McpSeeHttpPy.http_visit (rev servers)
          /\ McpSeeHttpPy.cleanup_all_servers E release (servers1, w1)
             = (Returned tt, (servers2, w2))
          /\ w_trace w2
             = w_trace w1
               ++ map (fun srv => EvCleanup (McpSeeHttpPy.name srv)) (rev servers)).
Proof.
  split; intros E release servers w.
  - apply stdio_cleanup_all_twice.
  - apply http_cleanup_all_twice.
Qed.

(** C7. The network studio's [initialize_all_servers] always returns
    normally and is the isolated visit of every server in turn: a server
    whose [initialize] raises (it was not connected before) is left not
    initialized, hence outside [get_initialized_servers], one whose
    [initialize] returns is initialized, and the servers after it are
    initialized all the same. In the subprocess studio the first
    [initialize] that raises stops the loop: [cleanup_all_servers] is run
    over the whole fleet, the servers not yet reached included, and the
    exception is raised again. *)
Theorem initialize_all_isolation_and_abort :
  (forall (E : Type) release open_session new_client serve urljoin
          (servers : list McpSeeHttpPy.HttpMCPServer) (w : world E),
     let init :=
       McpSeeHttpPy.initialize E release open_session new_client serve urljoin in
     McpSeeHttpPy.initialize_all_servers E release open_session new_client
       serve urljoin (servers, w)
     = (Returned tt, (each_in_turn E init servers w).2)
     /\ (forall srv w0 e srv' w1,
           McpSeeHttpPy.is_connected srv = false ->
           init (srv, w0) = (Raised e, (srv', w1)) ->
           McpSeeHttpPy.is_initialized srv' = false
           /\ forall l, srv' ∉ McpSeeHttpPy.get_initialized_servers l)
     /\ (forall srv w0 srv' w1,
           init (srv, w0) = (Returned tt, (srv', w1)) ->
           McpSeeHttpPy.is_initialized srv' = true))
  /\ (forall (E : Type) release spawn which_npx os_environ
             (pre post : list McpStudioPy.MCPServer) srv (w : world E)
             rs pre' w1 e srv' w2,
        let init :=
          McpStudioPy.initialize E release spawn which_npx os_environ in
        each_in_turn E init pre w = (rs, (pre', w1)) ->
        Forall (fun r => r = Returned tt) rs ->
        init (srv, w1) = (Raised e, (srv', w2)) ->
        let fleet := pre' ++ srv' :: post in
        McpStudioPy.initialize_all_servers E release spawn which_npx os_environ
          (pre ++ srv :: post, w)
        = (Raised e, (McpStudioPy.cleanup_all_servers E release (fleet, w2)).2)
        /\ w_trace (McpStudioPy.cleanup_all_servers E release (fleet, w2)).2.2
           = w_trace w2 ++ flat_map McpStudioPy.stdio_visit (rev fleet)).
Proof.
  split.
  - intros E release open_session new_client serve urljoin servers w init.
    split; [apply http_initialize_all_eq|]. split.
    + intros srv w0 e srv' w1 Hc Hfail.
      pose proof (http_initialize_failure release open_session new_client
                    serve urljoin srv w0 e srv' w1 Hc Hfail) as Hno.
      split; [exact Hno|]. intros l Hin.
      unfold McpSeeHttpPy.get_initialized_servers in Hin.
      apply list_elem_of_filter in Hin as [Hin _]. congruence.
    + intros srv w0 srv' w1. apply http_initialize_success.
  - intros E release spawn which_npx os_environ pre post srv w rs pre' w1 e
           srv' w2 init Heach Hok Hfail fleet.
    split.
    + exact (stdio_initialize_all_aborts release spawn which_npx os_environ
               pre post srv w rs pre' w1 e srv' w2 Heach Hok Hfail).
    + destruct (stdio_cleanup_all_twice release fleet w2)
        as (s1 & v1 & _ & _ & Hc & Htr & _).
      rewrite Hc. exact Htr.
Qed.

(** C6, as the code has it. A network descriptor without [url] is refused
    when it is constructed: [HttpMCPServer(...)] raises a
    [ValidationError] and [add_server] raises it again, the studio and the
    world untouched. A subprocess descriptor without [command] that is
    otherwise valid is constructed without complaint ([command] is
    optional in [ServerConfig]); the missing command is reported by
    [initialize], which raises a [ValueError] before any process is
    started. *)
Theorem missing_required_field (nm : string) (cfg : dict) :
  (dict_get "url" cfg = None ->
   exists e,
     (forall int_of_str, McpSeeHttpPy.HttpMCPServer_new int_of_str nm cfg = Raised e)
     /\ exc_class e = "ValidationError"
     /\ forall (E : Type) int_of_str servers (w : world E),
          McpSeeHttpPy.add_server E int_of_str nm cfg (servers, w)
          = (Raised e, (servers, w)))
  /\ (dict_get "command" cfg = None ->
      forall srv,
        McpStudioPy.MCPServer_new nm cfg = Returned srv ->
        forall (E : Type) release spawn which_npx os_environ servers (w : world E),
          McpStudioPy.add_server E nm cfg (servers, w)
          = (Returned tt, (servers ++ [srv], w))
          /\ exists msg,
               McpStudioPy.initialize E release spawn which_npx os_environ (srv, w)
               = (Raised (McpStudioPy.ValueError msg),
                  (srv, {| w_env := w_env w;
                           w_trace := w_trace w ++ [EvInitialize nm] |}))).
Proof.
  split.
  - intros Hurl.
    assert (exists e,
              (forall int_of_str,
                 McpSeeHttpPy.HttpMCPServer_new int_of_str nm cfg = Raised e)
              /\ exc_class e = "ValidationError") as (e & He & Hc).
    { unfold McpSeeHttpPy.HttpMCPServer_new, McpSeeHttpPy.HttpServerConfig_new,
        Pydantic.and_then, Pydantic.required_str. rewrite Hurl.
      destruct (dict_get "transport" cfg) as [[| | |t| |]|]; eauto. }
    exists e. split; [exact He|]. split; [exact Hc|].
    intros E int_of_str servers w. unfold McpSeeHttpPy.add_server.
    now rewrite He.
  - intros Hcmd srv Hnew E release spawn which_npx os_environ servers w.
    split; [unfold McpStudioPy.add_server; now rewrite Hnew|].
    assert (McpStudioPy.name srv = nm
            /\ McpStudioPy.sc_command (McpStudioPy.config srv) = None) as [Hn Hc].
    { revert Hnew. unfold McpStudioPy.MCPServer_new, McpStudioPy.ServerConfig_new,
        Pydantic.and_then, Pydantic.optional_str at 1. rewrite Hcmd.
      destruct (Pydantic.default_str _ _ _); [|discriminate].
      destruct (Pydantic.optional_str_list _ _); [|discriminate].
      destruct (Pydantic.optional_str_dict _ _); [|discriminate].
      destruct (Pydantic.optional_str _ _); [|discriminate].
      intros [= <-]. split; reflexivity. }
    unfold McpStudioPy.initialize. unfold bind at 1. unfold self at 1.
    cbn [fst]. unfold bind at 1. unfold emit at 1. cbn [fst snd].
    rewrite Hn, Hc.
    destruct (negb (String.eqb (McpStudioPy.sc_transport (McpStudioPy.config srv))
                      "stdio")); eexists; reflexivity.
Qed.

(** *** The claims on concrete fleets *)

Import StdioSamples.

(** C6 as stated fails: a subprocess descriptor without [command] is
    constructed and added, and the failure comes from [initialize]. *)
Lemma descriptor_without_command_is_accepted :
  (exists srv,
     McpStudioPy.MCPServer_new "broken" without_command = Returned srv
     /\ McpStudioPy.add_server nat "broken" without_command ([], start)
        = (Returned tt, ([srv], start))
     /\ (McpStudioPy.initialize nat release_ok spawn_ok None ∅ (srv, start)).1
        = Raised (McpStudioPy.ValueError
                    "Server broken requires a command for stdio transport"))
  /\ ~ (exists e, McpStudioPy.MCPServer_new "broken" without_command = Raised e).
Proof.
  split.
  - eexists. split; [reflexivity|]. split; reflexivity.
  - intros [e He]. discriminate.
Qed.

Lemma missing_required_field_witness :
  (exists e,
     (forall int_of_str,
        McpSeeHttpPy.HttpMCPServer_new int_of_str "remote" without_url = Raised e)
     /\ exc_class e = "ValidationError"
     /\ forall (E : Type) int_of_str servers (w : world E),
          McpSeeHttpPy.add_server E int_of_str "remote" without_url (servers, w)
          = (Raised e, (servers, w)))
  /\ (McpStudioPy.add_server nat "broken" without_command ([], start)
      = (Returned tt, ([] ++ [server_of "broken" without_command], start))
      /\ exists msg,
           McpStudioPy.initialize nat release_ok spawn_ok None ∅
             (server_of "broken" without_command, start)
           = (Raised (McpStudioPy.ValueError msg),
              (server_of "broken" without_command,
               {| w_env := w_env start;
                  w_trace := w_trace start ++ [EvInitialize "broken"] |}))).
Proof.
  split.
  - apply (proj1 (missing_required_field "remote" without_url)). reflexivity.
  - apply (proj2 (missing_required_field "broken" without_command)
             ltac:(reflexivity) (server_of "broken" without_command)
             ltac:(reflexivity) nat release_ok spawn_ok None ∅ [] start).
Defined.

(** The subprocess fleet "first", "broken", "last": "first" comes up,
    "broken" fails, the loop stops, all three are cleaned up last first,
    and "last" was never started. *)
Lemma initialize_all_isolation_and_abort_witness :
  exists e st,
    McpStudioPy.initialize_all_servers nat release_ok spawn_ok None ∅ (fleet, start)
    = (Raised e, st)
    /\ w_trace st.2
       = [EvInitialize "first"; EvSpawn "first" "python" ["server.py"];
          EvInitialize "broken";
          EvCleanup "last";
          EvCleanup "broken";
          EvCleanup "first"; EvRelease 1%nat; EvRelease 0%nat].
Proof.
  destruct (proj2 initialize_all_isolation_and_abort nat release_ok spawn_ok None ∅
              [server_of "first" with_command] [server_of "last" with_command]
              (server_of "broken" without_command) start
              _ _ _ _ _ _
              ltac:(reflexivity) ltac:(repeat constructor) ltac:(reflexivity))
    as [Hrun Htr].
  eexists _, _. split; [exact Hrun | exact Htr].
Defined.

End StudioFacts.

(** ** The plain HTTP client *)

Module HttpFacts.
Import Runtime McpSeeHttpPy.

Section Facts.
Context {E : Type}.
Variable get_tools : resource -> E -> PyResult (list (adapter_tool E)) * E.
Variable serve : request -> E -> reply * E.
Variable urljoin : string -> string -> string.
Variable clock : E -> string.

Abbreviation sent srv rqs := (map (EvRequest (name srv)) rqs).

Abbreviation exchanged := (McpSeeHttpPy.exchanged E serve).

Lemma send_eq (srv : HttpMCPServer) rq (w : world E) :
  send E serve rq (srv, w) = (Returned (serve rq (w_env w)).1, (srv, exchanged srv rq w)).
Proof.
  unfold send, bind, self, emit, env_call, McpSeeHttpPy.exchanged. simpl.
  now destruct (serve rq (w_env w)).
Qed.

Lemma probe_stops eps (srv : HttpMCPServer) (w : world E) i status headers bj bt :
  let rqs := probe_requests_for urljoin eps srv in
  let answers := replies E serve rqs (w_env w) in
  (i < length eps)%nat ->
  (forall j, (j < i)%nat -> exists rep, answers !! j = Some rep /\ server_error rep = true) ->
  answers !! i = Some (Response status headers bj bt) ->
  (status < 500)%Z ->
  exists w',
    probe E serve urljoin eps (srv, w)
    = (Returned tt, (captured status headers srv, w'))
    /\ w_trace w' = w_trace w ++ sent srv (firstn (S i) rqs).
Proof.
  revert i w. induction eps as [|ep eps IH]; intros i w rqs answers Hi Hskip Hhit Hlt.
  - simpl in Hi. lia.
  - subst rqs answers. simpl in *.
    unfold bind at 1. unfold self at 1. simpl.
    unfold bind at 1. rewrite send_eq.
    set (rq := {| rq_method := GET; rq_url := urljoin (base_url srv) ep;
                  rq_headers := []; rq_json := None |}) in *.
    destruct (serve rq (w_env w)) as [rep e1] eqn:Hs. simpl in *.
    destruct i as [|i].
    + simpl in Hhit. injection Hhit as ->.
      exists (exchanged srv rq w). unfold captured.
      destruct (status =? 200)%Z eqn:H200.
      * split; [|reflexivity].
        destruct (header_get "mcp-session-id" headers) as [[|a id]|]; reflexivity.
      * apply Z.ltb_lt in Hlt. rewrite Hlt. split; reflexivity.
    + destruct (Hskip 0%nat ltac:(lia)) as (rep0 & Hr0 & Herr). simpl in Hr0.
      injection Hr0 as <-.
      destruct (IH i (exchanged srv rq w)) as (w' & Hp & Htr).
      * lia.
      * intros j Hj. destruct (Hskip (S j) ltac:(lia)) as (r & Hr & He).
        exists r. split; [|exact He]. unfold McpSeeHttpPy.exchanged. simpl. rewrite Hs. exact Hr.
      * unfold McpSeeHttpPy.exchanged. simpl. rewrite Hs. exact Hhit.
      * exact Hlt.
      * exists w'. split.
        -- destruct rep as [x|st hd b t]; [exact Hp|]. simpl in Herr.
           destruct (st =? 200)%Z eqn:H200.
           ++ apply Z.eqb_eq in H200. subst st. discriminate.
           ++ destruct (st <? 500)%Z; [discriminate | exact Hp].
        -- rewrite Htr. unfold McpSeeHttpPy.exchanged. simpl. now rewrite <- app_assoc.
Qed.

Lemma not_ok_status st hd b t :
  not_ok (Response st hd b t) = true -> (st =? 200)%Z = false.
Proof. simpl. now destruct (st =? 200)%Z. Qed.

Lemma listing_step_skip ep eps (srv : HttpMCPServer) (w : world E) :
  let rq := {| rq_method := GET; rq_url := urljoin (base_url srv) ep;
               rq_headers := session_headers srv; rq_json := None |} in
  not_ok (serve rq (w_env w)).1 = true ->
  list_cascade E serve urljoin (ep :: eps) (srv, w)
  = list_cascade E serve urljoin eps (srv, exchanged srv rq w).
Proof.
  intros rq Hbad. simpl. unfold bind at 1. unfold self at 1. simpl.
  unfold bind at 1. rewrite send_eq. fold rq.
  destruct (serve rq (w_env w)).1 as [x|st hd b t] eqn:Hrep; [reflexivity|].
  rewrite (not_ok_status _ _ _ _ Hbad). now destruct (st =? 404)%Z.
Qed.

Lemma listing_hit eps (srv : HttpMCPServer) (w : world E) i headers body bt v :
  let rqs := listing_requests_for urljoin eps srv in
  let answers := replies E serve rqs (w_env w) in
  (i < length eps)%nat ->
  (forall j, (j < i)%nat -> exists rep, answers !! j = Some rep /\ not_ok rep = true) ->
  answers !! i = Some (Response 200 headers (Returned body) bt) ->
  parse_listing body = Returned v ->
  exists w',
    list_cascade E serve urljoin eps (srv, w) = (Returned v, (srv, w'))
    /\ w_trace w' = w_trace w ++ sent srv (firstn (S i) rqs).
Proof.
  revert i w. induction eps as [|ep eps IH]; intros i w rqs answers Hi Hskip Hhit Hparse.
  - simpl in Hi. lia.
  - subst rqs answers. cbn [listing_requests_for map app replies] in *.
    set (rq := {| rq_method := GET; rq_url := urljoin (base_url srv) ep;
                  rq_headers := session_headers srv; rq_json := None |}) in *.
    destruct (serve rq (w_env w)) as [rep e1] eqn:Hs.
    destruct i as [|i].
    + simpl in Hhit. injection Hhit as ->.
      exists (exchanged srv rq w). split; [|reflexivity].
      simpl. unfold bind at 1. unfold self at 1. simpl.
      unfold bind at 1. rewrite send_eq. fold rq. rewrite Hs. simpl.
      now rewrite Hparse.
    + destruct (Hskip 0%nat ltac:(lia)) as (rep0 & Hr0 & Herr). simpl in Hr0.
      injection Hr0 as <-.
      rewrite listing_step_skip by (fold rq; now rewrite Hs). fold rq.
      destruct (IH i (exchanged srv rq w)) as (w' & Hp & Htr).
      * simpl in Hi. lia.
      * intros j Hj. destruct (Hskip (S j) ltac:(lia)) as (r & Hr & He).
        exists r. split; [|exact He]. unfold McpSeeHttpPy.exchanged. simpl. rewrite Hs. exact Hr.
      * unfold McpSeeHttpPy.exchanged. simpl. rewrite Hs. exact Hhit.
      * exact Hparse.
      * exists w'. split; [exact Hp|].
        rewrite Htr. unfold McpSeeHttpPy.exchanged. simpl. now rewrite <- app_assoc.
Qed.

Lemma listing_fallback eps (srv : HttpMCPServer) (w : world E) :
  let rqs := listing_requests_for urljoin eps srv in
  let answers := replies E serve rqs (w_env w) in
  (forall j, (j < length eps)%nat ->
             exists rep, answers !! j = Some rep /\ not_ok rep = true) ->
  exists rep w',
    answers !! length eps = Some rep
    /\ list_cascade E serve urljoin eps (srv, w)
       = (Returned (rpc_listing_value rep), (srv, w'))
    /\ w_trace w' = w_trace w ++ sent srv rqs.
Proof.
  revert w. induction eps as [|ep eps IH]; intros w rqs answers Hskip.
  - subst rqs answers. cbn [listing_requests_for map app replies length] in *.
    set (rq := {| rq_method := POST; rq_url := base_url srv;
                  rq_headers := session_headers srv;
                  rq_json := Some (mcp_request "tools/list" (JObj [])) |}) in *.
    destruct (serve rq (w_env w)) as [rep e1] eqn:Hs.
    exists rep, (exchanged srv rq w). split; [reflexivity|]. split; [|reflexivity].
    simpl. unfold bind at 1. unfold self at 1. simpl.
    unfold bind at 1. rewrite send_eq. fold rq. rewrite Hs. simpl.
    destruct rep as [x|st hd [result|y] t]; simpl; try reflexivity.
    + destruct (st =? 200)%Z; [|reflexivity].
      now destruct (parse_rpc_listing result).
    + now destruct (st =? 200)%Z.
  - subst rqs answers. cbn [listing_requests_for map app replies length] in *.
    set (rq := {| rq_method := GET; rq_url := urljoin (base_url srv) ep;
                  rq_headers := session_headers srv; rq_json := None |}) in *.
    destruct (serve rq (w_env w)) as [rep e1] eqn:Hs.
    destruct (Hskip 0%nat ltac:(lia)) as (rep0 & Hr0 & Herr). simpl in Hr0.
    injection Hr0 as <-.
    rewrite listing_step_skip by (fold rq; now rewrite Hs). fold rq.
    destruct (IH (exchanged srv rq w)) as (r & w' & Ha & Hp & Htr).
    + intros j Hj. destruct (Hskip (S j) ltac:(lia)) as (r & Hr & He).
      exists r. split; [|exact He]. unfold McpSeeHttpPy.exchanged. simpl. rewrite Hs. exact Hr.
    + exists r, w'. split; [|split; [exact Hp|]].
      * unfold McpSeeHttpPy.exchanged in Ha. simpl in Ha. rewrite Hs in Ha. exact Ha.
      * rewrite Htr. unfold McpSeeHttpPy.exchanged. simpl. now rewrite <- app_assoc.
Qed.

(** Whatever the remote end does, the cascade returns, leaves the server
    object as it was, and has sent an initial segment of its requests. *)
Lemma listing_total eps (srv : HttpMCPServer) (w : world E) :
  exists v w' k,
    list_cascade E serve urljoin eps (srv, w) = (Returned v, (srv, w'))
    /\ w_trace w'
       = w_trace w ++ sent srv (firstn k (listing_requests_for urljoin eps srv)).
Proof.
  revert w. induction eps as [|ep eps IH]; intros w.
  - simpl. unfold bind at 1. unfold self at 1. simpl.
    unfold bind at 1. rewrite send_eq.
    match goal with |- context [serve ?r (w_env w)] => set (rq := r) end.
    assert (Htr : w_trace (exchanged srv rq w)
                  = w_trace w ++ sent srv (firstn 1 (listing_requests_for urljoin [] srv)))
      by reflexivity.
    destruct (serve rq (w_env w)).1 as [x|st hd [result|y] t]; simpl.
    + eexists _, _, 1%nat. split; [reflexivity | exact Htr].
    + destruct (st =? 200)%Z;
        [destruct (parse_rpc_listing result)|];
        eexists _, _, 1%nat; (split; [reflexivity | exact Htr]).
    + destruct (st =? 200)%Z;
        eexists _, _, 1%nat; (split; [reflexivity | exact Htr]).
  - simpl. unfold bind at 1. unfold self at 1. simpl.
    unfold bind at 1. rewrite send_eq.
    match goal with |- context [serve ?r (w_env w)] => set (rq := r) end.
    destruct (IH (exchanged srv rq w)) as (v & w' & k & Hp & Htr).
    assert (Hnext : exists v w' k,
               list_cascade E serve urljoin eps (srv, exchanged srv rq w)
               = (Returned v, (srv, w'))
               /\ w_trace w' = w_trace w
                    ++ sent srv (firstn k (listing_requests_for urljoin (ep :: eps) srv))).
    { exists v, w', (S k). split; [exact Hp|]. rewrite Htr.
      unfold McpSeeHttpPy.exchanged. simpl. now rewrite <- app_assoc. }
    assert (Hstop : forall v, exists v0 w' k,
               (@Returned json v, (srv, exchanged srv rq w)) = (Returned v0, (srv, w'))
               /\ w_trace w' = w_trace w
                    ++ sent srv (firstn k (listing_requests_for urljoin (ep :: eps) srv))).
    { intros v0. exists v0, (exchanged srv rq w), 1%nat. split; reflexivity. }
    destruct (serve rq (w_env w)).1 as [x|st hd [body|y] t]; simpl.
    + exact Hnext.
    + destruct (st =? 200)%Z.
      * destruct (parse_listing body); [apply Hstop | exact Hnext].
      * destruct (st =? 404)%Z; exact Hnext.
    + destruct (st =? 200)%Z; [exact Hnext|].
      destruct (st =? 404)%Z; exact Hnext.
Qed.

Lemma listing_requests_headers eps (srv : HttpMCPServer) :
  Forall (fun rq => rq_headers rq = session_headers srv)
         (listing_requests_for urljoin eps srv).
Proof.
  unfold listing_requests_for. apply Forall_app. split.
  - apply Forall_map. now apply Forall_forall.
  - now repeat constructor.
Qed.

(** The call cascade: every request it sends carries the session headers,
    and the server object is left as it was. *)
Lemma call_cascade_headers tool_name arguments eps (srv : HttpMCPServer)
    (w : world E) r srv' w' :
  call_cascade E serve urljoin clock tool_name arguments eps (srv, w)
  = (r, (srv', w')) ->
  srv' = srv
  /\ exists rqs,
       w_trace w' = w_trace w ++ sent srv rqs
       /\ Forall (fun rq => rq_headers rq = session_headers srv) rqs.
Proof.
  revert w. induction eps as [|ep eps IH]; intros w.
  - simpl. unfold bind at 1. unfold self at 1. simpl.
    unfold bind at 1. rewrite send_eq.
    match goal with |- context [serve ?r (w_env w)] => set (rq := r) end.
    assert (Hone : forall (x : PyResult json),
               (x, (srv, exchanged srv rq w)) = (r, (srv', w')) ->
               srv' = srv
               /\ exists rqs,
                    w_trace w' = w_trace w ++ sent srv rqs
                    /\ Forall (fun rq => rq_headers rq = session_headers srv) rqs).
    { intros x [= _ <- <-]. split; [reflexivity|]. exists [rq].
      split; [reflexivity | now repeat constructor]. }
    destruct (serve rq (w_env w)).1 as [x|st hd [result|y] [text|z]]; simpl;
      try destruct (st =? 200)%Z; try destruct (parse_rpc_call result);
      apply Hone.
  - simpl. unfold bind at 1. unfold self at 1. simpl.
    unfold bind at 1. unfold env_call at 1. simpl.
    unfold bind at 1. rewrite send_eq.
    match goal with |- context [serve ?r ?e] => set (rq := r) end.
    match goal with |- context [exchanged srv rq ?v] => set (w0 := v) end.
    assert (Hnext :
      call_cascade E serve urljoin clock tool_name arguments eps
        (srv, exchanged srv rq w0) = (r, (srv', w')) ->
      srv' = srv
      /\ exists rqs,
           w_trace w' = w_trace w ++ sent srv rqs
           /\ Forall (fun rq => rq_headers rq = session_headers srv) rqs).
    { intros H. destruct (IH _ H) as (Hs & rqs & Htr & Hh).
      split; [exact Hs|]. exists (rq :: rqs). split.
      - rewrite Htr. unfold McpSeeHttpPy.exchanged. simpl. now rewrite <- app_assoc.
      - constructor; [reflexivity | exact Hh]. }
    destruct (serve rq (w_env w0)).1 as [x|st hd [result|y] t]; simpl.
    + exact Hnext.
    + destruct (st =? 200)%Z.
      * intros [= _ <- <-]. split; [reflexivity|]. exists [rq].
        split; [reflexivity | now repeat constructor].
      * destruct (st =? 404)%Z; exact Hnext.
    + destruct (st =? 200)%Z; [exact Hnext|].
      destruct (st =? 404)%Z; exact Hnext.
Qed.

Lemma list_tools_with_session (srv : HttpMCPServer) (w : world E) s :
  session srv = Some s ->
  _list_tools_aiohttp E serve urljoin (srv, w)
  = try_except (list_cascade E serve urljoin tool_endpoints)
      (fun _ => ret (JList [])) (srv, w).
Proof.
  intros H. unfold _list_tools_aiohttp. unfold bind at 1. unfold self.
  cbn [fst]. now rewrite H.
Qed.

Lemma list_tools_without_session (srv : HttpMCPServer) (w : world E) :
  session srv = None ->
  _list_tools_aiohttp E serve urljoin (srv, w)
  = (Raised (RuntimeError ("Session not initialized for " +:+ name srv)), (srv, w)).
Proof.
  intros H. unfold _list_tools_aiohttp. unfold bind at 1. unfold self.
  cbn [fst]. now rewrite H.
Qed.

Lemma call_tool_with_session (srv : HttpMCPServer) (w : world E) s tool_name arguments :
  session srv = Some s ->
  _call_tool_aiohttp E serve urljoin clock tool_name arguments (srv, w)
  = call_cascade E serve urljoin clock tool_name arguments
      (call_endpoints tool_name) (srv, w).
Proof.
  intros H. unfold _call_tool_aiohttp. unfold bind at 1. unfold self.
  cbn [fst]. now rewrite H.
Qed.

Lemma call_tool_without_session (srv : HttpMCPServer) (w : world E) tool_name arguments :
  session srv = None ->
  _call_tool_aiohttp E serve urljoin clock tool_name arguments (srv, w)
  = (Raised (RuntimeError ("Session not initialized for " +:+ name srv)), (srv, w)).
Proof.
  intros H. unfold _call_tool_aiohttp. unfold bind at 1. unfold self.
  cbn [fst]. now rewrite H.
Qed.

(** *** The claims on the plain HTTP client *)

(** An initialized plain-http connection lists through the aiohttp path,
    and holds a session. *)
Lemma list_tools_plain_http (srv : HttpMCPServer) (w : world E) :
  is_initialized srv = true ->
  _langchain_client srv = None ->
  session srv <> None
  /\ list_tools E get_tools serve urljoin (srv, w)
     = _list_tools_aiohttp E serve urljoin (srv, w).
Proof.
  unfold is_initialized. intros Hi Hl. rewrite Hl in Hi.
  apply andb_true_iff in Hi as [Hc Hs]. split.
  - destruct (session srv); [discriminate | discriminate].
  - unfold list_tools. unfold bind at 1. unfold self. cbn [fst].
    now rewrite Hc, Hl.
Qed.


(** C8, as the code has it. The probe tries /, /health, /status in that
    order, without headers, and stops at the first reply below 500; the
    token is captured only when that reply is a 200 carrying a non-empty
    [mcp-session-id] (an accepted reply with another status leaves the
    token alone, and no listing or call reply is ever inspected for it).
    Once the connection holds a token, every request of a listing and of
    a tool call carries it as [mcp-session-id], and neither changes it. *)
Theorem session_token_capture_and_echo (srv : HttpMCPServer) (w : world E) :
  let rqs := probe_requests urljoin srv in
  let answers := replies E serve rqs (w_env w) in
  (forall i status headers bj bt,
     (i < 3)%nat ->
     (forall j, (j < i)%nat ->
                exists rep, answers !! j = Some rep /\ server_error rep = true) ->
     answers !! i = Some (Response status headers bj bt) ->
     (status < 500)%Z ->
     exists w',
       _test_connection E serve urljoin (srv, w)
       = (Returned tt, (captured status headers srv, w'))
       /\ w_trace w' = w_trace w ++ sent srv (firstn (S i) rqs))
  /\ (forall id tool_name arguments,
        mcp_session_id srv = Some id -> id <> "" ->
        (forall r srv' w',
           _list_tools_aiohttp E serve urljoin (srv, w) = (r, (srv', w')) ->
           srv' = srv
           /\ exists sent_rqs,
                w_trace w' = w_trace w ++ sent srv sent_rqs
                /\ Forall (fun rq => rq_headers rq = [("mcp-session-id", id)]) sent_rqs)
        /\ (forall r srv' w',
              _call_tool_aiohttp E serve urljoin clock tool_name arguments (srv, w)
              = (r, (srv', w')) ->
              srv' = srv
              /\ exists sent_rqs,
                   w_trace w' = w_trace w ++ sent srv sent_rqs
                   /\ Forall (fun rq => rq_headers rq = [("mcp-session-id", id)]) sent_rqs)).
Proof.
  intros rqs answers. split.
  - intros i status headers bj bt Hi Hskip Hhit Hlt.
    destruct (probe_stops health_endpoints srv w i status headers bj bt
                Hi Hskip Hhit Hlt) as (w' & Hp & Htr).
    exists w'. split; [|exact Htr].
    unfold _test_connection, try_except. now rewrite Hp.
  - intros id tool_name arguments Hid Hne.
    assert (Hh : session_headers srv = [("mcp-session-id", id)]).
    { unfold session_headers. rewrite Hid. destruct id; [congruence | reflexivity]. }
    split.
    + intros r srv' w'. destruct (session srv) as [s|] eqn:Hs.
      * rewrite (list_tools_with_session srv w s Hs).
        destruct (listing_total tool_endpoints srv w) as (v & w1 & k & Hc & Htr).
        unfold try_except. rewrite Hc. intros [= _ <- <-].
        split; [reflexivity|]. eexists. split; [exact Htr|].
        rewrite <- Hh. apply Forall_take, listing_requests_headers.
      * rewrite (list_tools_without_session srv w Hs). intros [= _ <- <-].
        split; [reflexivity|].
        exists []. split; [now rewrite app_nil_r | constructor].
    + intros r srv' w'. destruct (session srv) as [s|] eqn:Hs.
      * rewrite (call_tool_with_session srv w s tool_name arguments Hs).
        intros H. rewrite <- Hh. exact (call_cascade_headers _ _ _ _ _ _ _ _ H).
      * rewrite (call_tool_without_session srv w tool_name arguments Hs).
        intros [= _ <- <-]. split; [reflexivity|].
        exists []. split; [now rewrite app_nil_r | constructor].
Qed.

End Facts.

(** *** The claims on fake servers *)

Import HttpSamples.


(** C8 as stated fails: a 404 on / that carries a session token is
    accepted by the probe, yet the token is not captured, and the listing
    that follows sends its requests without it. *)
Lemma accepted_reply_token_not_captured :
  let after_probe := (_test_connection unit token_on_404 join (ready_server, quiet)).2 in
  requests_of (w_trace after_probe.2)
  = [{| rq_method := GET; rq_url := "http://h/"; rq_headers := []; rq_json := None |}]
  /\ (token_on_404 {| rq_method := GET; rq_url := "http://h/";
                      rq_headers := []; rq_json := None |} tt).1
     = Response 404 [("mcp-session-id", "abc")]
         (Raised (Exc "ContentTypeError" "not json")) (Returned "Not Found")
  /\ mcp_session_id after_probe.1 = None
  /\ Forall (fun rq => rq_headers rq = [])
       (requests_of
          (w_trace (_list_tools_aiohttp unit token_on_404 join after_probe).2.2)).
Proof. vm_compute. repeat split; repeat constructor. Qed.

Lemma session_token_capture_and_echo_witness :
  exists w',
    _test_connection unit token_on_health join (ready_server, quiet)
    = (Returned tt, (set_mcp_session_id (Some "abc") ready_server, w'))
    /\ w_trace w'
       = w_trace quiet
         ++ map (EvRequest "math") (firstn 2 (probe_requests join ready_server)).
Proof.
  apply (proj1 (session_token_capture_and_echo token_on_health join fixed_clock
                  ready_server quiet)
           1%nat 200%Z [("Mcp-Session-Id", "abc")] (Returned (JObj [])) (Returned "{}")).
  - lia.
  - intros j Hj. destruct j as [|j]; [|lia]. eexists; split; reflexivity.
  - reflexivity.
  - lia.
Defined.

End HttpFacts.


(** ** More on the registry *)

Module RegistryMore.
Import ToolsManagerPy RegistryFacts RegistryReadings.

Section Facts.

Context {W : Type}.
Implicit Types (m : ToolsManager W) (t : tool W) (w : world W).

Local Abbreviation ins :=
  (fun (acc : gmap string ToolInfo) (p : string * ToolInfo) => <[p.1 := p.2]> acc).

Lemma find_by_name_first (n : string) (tools : list (tool W)) t :
  find_by_name n tools = Some t ->
  exists before after,
    tools = before ++ t :: after
    /\ t_name t = n
    /\ forall t', t' ∈ before -> t_name t' <> n.
Proof.
  induction tools as [|t0 tools IH]; simpl; [discriminate|].
  destruct (String.eqb_spec (t_name t0) n) as [Heq|Hne].
  - intros [= <-]. exists [], tools. split; [reflexivity|]. split; [exact Heq|].
    intros t' Hin. inversion Hin.
  - intros H. destruct (IH H) as (before & after & -> & Hn & Hb).
    exists (t0 :: before), after. split; [reflexivity|]. split; [exact Hn|].
    intros t' Hin. apply elem_of_cons in Hin as [->|Hin]; [exact Hne | now apply Hb].
Qed.

Lemma find_by_name_None_inv (n : string) (tools : list (tool W)) :
  find_by_name n tools = None -> forall t, t ∈ tools -> t_name t <> n.
Proof.
  induction tools as [|t0 tools IH]; simpl; intros H t Hin; [inversion Hin|].
  destruct (String.eqb_spec (t_name t0) n) as [Heq|Hne]; [discriminate|].
  apply elem_of_cons in Hin as [->|Hin]; [exact Hne | now apply IH].
Qed.

(** X1. [find_tool_by_name] returns the first tool of that name in the order
    of [get_all_tools]: no tool before it has the name. It returns [None]
    only when no registered tool has the name. *)
Theorem find_tool_by_name_first_match m (n : string) :
  match find_tool_by_name m n with
  | Some t =>
      exists before after,
        get_all_tools m = before ++ t :: after
        /\ t_name t = n
        /\ forall t', t' ∈ before -> t_name t' <> n
  | None => forall t, t ∈ get_all_tools m -> t_name t <> n
  end.
Proof.
  unfold find_tool_by_name.
  destruct (find_by_name n (get_all_tools m)) as [t|] eqn:H.
  - now apply find_by_name_first.
  - now apply find_by_name_None_inv.
Qed.

(** X2. With the approval gate off, a call of a registered, executable tool
    whose object is true for Python reads nothing from the console and invokes the tool exactly once with
    the arguments of the call; the result is a success carrying the tool's
    value, or the normalised failure when the tool raised. *)
Theorem execute_without_approval_invokes_once m (tc : ToolCall) w t f :
  approval_enabled m = false ->
  find_tool_by_name m (tc_tool tc) = Some t ->
  t_truth t = true ->
  dispatch t = Some f ->
  (execute_tool_call m tc w).2
  = {| w_stdin := w_stdin w;
       w_tools := (f (tc_arguments tc) (w_tools w)).2;
       w_trace := w_trace w ++ [EvInvoke (tc_tool tc) (tc_arguments tc)] |}
  /\ (execute_tool_call m tc w).1
     = Returned
         match (f (tc_arguments tc) (w_tools w)).1 with
         | Returned v =>
             {| tr_tool_name := tc_tool tc; tr_success := true;
                tr_result := v; tr_error := None |}
         | Raised e =>
             {| tr_tool_name := tc_tool tc; tr_success := false;
                tr_result := JNull;
                tr_error := Some ("Error executing tool '" +:+ tc_tool tc
                                  +:+ "': " +:+ exc_msg e) |}
         end.
Proof.
  intros Ha Hfind Ht Hd.
  rewrite (execute_ungated m tc w t (found_tool_true m _ t Hfind Ht) Ha).
  unfold dispatched. rewrite Hd.
  destruct (f (tc_arguments tc) (w_tools w)) as [[v|e] s]; split; reflexivity.
Qed.

Lemma dispatched_shape (tc : ToolCall) t w1 :
  exists r,
    (dispatched tc t w1).1 = Returned r
    /\ tr_tool_name r = tc_tool tc
    /\ (tr_success r = true <-> tr_error r = None)
    /\ (tr_success r = false -> tr_result r = JNull).
Proof.
  unfold dispatched. destruct (dispatch t) as [f|].
  - destruct (f (tc_arguments tc) (w_tools w1)) as [[v|e] s]; eexists;
      (split; [reflexivity|]); simpl; repeat split; intros; congruence.
  - eexists. split; [reflexivity|]. simpl. repeat split; intros; congruence.
Qed.

(** X3. [execute_tool_call] always returns a [ToolResult] and never raises;
    the result names the requested tool, carries an error message exactly
    when it is not a success, and carries no value when it failed. *)
Theorem tool_result_is_well_formed m (tc : ToolCall) w :
  exists r,
    (execute_tool_call m tc w).1 = Returned r
    /\ tr_tool_name r = tc_tool tc
    /\ (tr_success r = true <-> tr_error r = None)
    /\ (tr_success r = false -> tr_result r = JNull).
Proof.
  destruct (found_tool m (tc_tool tc)) as [t|] eqn:Hf.
  - destruct (approval_enabled m) eqn:Ha.
    + destruct (tool_info m !! tc_tool tc) as [i|] eqn:Hi.
      * destruct (approval_loop (w_stdin w)) as [[[|] rest] n] eqn:Hl.
        -- rewrite (execute_approved m tc w t i rest n Hf Ha Hi Hl).
           apply dispatched_shape.
        -- rewrite (execute_rejected m tc w t i rest n Hf Ha Hi Hl).
           eexists. split; [reflexivity|]. simpl. repeat split; intros; congruence.
      * rewrite (execute_no_info m tc w t Hf Ha Hi).
        eexists. split; [reflexivity|]. simpl. repeat split; intros; congruence.
    + rewrite (execute_ungated m tc w t Hf Ha). apply dispatched_shape.
  - rewrite (execute_not_found m tc w Hf).
    eexists. split; [reflexivity|]. simpl. repeat split; intros; congruence.
Qed.

(** X4. [_get_user_approval] grants exactly when the console yields lines
    that strip to neither 1 nor 2, followed by a line that strips to 1; the
    lines read are consumed and counted. An interrupt, a read error or the
    end of the input before that line is a refusal. Stripping is that of
    [str.strip()], which also removes the whitespace outside ASCII. *)
Theorem approval_granted_iff (stdin rest : list console_input) (n : nat) :
  approval_loop stdin = (true, rest, n)
  <-> exists skipped s,
        stdin = map Line skipped ++ Line s :: rest
        /\ strip s = "1"
        /\ Forall (fun l => strip l <> "1" /\ strip l <> "2") skipped
        /\ n = S (length skipped).
Proof.
  split.
  - revert n. induction stdin as [|[s| |e] stdin IH]; intros n; simpl;
      try discriminate.
    destruct (String.eqb_spec (strip s) "1") as [H1|H1].
    + intros [= <- <-]. exists [], s. repeat split; auto.
    + destruct (String.eqb_spec (strip s) "2") as [H2|H2]; [discriminate|].
      destruct (approval_loop stdin) as [[b r] k] eqn:Hl.
      intros [= -> -> <-].
      destruct (IH k eq_refl) as (skipped & s' & -> & Hs & Hall & ->).
      exists (s :: skipped), s'. repeat split; auto.
  - intros (skipped & s & -> & Hs & Hall & ->).
    induction Hall as [|l skipped [H1 H2] Hall IH]; simpl.
    + apply String.eqb_eq in Hs. now rewrite Hs.
    + apply String.eqb_neq in H1, H2. rewrite H1, H2, IH. reflexivity.
Qed.

(** A no-break space around the answer is stripped like any other
    whitespace: the answer counts at the first read. *)
Lemma approval_reads_past_no_break_space :
  approval_loop [Line (Samples.nbsp "1")] = (true, [], 1%nat)
  /\ approval_loop [Line (Samples.nbsp "2"); Line "1"] = (false, [Line "1"], 1%nat).
Proof. split; reflexivity. Qed.

Lemma foldl_ins_keeps (l : list (string * ToolInfo)) ti (n : string) :
  is_Some (ti !! n) -> is_Some (foldl ins ti l !! n).
Proof.
  revert ti. induction l as [|p l IH]; intros ti H; [exact H|].
  simpl. apply IH. destruct (decide (p.1 = n)) as [->|Hne].
  - rewrite lookup_insert_eq. eauto.
  - now rewrite lookup_insert_ne.
Qed.

Lemma foldl_ins_covers (l : list (string * ToolInfo)) ti p :
  p ∈ l -> is_Some (foldl ins ti l !! p.1).
Proof.
  revert ti. induction l as [|q l IH]; intros ti Hin; [inversion Hin|].
  apply elem_of_cons in Hin as [->|Hin].
  - simpl. apply foldl_ins_keeps. rewrite lookup_insert_eq. eauto.
  - simpl. now apply IH.
Qed.

Lemma stored_covers (mk : tool W -> PyResult ToolInfo) tools t :
  Forall (fun t' => exists i, mk t' = Returned i) tools ->
  t ∈ tools -> exists i, (t_name t, i) ∈ stored mk tools.
Proof.
  induction 1 as [|t' tools [i' Hi'] _ IH]; intros Hin; [inversion Hin|].
  simpl. rewrite Hi'. apply elem_of_cons in Hin as [->|Hin].
  - exists i'. left.
  - destruct (IH Hin) as [i Hi]. exists i. now right.
Qed.

Lemma appended_all (mk : tool W -> PyResult ToolInfo) tools :
  Forall (fun t' => exists i, mk t' = Returned i) tools ->
  appended mk tools = tools.
Proof.
  induction 1 as [|t' tools [i' Hi'] _ IH]; [reflexivity|].
  simpl. now rewrite Hi', IH.
Qed.

Lemma accepted_all (tools : list (tool W)) dflt source category :
  forallb (fun t => accepted_parameters (t_parameters t)) tools = true ->
  Forall (fun t => exists i, mk_info t dflt source category = Returned i) tools.
Proof.
  intros H. apply Forall_forall. intros t Hin.
  apply mk_info_accepted. rewrite forallb_forall in H. apply H.
  now apply list_elem_of_In.
Qed.

Lemma store_infos_keeps (mk : tool W -> PyResult ToolInfo) tools ti (n : string) :
  is_Some (ti !! n) -> is_Some ((store_infos mk tools ti).2 !! n).
Proof. rewrite store_infos_as_foldl. apply foldl_ins_keeps. Qed.

Lemma store_infos_covers (mk : tool W -> PyResult ToolInfo) tools ti t :
  Forall (fun t' => exists i, mk t' = Returned i) tools ->
  t ∈ tools -> is_Some ((store_infos mk tools ti).2 !! t_name t).
Proof.
  intros Hall Hin. rewrite store_infos_as_foldl.
  destruct (stored_covers mk tools t Hall Hin) as [i Hi].
  exact (foldl_ins_covers _ ti (t_name t, i) Hi).
Qed.

Lemma store_langchain_infos_keeps nm tools ti (n : string) :
  is_Some (ti !! n) -> is_Some (store_langchain_infos (W:=W) nm tools ti !! n).
Proof.
  revert ti. induction tools as [|t tools IH]; intros ti H; [exact H|].
  simpl. destruct (t_description t); [|exact H].
  destruct (ToolInfo_new _ _ _ _ _) as [i|e]; [|exact H]. apply IH.
  destruct (decide (t_name t = n)) as [->|Hne].
  - rewrite lookup_insert_eq. eauto.
  - now rewrite lookup_insert_ne.
Qed.

Lemma ToolInfo_new_accepted (n d src : string) (o : option json) (c : string) :
  accepted_parameters o = true ->
  exists i, ToolInfo_new n d src (default (JObj []) o) c = Returned i.
Proof.
  unfold ToolInfo_new. destruct o as [[| | | | |kv]|]; try discriminate; eauto.
Qed.

Lemma store_langchain_infos_covers nm tools ti t :
  forallb (fun t => match t_description t with
                    | Some _ => accepted_parameters (t_args_schema t)
                    | None => false
                    end) tools = true ->
  t ∈ tools -> is_Some (store_langchain_infos (W:=W) nm tools ti !! t_name t).
Proof.
  revert ti. induction tools as [|t0 tools IH]; intros ti Hall Hin; [inversion Hin|].
  simpl in Hall. apply andb_true_iff in Hall as [H0 Hall].
  simpl. destruct (t_description t0) as [d|]; [|discriminate].
  destruct (ToolInfo_new_accepted (t_name t0) d ("http_server:" +:+ nm)
              (t_args_schema t0) "http" H0) as [i ->].
  apply elem_of_cons in Hin as [->|Hin].
  - apply store_langchain_infos_keeps. rewrite lookup_insert_eq. eauto.
  - now apply IH.
Qed.

Lemma described_load_from_mcp_server m srv :
  match srv.2 with
  | Returned tools =>
      forallb (fun t => accepted_parameters (t_parameters t)) tools
  | Raised _ => true
  end = true ->
  described m -> described (load_from_mcp_server m srv).
Proof.
  intros Hk H. destruct srv as [nm [tools|e]]; [|exact H]. simpl in Hk.
  intros t. unfold get_all_tools. simpl. rewrite !elem_of_app. intros Hin.
  destruct Hin as [[Hin|Hin]|Hin].
  - apply store_infos_keeps, H. unfold get_all_tools. rewrite !elem_of_app. auto.
  - apply store_infos_covers; [|exact Hin]. now apply accepted_all.
  - apply store_infos_keeps, H. unfold get_all_tools. rewrite !elem_of_app. auto.
Qed.

Lemma described_load_mcp_tools servers m :
  forallb (fun srv =>
             match srv.2 with
             | Returned tools =>
                 forallb (fun t => accepted_parameters (t_parameters t)) tools
             | Raised _ => true
             end) servers = true ->
  described m -> described (load_mcp_tools servers m).
Proof.
  intros Hk H. unfold load_mcp_tools.
  assert (H0 : described (with_mcp_tools m [])).
  { intros t. unfold get_all_tools. simpl. intros Hin. apply H.
    unfold get_all_tools. rewrite elem_of_app. now right. }
  revert H0. generalize (with_mcp_tools m []).
  induction servers as [|srv servers IH]; intros m0 H0; simpl; [exact H0|].
  simpl in Hk. apply andb_true_iff in Hk as [Hsrv Hk].
  apply IH; [exact Hk|]. now apply described_load_from_mcp_server.
Qed.

Lemma described_load_aiohttp_entry str call nm m entry :
  is_Some (td_name entry) ->
  accepted_parameters (td_parameters entry) = true ->
  exists m',
    load_aiohttp_entry str call nm m entry = (Returned tt, m')
    /\ (described m -> described m').
Proof.
  intros [n Hn] Hp. unfold load_aiohttp_entry. cbv zeta. rewrite Hn.
  change (default (nm +:+ "_tool") (Some n)) with n.
  destruct (ToolInfo_new_accepted n (default "HTTP/SSE MCP tool" (td_description entry))
              ("http_server:" +:+ nm) (td_parameters entry) "http" Hp) as [i ->].
  eexists. split; [reflexivity|]. intros H t.
  unfold get_all_tools. simpl. rewrite !elem_of_app. intros Hin.
  assert (Hold : t ∈ get_all_tools m ->
                 is_Some (<[n := i]> (tool_info m) !! t_name t)).
  { intros Hin'. destruct (decide (n = t_name t)) as [->|Hne].
    - rewrite lookup_insert_eq. eauto.
    - rewrite lookup_insert_ne by exact Hne. now apply H. }
  destruct Hin as [Hin|[[Hin|Hin]|Hin]].
  - apply Hold. unfold get_all_tools. rewrite !elem_of_app. auto.
  - apply Hold. unfold get_all_tools. rewrite !elem_of_app. auto.
  - apply list_elem_of_singleton in Hin. subst t. unfold _create_http_tool.
    rewrite Hn. simpl. rewrite lookup_insert_eq. eauto.
  - apply Hold. unfold get_all_tools. rewrite !elem_of_app. auto.
Qed.

Lemma described_add (mk : tool W -> PyResult ToolInfo) tools m
    (before after : list (tool W)) :
  Forall (fun t' => exists i, mk t' = Returned i) tools ->
  described m ->
  (forall t, t ∈ before ++ after -> t ∈ get_all_tools m) ->
  forall t, t ∈ before ++ appended mk tools ++ after ->
            is_Some (foldl ins (tool_info m) (stored mk tools) !! t_name t).
Proof.
  intros Hall H Hold t. rewrite (appended_all mk tools Hall).
  rewrite !elem_of_app. intros [Hin|[Hin|Hin]].
  - apply foldl_ins_keeps, H, Hold. rewrite elem_of_app. auto.
  - destruct (stored_covers mk tools t Hall Hin) as [i Hi].
    exact (foldl_ins_covers _ (tool_info m) (t_name t, i) Hi).
  - apply foldl_ins_keeps, H, Hold. rewrite elem_of_app. auto.
Qed.

Lemma described_apply m (o : operation W) :
  keeps_descriptors o = true -> described m -> described (apply m o).
Proof.
  destruct o as [servers|nm got|str call nm listed|tools|tools|b]; simpl;
    intros Hk H.
  - now apply described_load_mcp_tools.
  - destruct got as [tools|e]; [|exact H].
    intros t. unfold get_all_tools. simpl. rewrite !elem_of_app. intros Hin.
    destruct Hin as [Hin|[[Hin|Hin]|Hin]].
    + apply store_langchain_infos_keeps, H. unfold get_all_tools.
      rewrite !elem_of_app. auto.
    + apply store_langchain_infos_keeps, H. unfold get_all_tools.
      rewrite !elem_of_app. auto.
    + now apply store_langchain_infos_covers.
    + apply store_langchain_infos_keeps, H. unfold get_all_tools.
      rewrite !elem_of_app. auto.
  - destruct listed as [entries|e]; [|exact H]. simpl.
    revert m H. induction entries as [|entry entries IH]; intros m H; [exact H|].
    simpl in Hk. apply andb_true_iff in Hk as [H0 Hk]. simpl.
    destruct (td_name entry) as [n|] eqn:Hn; [|discriminate].
    destruct (described_load_aiohttp_entry str call nm m entry) as (m' & -> & Hd);
      [rewrite Hn; eauto | exact H0 |].
    apply IH; [exact Hk | exact (Hd H)].
  - rewrite add_custom_tools_eq. intros t. unfold get_all_tools. simpl.
    intros Hin.
    apply (described_add _ tools m (mcp_tools m ++ http_tools m ++ custom_tools m)
             (see_tools m)).
    + now apply accepted_all.
    + exact H.
    + intros t'. unfold get_all_tools. now rewrite <- !app_assoc.
    + revert Hin. rewrite <- !app_assoc. trivial.
  - rewrite add_see_tools_eq. intros t. unfold get_all_tools. simpl.
    intros Hin.
    apply (described_add _ tools m
             (mcp_tools m ++ http_tools m ++ custom_tools m ++ see_tools m) []).
    + now apply accepted_all.
    + exact H.
    + intros t'. unfold get_all_tools. now rewrite app_nil_r.
    + revert Hin. rewrite app_nil_r, <- !app_assoc. trivial.
  - exact H.
Qed.

(** X5. After any sequence of registry operations in which no
    [ToolInfo(...)] is refused (the parameters of every tool, the
    [args_schema] of every adapter tool and the parameters of every
    listing entry are absent or a dict) and in which every adapter tool
    has a description and every listing entry a name, each tool that
    [get_all_tools] lists has a [ToolInfo] under its own name. *)
Theorem resolvable_tools_have_descriptors (ops : list (operation W)) :
  Forall (fun o => keeps_descriptors o = true) ops ->
  forall t, t ∈ get_all_tools (after ops) ->
            is_Some (tool_info (after ops) !! t_name t).
Proof.
  unfold after. induction ops as [|o ops IH] using rev_ind; intros Hk.
  - intros t Hin. inversion Hin.
  - rewrite foldl_app. simpl. apply Forall_app in Hk as [Hops Ho].
    apply Forall_cons in Ho as [Ho _].
    apply described_apply; [exact Ho | exact (IH Hops)].
Qed.


Lemma find_by_name_app_r (n : string) (l1 l2 : list (tool W)) :
  find_by_name n l1 = None -> find_by_name n (l1 ++ l2) = find_by_name n l2.
Proof.
  induction l1 as [|t l1 IH]; simpl; [reflexivity|].
  destruct (String.eqb (t_name t) n); [discriminate | exact IH].
Qed.

Lemma find_by_name_app_None (n : string) (l1 l2 : list (tool W)) :
  find_by_name n (l1 ++ l2) = None ->
  find_by_name n l1 = None /\ find_by_name n l2 = None.
Proof.
  induction l1 as [|t l1 IH]; simpl; [auto|].
  destruct (String.eqb (t_name t) n); [discriminate | exact IH].
Qed.


(** X7. The tool made by [_create_http_tool] turns a failure of the
    forwarded call into a string, so with the gate off
    [execute_tool_call] reports the call as a success whose result is
    that error text. *)
Theorem http_tool_failure_is_reported_as_success str call (entry : tool_data)
    m (tc : ToolCall) w e s :
  find_tool_by_name m (tc_tool tc) = Some (_create_http_tool str call entry) ->
  approval_enabled m = false ->
  call (default "http_tool" (td_name entry)) (tc_arguments tc) (w_tools w)
  = (Raised e, s) ->
  execute_tool_call m tc w
  = (Returned
       {| tr_tool_name := tc_tool tc; tr_success := true;
          tr_result := JStr ("Error executing HTTP tool "
                             +:+ default "http_tool" (td_name entry)
                             +:+ ": " +:+ exc_msg e);
          tr_error := None |},
     {| w_stdin := w_stdin w; w_tools := s;
        w_trace := w_trace w ++ [EvInvoke (tc_tool tc) (tc_arguments tc)] |}).
Proof.
  intros Hf Ha Hcall.
  rewrite (execute_ungated m tc w _ (found_tool_true m _ _ Hf eq_refl) Ha).
  rewrite dispatched_http_tool. now rewrite Hcall.
Qed.

Lemma foldl_ins_absorbs (l : list (string * ToolInfo)) p (ti : gmap string ToolInfo) :
  <[p.1 := p.2]> (foldl ins (<[p.1 := p.2]> ti) l)
  = <[p.1 := p.2]> (foldl ins ti l).
Proof.
  revert ti. induction l as [|q l IH]; intros ti; simpl.
  - apply insert_insert_eq.
  - destruct (decide (q.1 = p.1)) as [Heq|Hne].
    + rewrite Heq. now rewrite insert_insert_eq.
    + rewrite (insert_insert_ne ti) by exact Hne. apply IH.
Qed.

Lemma foldl_ins_idempotent (l : list (string * ToolInfo)) (ti : gmap string ToolInfo) :
  foldl ins (foldl ins ti l) l = foldl ins ti l.
Proof.
  revert ti. induction l as [|p l IH] using rev_ind; intros ti; [reflexivity|].
  rewrite !foldl_app. simpl.
  rewrite foldl_ins_absorbs. now rewrite IH.
Qed.

Lemma load_mcp_tools_shape servers :
  exists (loaded : list (tool W)) (infos : list (string * ToolInfo)),
    forall m0,
      foldl load_from_mcp_server m0 servers
      = with_tool_info (with_mcp_tools m0 (mcp_tools m0 ++ loaded))
          (foldl ins (tool_info m0) infos).
Proof.
  induction servers as [|srv servers IH] using rev_ind.
  - exists [], []. intros m0. simpl. rewrite app_nil_r. now destruct m0.
  - destruct IH as (loaded & infos & IH).
    destruct srv as [nm [tools|e]].
    + exists (loaded ++ tools),
        (infos ++ stored (fun t => mk_info t "No description available"
                                     ("mcp_server:" +:+ nm) "mcp") tools).
      intros m0. rewrite foldl_app. simpl. rewrite IH. simpl.
      unfold with_tool_info, with_mcp_tools. simpl.
      rewrite store_infos_as_foldl, foldl_app, app_assoc. reflexivity.
    + exists loaded, infos. intros m0. rewrite foldl_app. simpl. apply IH.
Qed.

(** X8. [load_mcp_tools] is idempotent for fixed answers of the servers:
    loading twice leaves the registry that loading once leaves. *)
Theorem load_mcp_tools_idempotent servers m :
  load_mcp_tools servers (load_mcp_tools servers m) = load_mcp_tools servers m.
Proof.
  unfold load_mcp_tools.
  destruct (load_mcp_tools_shape servers) as (loaded & infos & H).
  rewrite !H. unfold with_tool_info, with_mcp_tools. simpl.
  now rewrite foldl_ins_idempotent.
Qed.

End Facts.
End RegistryMore.


(** ** [Configuration] *)

Module ConfigurationFacts.
Import ConfigurationPy.

Lemma truthy_default (o : option string) :
  truthy o = true -> default "" o <> "" /\ o = Some (default "" o).
Proof. destruct o as [[|a s]|]; simpl; try discriminate. intros _. split; [discriminate | reflexivity]. Qed.

(** X9. When [llm_api_key] returns, the key is not empty and is the key
    [get_provider_config] returns for one of the providers; when it
    raises, it raises a [ValueError] and [get_provider_config] raises for
    every provider. *)
Theorem llm_api_key_agrees_with_providers (c : Configuration) :
  match llm_api_key c with
  | Returned key =>
      key <> ""
      /\ exists provider env_var,
           get_provider_config provider c = Returned (env_var, key)
  | Raised e =>
      exc_class e = "ValueError"
      /\ forall provider, exists e', get_provider_config provider c = Raised e'
  end.
Proof.
  unfold llm_api_key.
  destruct (truthy (api_key c)) eqn:H1.
  { destruct (truthy_default _ H1) as [Hne Hk]. split; [exact Hne|].
    exists "google_genai", "GOOGLE_API_KEY". unfold get_provider_config. simpl.
    now rewrite H1. }
  destruct (truthy (openai_api_key c)) eqn:H2.
  { destruct (truthy_default _ H2) as [Hne Hk]. split; [exact Hne|].
    exists "openai", "OPENAI_API_KEY". unfold get_provider_config. simpl.
    now rewrite H2. }
  destruct (truthy (anthropic_api_key c)) eqn:H3.
  { destruct (truthy_default _ H3) as [Hne Hk]. split; [exact Hne|].
    exists "anthropic", "ANTHROPIC_API_KEY". unfold get_provider_config. simpl.
    now rewrite H3. }
  split; [reflexivity|]. intros provider. unfold get_provider_config. simpl.
  destruct (String.eqb provider "google_genai"); [rewrite H1; eauto|].
  destruct (String.eqb provider "openai"); [rewrite H2; eauto|].
  destruct (String.eqb provider "anthropic"); [rewrite H3; eauto|].
  eauto.
Qed.

(** X10. [get_provider_config] returns exactly for the three providers of
    its table whose key is set and not empty, with the variable name of
    that provider; an unknown provider, an unset key and an empty key all
    raise. *)
Theorem provider_config_returned_iff (provider : string) (c : Configuration)
    env_var key :
  get_provider_config provider c = Returned (env_var, key)
  <-> key <> ""
      /\ ((provider = "google_genai" /\ env_var = "GOOGLE_API_KEY"
           /\ api_key c = Some key)
          \/ (provider = "openai" /\ env_var = "OPENAI_API_KEY"
              /\ openai_api_key c = Some key)
          \/ (provider = "anthropic" /\ env_var = "ANTHROPIC_API_KEY"
              /\ anthropic_api_key c = Some key)).
Proof.
  assert (Hsome : forall o, o = Some key -> key <> "" ->
                            truthy o = true /\ default "" o = key).
  { intros o -> Hk. destruct key; [congruence | now split]. }
  unfold get_provider_config. simpl. split.
  - destruct (String.eqb_spec provider "google_genai") as [->|_].
    { destruct (truthy (api_key c)) eqn:H; [|discriminate].
      destruct (truthy_default _ H) as [Hne Hk]. intros [= <- <-]. auto 6. }
    destruct (String.eqb_spec provider "openai") as [->|_].
    { destruct (truthy (openai_api_key c)) eqn:H; [|discriminate].
      destruct (truthy_default _ H) as [Hne Hk]. intros [= <- <-]. auto 8. }
    destruct (String.eqb_spec provider "anthropic") as [->|_].
    { destruct (truthy (anthropic_api_key c)) eqn:H; [|discriminate].
      destruct (truthy_default _ H) as [Hne Hk]. intros [= <- <-]. auto 8. }
    discriminate.
  - intros [Hk [(-> & -> & Ho)|[(-> & -> & Ho)|(-> & -> & Ho)]]];
      destruct (Hsome _ Ho Hk) as [Ht Hd]; simpl; now rewrite Ht, Hd.
Qed.

End ConfigurationFacts.


(** ** Loading the studios *)

Module StudioConfigFacts.
Import Runtime StudioConfigPy.

Section Facts.
Context {E : Type}.
Variable int_of_str : string -> option Z.

Lemma http_load_entry_step (nm : string) (v : json) rest
    (servers : list McpSeeHttpPy.HttpMCPServer) (w : world E) :
  http_load_entries E int_of_str ((nm, v) :: rest) (servers, w)
  = http_load_entries E int_of_str rest
      (servers ++ from_option (fun s => [s]) [] (http_accepts int_of_str (nm, v)), w).
Proof.
  simpl. unfold bind at 1. unfold try_except, http_accepts.
  destruct v as [| | | | |cfg]; simpl; try (now rewrite app_nil_r).
  destruct (dict_get "transport" cfg) as [[| | |t| |]|]; simpl;
    try (now rewrite app_nil_r).
  destruct (is_network_transport (lower t)); simpl; [|now rewrite app_nil_r].
  unfold McpSeeHttpPy.add_server. simpl.
  destruct (McpSeeHttpPy.HttpMCPServer_new int_of_str nm cfg); simpl;
    [reflexivity | now rewrite app_nil_r].
Qed.

Lemma http_load_entries_eq entries (servers : list McpSeeHttpPy.HttpMCPServer)
    (w : world E) :
  http_load_entries E int_of_str entries (servers, w)
  = (Returned tt, (servers ++ omap (http_accepts int_of_str) entries, w)).
Proof.
  revert servers. induction entries as [|[nm v] entries IH]; intros servers.
  - simpl. now rewrite app_nil_r.
  - rewrite http_load_entry_step, IH. cbn [omap list_omap].
    destruct (http_accepts int_of_str (nm, v)); cbn [from_option]; now rewrite <- app_assoc.
Qed.

Lemma http_accepts_spec nm v srv :
  http_accepts int_of_str (nm, v) = Some srv ->
  McpSeeHttpPy.name srv = nm
  /\ lower (McpSeeHttpPy.hc_transport (McpSeeHttpPy.config srv))
     ∈ get_supported_transports
  /\ McpSeeHttpPy.is_initialized srv = false.
Proof.
  unfold http_accepts. destruct v as [| | | | |cfg]; try discriminate. simpl.
  destruct (dict_get "transport" cfg) as [[| | |t| |]|] eqn:Ht; try discriminate.
  destruct (is_network_transport (lower t)) eqn:Hn; [|discriminate].
  unfold McpSeeHttpPy.HttpMCPServer_new, McpSeeHttpPy.HttpServerConfig_new,
    Pydantic.and_then, Pydantic.required_str at 1. rewrite Ht.
  destruct (Pydantic.required_str "url" cfg); [|discriminate].
  destruct (Pydantic.optional_str_dict _ _); [|discriminate].
  destruct (Pydantic.optional_int _ _ _ _); [|discriminate].
  destruct (Pydantic.optional_bool _ _ _); [|discriminate].
  intros [= <-]. simpl. split; [reflexivity|]. split; [|reflexivity].
  unfold is_network_transport in Hn. unfold get_supported_transports.
  apply orb_true_iff in Hn as [Hn|Hn]; [apply orb_true_iff in Hn as [Hn|Hn]|];
    apply String.eqb_eq in Hn; rewrite Hn; set_solver.
Qed.

(** X11. [HttpMCPStudio.load_servers_from_config] returns whatever the
    entries are: without the key mcpServers nothing changes; otherwise the
    servers appended are, in order, those of the entries with a network
    transport and a descriptor that [HttpServerConfig] accepts, with the
    conversions pydantic makes for [timeout] and [ssl_verify]; each of
    them is not yet initialized. *)
Theorem http_config_loading_is_isolated (config_data : dict)
    (servers : list McpSeeHttpPy.HttpMCPServer) (w : world E) :
  (dict_get "mcpServers" config_data = None ->
   http_load_servers_from_config E int_of_str config_data (servers, w)
   = (Returned tt, (servers, w)))
  /\ (forall entries,
        dict_get "mcpServers" config_data = Some (JObj entries) ->
        http_load_servers_from_config E int_of_str config_data (servers, w)
        = (Returned tt, (servers ++ omap (http_accepts int_of_str) entries, w))
        /\ Forall (fun srv =>
                     lower (McpSeeHttpPy.hc_transport (McpSeeHttpPy.config srv))
                     ∈ get_supported_transports
                     /\ McpSeeHttpPy.is_initialized srv = false)
             (omap (http_accepts int_of_str) entries)).
Proof.
  split.
  - intros H. unfold http_load_servers_from_config. now rewrite H.
  - intros entries H. unfold http_load_servers_from_config. rewrite H.
    split; [apply http_load_entries_eq|].
    apply Forall_forall. intros srv Hin.
    apply list_elem_of_omap in Hin as ([nm v] & _ & Hacc).
    now destruct (http_accepts_spec nm v srv Hacc) as (_ & H1 & H2).
Qed.

Ltac validation_field :=
  match goal with
  | |- context [match dict_get ?k ?d with _ => _ end] =>
      destruct (dict_get k d) as [[| | |?|?|?]|]
  end;
  repeat match goal with
         | |- context [match Pydantic.all_str ?l with _ => _ end] =>
             destruct (Pydantic.all_str l)
         | |- context [match Pydantic.all_str_values ?l with _ => _ end] =>
             destruct (Pydantic.all_str_values l)
         end;
  intros H; first [discriminate H | injection H as <-; reflexivity].

Lemma default_str_class f d c e :
  Pydantic.default_str f d c = Raised e -> exc_class e = "ValidationError".
Proof. unfold Pydantic.default_str. validation_field. Qed.

Lemma optional_str_class f c e :
  Pydantic.optional_str f c = Raised e -> exc_class e = "ValidationError".
Proof. unfold Pydantic.optional_str. validation_field. Qed.

Lemma optional_str_list_class f c e :
  Pydantic.optional_str_list f c = Raised e -> exc_class e = "ValidationError".
Proof. unfold Pydantic.optional_str_list. validation_field. Qed.

Lemma optional_str_dict_class f c e :
  Pydantic.optional_str_dict f c = Raised e -> exc_class e = "ValidationError".
Proof. unfold Pydantic.optional_str_dict. validation_field. Qed.

Lemma ServerConfig_new_class cfg e :
  McpStudioPy.ServerConfig_new cfg = Raised e -> exc_class e = "ValidationError".
Proof.
  unfold McpStudioPy.ServerConfig_new, Pydantic.and_then.
  destruct (Pydantic.default_str _ _ _) eqn:H1;
    [|intros [= <-]; exact (default_str_class _ _ _ _ H1)].
  destruct (Pydantic.optional_str "command" cfg) eqn:H2;
    [|intros [= <-]; exact (optional_str_class _ _ _ H2)].
  destruct (Pydantic.optional_str_list _ _) eqn:H3;
    [|intros [= <-]; exact (optional_str_list_class _ _ _ H3)].
  destruct (Pydantic.optional_str_dict _ _) eqn:H4;
    [|intros [= <-]; exact (optional_str_dict_class _ _ _ H4)].
  destruct (Pydantic.optional_str "url" cfg) eqn:H5;
    [|intros [= <-]; exact (optional_str_class _ _ _ H5)].
  discriminate.
Qed.

Lemma stdio_load_entry_step (nm : string) cfg rest
    (servers : list McpStudioPy.MCPServer) (w : world E) :
  stdio_load_entries E ((nm, JObj cfg) :: rest) (servers, w)
  = stdio_load_entries E rest
      (servers ++ from_option (fun s => [s]) [] (stdio_accepts (nm, JObj cfg)), w).
Proof.
  simpl. unfold bind at 1. unfold try_except_only, stdio_accepts.
  unfold McpStudioPy.add_server, McpStudioPy.MCPServer_new, Pydantic.and_then.
  destruct (McpStudioPy.ServerConfig_new cfg) as [c|e] eqn:Hc; simpl.
  - destruct (String.eqb (McpStudioPy.sc_transport c) "stdio"); simpl;
      [reflexivity | now rewrite app_nil_r].
  - pose proof (ServerConfig_new_class cfg e Hc) as Hcls.
    rewrite Hcls. simpl. now rewrite app_nil_r.
Qed.

Lemma stdio_load_mappings pre rest (servers : list McpStudioPy.MCPServer)
    (w : world E) :
  Forall (fun entry => is_mapping entry.2 = true) pre ->
  stdio_load_entries E (pre ++ rest) (servers, w)
  = stdio_load_entries E rest (servers ++ omap stdio_accepts pre, w).
Proof.
  intros Hall. revert servers.
  induction Hall as [|[nm v] pre Hv Hall IH]; intros servers.
  - simpl. now rewrite app_nil_r.
  - destruct v as [| | | | |cfg]; try discriminate.
    change (((nm, JObj cfg) :: pre) ++ rest) with ((nm, JObj cfg) :: (pre ++ rest)).
    rewrite stdio_load_entry_step, IH. cbn [omap list_omap].
    destruct (stdio_accepts (nm, JObj cfg)); cbn [from_option];
      now rewrite <- app_assoc.
Qed.

(** X12. [MCPStudio.load_servers_from_config] appends, in order, the
    servers of the valid stdio entries when every entry is a mapping; an
    entry that is not a mapping raises a [TypeError] that is not caught,
    the servers of the entries before it staying loaded. *)
Theorem stdio_config_loading (server_config : dict) entries
    (servers : list McpStudioPy.MCPServer) (w : world E) :
  dict_get "mcpServers" server_config = Some (JObj entries) ->
  (Forall (fun entry => is_mapping entry.2 = true) entries ->
   stdio_load_servers_from_config E (Returned server_config) (servers, w)
   = (Returned tt, (servers ++ omap stdio_accepts entries, w)))
  /\ (forall pre nm v post,
        entries = pre ++ (nm, v) :: post ->
        Forall (fun entry => is_mapping entry.2 = true) pre ->
        is_mapping v = false ->
        exists e,
          stdio_load_servers_from_config E (Returned server_config) (servers, w)
          = (Raised e, (servers ++ omap stdio_accepts pre, w))
          /\ exc_class e = "TypeError").
Proof.
  intros Hcfg. unfold stdio_load_servers_from_config. rewrite Hcfg. split.
  - intros Hall. rewrite <- (app_nil_r entries) at 1.
    rewrite (stdio_load_mappings entries [] servers w Hall). reflexivity.
  - intros pre nm v post -> Hall Hv.
    rewrite (stdio_load_mappings pre _ servers w Hall).
    exists (not_a_mapping "ServerConfig" v). split; [|reflexivity].
    simpl. unfold bind at 1. unfold try_except_only.
    destruct v as [| | | | |cfg]; try reflexivity. discriminate.
Qed.

(** X13. No entry of a configuration is loaded by both studios: the
    subprocess studio or the network studio leaves its servers unchanged. *)
Theorem config_entry_goes_to_one_studio_at_most (nm : string) (v : json)
    (stdio_servers : list McpStudioPy.MCPServer)
    (http_servers : list McpSeeHttpPy.HttpMCPServer) (w w' : world E) :
  (stdio_load_entries E [(nm, v)] (stdio_servers, w)).2.1 = stdio_servers
  \/ (http_load_entries E int_of_str [(nm, v)] (http_servers, w')).2.1 = http_servers.
Proof.
  destruct v as [| | | | |cfg];
    try (left; simpl; unfold bind, try_except_only; reflexivity).
  rewrite stdio_load_entry_step, http_load_entry_step. simpl.
  unfold stdio_accepts, http_accepts, entry_transport.
  unfold McpStudioPy.ServerConfig_new, Pydantic.and_then, Pydantic.default_str.
  destruct (dict_get "transport" cfg) as [[| | |t| |]|] eqn:Ht; simpl;
    try (left; now rewrite app_nil_r); try (right; now rewrite app_nil_r).
  destruct (is_network_transport (lower t)) eqn:Hn;
    [|right; now rewrite app_nil_r].
  left.
  destruct (Pydantic.optional_str "command" cfg); simpl; [|now rewrite app_nil_r].
  destruct (Pydantic.optional_str_list "args" cfg); simpl; [|now rewrite app_nil_r].
  destruct (Pydantic.optional_str_dict "env" cfg); simpl; [|now rewrite app_nil_r].
  destruct (Pydantic.optional_str "url" cfg); simpl; [|now rewrite app_nil_r].
  destruct (String.eqb_spec t "stdio") as [->|Hne]; [|now rewrite app_nil_r].
  discriminate.
Qed.

(** X14. [MCPStudio.add_server], when it returns, appends one server that
    is not initialized and leaves the world alone; [get_server_by_name]
    then finds an earlier server of that name if there is one, and the new
    server otherwise. *)
Theorem added_server_is_found_unless_shadowed (nm : string) (cfg : dict)
    (servers servers' : list McpStudioPy.MCPServer) (w w' : world E) :
  McpStudioPy.add_server E nm cfg (servers, w) = (Returned tt, (servers', w')) ->
  w' = w
  /\ exists srv,
       McpStudioPy.MCPServer_new nm cfg = Returned srv
       /\ servers' = servers ++ [srv]
       /\ McpStudioPy.is_initialized srv = false
       /\ get_server_by_name nm servers'
          = Some (default srv (get_server_by_name nm servers)).
Proof.
  unfold McpStudioPy.add_server. simpl.
  destruct (McpStudioPy.MCPServer_new nm cfg) as [srv|e] eqn:Hnew; [|discriminate].
  intros [= <- <-]. split; [reflexivity|]. exists srv.
  assert (Hn : McpStudioPy.name srv = nm /\ McpStudioPy.is_initialized srv = false).
  { revert Hnew. unfold McpStudioPy.MCPServer_new, Pydantic.and_then.
    destruct (McpStudioPy.ServerConfig_new cfg); [|discriminate].
    intros [= <-]. split; reflexivity. }
  destruct Hn as [Hn Hi]. repeat split; auto.
  induction servers as [|s servers IH]; simpl.
  - rewrite Hn. now rewrite String.eqb_refl.
  - destruct (String.eqb (McpStudioPy.name s) nm); [reflexivity | exact IH].
Qed.

End Facts.
End StudioConfigFacts.


(** ** Bringing up a subprocess server *)

Module StdioFacts.
Import Runtime RuntimeFacts McpStudioPy StdioBringUp StdioReadings StudioFacts.

Section Facts.
Context {E : Type}.
Variable release : resource -> E -> option py_exc * E.
Variable spawn : StdioServerParameters -> E -> spawn_outcome * E.
Variable which_npx : option string.
Variable os_environ : gmap string string.

Abbreviation init := (initialize E release spawn which_npx os_environ).

(** The world once [initialize] has been entered. *)
Abbreviation entering srv w :=
  {| w_env := w_env w; w_trace := w_trace w ++ [EvInitialize (name srv)] |}.

Abbreviation spawning srv command w e' :=
  {| w_env := e';
     w_trace := (w_trace w ++ [EvInitialize (name srv)])
                ++ [EvSpawn (name srv) command
                      (sp_args (server_params os_environ srv command))] |}.

(** Either a guard of [initialize] refuses the server, or the command
    resolves and the subprocess is spawned. *)
Lemma initialize_cases (srv : MCPServer) (w : world E) :
  (exists msg, init (srv, w) = (Raised (ValueError msg), (srv, entering srv w))
               /\ forall command, ~ resolves_to which_npx srv command)
  \/ (exists command,
        resolves_to which_npx srv command
        /\ init (srv, w)
           = let '(out, e') := spawn (server_params os_environ srv command) (w_env w) in
             match out with
             | StdioClientFails e =>
                 (cleanup E release ;;; raise e) (srv, spawning srv command w e')
             | ClientSessionFails tr e =>
                 (cleanup E release ;;; raise e) (push tr srv, spawning srv command w e')
             | HandshakeFails tr ss e =>
                 (cleanup E release ;;; raise e)
                   (push ss (push tr srv), spawning srv command w e')
             | Connected tr ss =>
                 (Returned tt,
                  (set_session (Some ss) (push ss (push tr srv)),
                   spawning srv command w e'))
             end).
Proof.
  remember (init (srv, w)) as r eqn:Hr. revert Hr.
  unfold initialize. unfold bind at 1. unfold self at 1. cbn [fst].
  unfold bind at 1. unfold emit at 1. cbn [fst snd].
  destruct (String.eqb_spec (sc_transport (config srv)) "stdio") as [Ht|Ht]; simpl.
  2:{ intros ->. left. eexists. split; [reflexivity|]. intros c [Hc _]. contradiction. }
  destruct (sc_command (config srv)) as [[|a c]|] eqn:Hcmd.
  { intros ->. left. eexists. split; [reflexivity|].
    intros c (_ & x & Hx & Hne & _). congruence. }
  2:{ intros ->. left. eexists. split; [reflexivity|].
      intros c (_ & x & Hx & _). congruence. }
  set (cmd := String a c) in *.
  destruct (if String.eqb cmd "npx" then which_npx else Some cmd) as [command|]
    eqn:Hres.
  2:{ intros ->. left. eexists. split; [reflexivity|].
      intros c0 (_ & x & Hx & _ & Hr). rewrite Hcmd in Hx. injection Hx as <-.
      fold cmd in Hr. rewrite Hres in Hr. discriminate. }
  intros ->. right. exists command. split.
  { split; [exact Ht|]. exists cmd. split; [exact Hcmd|]. split; [|exact Hres].
    discriminate. }
  unfold try_except, bind, emit, env_call, set_self, self.
  cbn [fst snd w_env w_trace]. unfold server_params.
  destruct (spawn _ (w_env w)) as [[x|tr x|tr ss x|tr ss] e']; cbn; reflexivity.
Qed.

Lemma resolves_to_unique (srv : MCPServer) c1 c2 :
  resolves_to which_npx srv c1 -> resolves_to which_npx srv c2 -> c1 = c2.
Proof.
  intros (_ & x1 & H1 & _ & R1) (_ & x2 & H2 & _ & R2).
  rewrite H1 in H2. injection H2 as <-. rewrite R1 in R2. now injection R2.
Qed.

Lemma cleanup_then_raise_eq (s0 : MCPServer) (w0 : world E) e :
  (cleanup E release ;;; raise e) (s0, w0)
  = (@Raised unit e, (cleanup E release (s0, w0)).2).
Proof.
  unfold bind. pose proof (stdio_cleanup_returns release s0 w0) as Hr.
  destruct (cleanup E release (s0, w0)) as [[[]|x] st]; simpl in *;
    [reflexivity | discriminate].
Qed.

Lemma stdio_cleanup_session (s0 : MCPServer) (w0 : world E) :
  session s0 = None -> session (cleanup E release (s0, w0)).2.1 = None.
Proof.
  intros Hs. unfold cleanup, bind, self, emit, try_except, aclose, set_self.
  simpl. destruct (unwind E release (exit_stack s0) None _) as [[x|] w1];
    simpl; [exact Hs | reflexivity].
Qed.

Lemma failing_branch (s0 : MCPServer) (w0 : world E) e (r : PyResult unit) srv' w' :
  session s0 = None ->
  (cleanup E release ;;; raise e) (s0, w0) = (r, (srv', w')) ->
  r = Raised e /\ session srv' = None.
Proof.
  intros Hs. rewrite cleanup_then_raise_eq.
  pose proof (stdio_cleanup_session s0 w0 Hs) as Hn.
  destruct (cleanup E release (s0, w0)) as [r0 [s1 w1]]. simpl in *.
  intros [= <- <- _]. now split.
Qed.

(** X15. For a server without a session, [MCPServer.initialize] returns
    exactly when the server is initialized afterwards. *)
Theorem initialize_returns_iff_initialized (srv : MCPServer) (w : world E)
    r srv' w' :
  session srv = None ->
  init (srv, w) = (r, (srv', w')) ->
  (r = Returned tt <-> is_initialized srv' = true).
Proof.
  intros Hs. destruct (initialize_cases srv w) as [(msg & -> & _)|(command & _ & ->)].
  - intros [= <- <- _]. unfold is_initialized. rewrite Hs.
    split; intros; discriminate.
  - destruct (spawn _ (w_env w)) as [[x|tr x|tr ss x|tr ss] e'].
    + intros H. apply failing_branch in H as [-> Hn]; [|exact Hs].
      unfold is_initialized. rewrite Hn. split; intros; discriminate.
    + intros H. apply failing_branch in H as [-> Hn]; [|exact Hs].
      unfold is_initialized. rewrite Hn. split; intros; discriminate.
    + intros H. apply failing_branch in H as [-> Hn]; [|exact Hs].
      unfold is_initialized. rewrite Hn. split; intros; discriminate.
    + intros [= <- <- _]. split; reflexivity.
Qed.

Lemma initialize_returned_initialized (srv : MCPServer) (w : world E) srv' w' :
  init (srv, w) = (Returned tt, (srv', w')) -> is_initialized srv' = true.
Proof.
  destruct (initialize_cases srv w) as [(msg & -> & _)|(command & _ & ->)];
    [discriminate|].
  destruct (spawn _ (w_env w)) as [[x|tr x|tr ss x|tr ss] e'];
    try (rewrite cleanup_then_raise_eq; discriminate).
  intros [= <- _]. reflexivity.
Qed.

(** X16. When the bring-up of a subprocess fails, [initialize] raises the
    exception of the failing step, after a cleanup that releases the
    contexts entered so far, last first; the exit stack is empty
    afterwards. *)
Theorem failed_bring_up_releases_what_it_entered (srv : MCPServer) (w : world E)
    command out e' err :
  resolves_to which_npx srv command ->
  exit_stack srv = [] ->
  spawn (server_params os_environ srv command) (w_env w) = (out, e') ->
  failure_of out = Some err ->
  exists srv' w',
    init (srv, w) = (Raised err, (srv', w'))
    /\ exit_stack srv' = []
    /\ w_trace w'
       = w_trace w
         ++ [EvInitialize (name srv);
             EvSpawn (name srv) command (default [] (sc_args (config srv)));
             EvCleanup (name srv)]
         ++ map EvRelease (entered out).
Proof.
  intros Hres Hstack Hspawn Hfail.
  destruct (initialize_cases srv w) as [(msg & _ & Hno)|(c & Hc & ->)].
  { exfalso. exact (Hno command Hres). }
  rewrite (resolves_to_unique srv c command Hc Hres), Hspawn.
  assert (Hgen : forall s0,
             name s0 = name srv ->
             exit_stack s0 = entered out ->
             exists srv' w',
               (cleanup E release ;;; raise err) (s0, spawning srv command w e')
               = (@Raised unit err, (srv', w'))
               /\ exit_stack srv' = []
               /\ w_trace w'
                  = w_trace w
                    ++ [EvInitialize (name srv);
                        EvSpawn (name srv) command (default [] (sc_args (config srv)));
                        EvCleanup (name srv)]
                    ++ map EvRelease (entered out)).
  { intros s0 Hn Hst. rewrite cleanup_then_raise_eq.
    destruct (stdio_cleanup_spec release s0 (spawning srv command w e'))
      as [[_ Hempty] Htr].
    destruct (cleanup E release (s0, spawning srv command w e')) as [r0 [s1 w1]].
    simpl in *. exists s1, w1. split; [reflexivity|]. split; [exact Hempty|].
    rewrite Htr. unfold stdio_visit. rewrite Hn, Hst.
    rewrite <- !app_assoc. reflexivity. }
  destruct out as [x|tr x|tr ss x|tr ss]; simpl in Hfail; try discriminate;
    injection Hfail as ->; apply Hgen; simpl; try reflexivity;
    now rewrite Hstack.
Qed.

End Facts.

(** X17. [initialize] reaches the process environment only through the one
    spawn with its server parameters; their environment is absent when
    the descriptor has none, and otherwise the process environment
    overridden by the variables of the descriptor. *)
Theorem spawn_sees_merged_environment {E : Type} release which_npx
    (os_environ : gmap string string) (srv : MCPServer) (w : world E) command :
  resolves_to which_npx srv command ->
  (forall spawn spawn',
     (forall e, spawn' (server_params os_environ srv command) e
                = spawn (server_params os_environ srv command) e) ->
     initialize E release spawn' which_npx os_environ (srv, w)
     = initialize E release spawn which_npx os_environ (srv, w))
  /\ match sc_env (config srv) with
     | None | Some [] => sp_env (server_params os_environ srv command) = None
     | Some env =>
         exists merged,
           sp_env (server_params os_environ srv command) = Some merged
           /\ forall k,
                merged !! k
                = match (list_to_map env : gmap string string) !! k with
                  | Some v => Some v
                  | None => os_environ !! k
                  end
     end.
Proof.
  intros Hres. split.
  - intros spawn spawn' Hsame.
    destruct (initialize_cases release spawn which_npx os_environ srv w)
      as [(msg & _ & Hno)|(c & Hc & ->)]; [exfalso; exact (Hno command Hres)|].
    destruct (initialize_cases release spawn' which_npx os_environ srv w)
      as [(msg & _ & Hno)|(c' & Hc' & ->)]; [exfalso; exact (Hno command Hres)|].
    rewrite (resolves_to_unique which_npx srv c command Hc Hres).
    rewrite (resolves_to_unique which_npx srv c' command Hc' Hres).
    now rewrite Hsame.
  - unfold server_params. simpl.
    destruct (sc_env (config srv)) as [[|p env]|]; try reflexivity.
    eexists. split; [reflexivity|]. intros k. rewrite lookup_union.
    destruct (list_to_map (p :: env) !! k), (os_environ !! k); reflexivity.
Qed.

End StdioFacts.


(** ** Fleets and releases *)

Module FleetFacts.
Import Runtime RuntimeFacts StudioFacts.


Section Facts.
Context {E : Type}.
Variable release : resource -> E -> option py_exc * E.

Lemma unwind_reliable (stack : list resource) pending (w : world E) :
  (forall r e, (release r e).1 = None) ->
  (unwind E release stack pending w).1 = pending.
Proof.
  intros Hrel. revert pending w.
  induction stack as [|r stack IH]; intros pending w; simpl; [reflexivity|].
  pose proof (Hrel r (w_env w)) as Hr.
  destruct (release r (w_env w)) as [o e']. simpl in Hr. subst o. apply IH.
Qed.

Lemma unwind_keeps_pending (stack : list resource) x (w : world E) :
  (unwind E release stack (Some x) w).1 <> None.
Proof.
  revert x w. induction stack as [|r stack IH]; intros x w; simpl; [discriminate|].
  destruct (release r (w_env w)) as [[y|] e']; apply IH.
Qed.

Lemma unwind_failing (stack : list resource) r pending (w : world E) :
  r ∈ stack ->
  (forall e, (release r e).1 <> None) ->
  (unwind E release stack pending w).1 <> None.
Proof.
  intros Hin Hfail. revert pending w.
  induction stack as [|r0 stack IH]; intros pending w.
  - now apply elem_of_nil in Hin.
  - simpl. apply elem_of_cons in Hin as [<-|Hin].
    + pose proof (Hfail (w_env w)) as Hr.
      destruct (release r (w_env w)) as [[y|] e']; simpl in Hr;
        [apply unwind_keeps_pending | congruence].
    + destruct (release r0 (w_env w)) as [o e']. now apply IH.
Qed.

Lemma each_in_turn_Forall {O} (m : method E O unit) (Q : O -> Prop) :
  (forall o w, Q (m (o, w)).2.1) ->
  forall os w, Forall Q (each_in_turn E m os w).2.1.
Proof.
  intros Hm. induction os as [|o os IH]; intros w; simpl; [constructor|].
  pose proof (Hm o w) as Ho. destruct (m (o, w)) as [r [o' w1]].
  specialize (IH w1). destruct (each_in_turn E m os w1) as [rs [os' w2]].
  simpl in *. now constructor.
Qed.

Lemma each_in_turn_returned {O} (m : method E O unit) (Q : O -> Prop) :
  (forall o w o' w', m (o, w) = (Returned tt, (o', w')) -> Q o') ->
  forall os w rs os' w',
    each_in_turn E m os w = (rs, (os', w')) ->
    Forall (fun r => r = Returned tt) rs ->
    Forall Q os'.
Proof.
  intros Hm. induction os as [|o os IH]; intros w rs os' w'; simpl.
  - intros [= <- <- <-] _. constructor.
  - destruct (m (o, w)) as [r [o1 w1]] eqn:Ho.
    destruct (each_in_turn E m os w1) as [rs0 [os0 w2]] eqn:Hrest.
    intros [= <- <- <-] Hok. apply Forall_cons in Hok as [-> Hok].
    constructor; [exact (Hm _ _ _ _ Ho) | exact (IH _ _ _ _ Hrest Hok)].
Qed.

(** A forward loop whose handler raises again returns exactly when every
    visit returned. *)
Lemma for_each_forward_returns {O} (m : method E O unit)
    (h : py_exc -> studio E O unit) (pre os : list O) w st :
  (forall e s, exists x s', (h e ;;; raise e) s = (@Raised unit x, s')) ->
  for_each (seq (length pre) (length os))
    (fun i => try_except (on_server E i m) (fun e => h e ;;; raise e))
    (pre ++ os, w)
  = (Returned tt, st)
  <-> Forall (fun r => r = Returned tt) (each_in_turn E m os w).1
      /\ st = (pre ++ (each_in_turn E m os w).2.1, (each_in_turn E m os w).2.2).
Proof.
  intros Hh. revert pre w. induction os as [|o os IH]; intros pre w.
  - simpl. unfold ret. split.
    + intros [= <-]. split; [constructor | reflexivity].
    + intros [_ ->]. reflexivity.
  - cbn [length seq for_each each_in_turn]. unfold bind at 1.
    unfold try_except at 1. rewrite on_server_middle.
    destruct (m (o, w)) as [[[]|e] [o' w1]] eqn:Ho.
    + replace (pre ++ o' :: os) with ((pre ++ [o']) ++ os)
        by now rewrite <- app_assoc.
      replace (S (length pre)) with (length (pre ++ [o']))
        by (rewrite length_app; simpl; lia).
      rewrite IH. destruct (each_in_turn E m os w1) as [rs [os' w2]]. simpl.
      rewrite <- app_assoc. simpl. split.
      * intros [Hok ->]. split; [now constructor | reflexivity].
      * intros [Hok ->]. apply Forall_cons in Hok as [_ Hok]. now split.
    + destruct (Hh e (pre ++ o' :: os, w1)) as (x & s' & Hx). rewrite Hx.
      destruct (each_in_turn E m os w1) as [rs [os' w2]]. simpl. split.
      * discriminate.
      * intros [Hok _]. apply Forall_cons in Hok as [Hbad _]. discriminate.
Qed.

Section Stdio.
Import McpStudioPy.
Variable spawn : StdioServerParameters -> E -> spawn_outcome * E.
Variable which_npx : option string.
Variable os_environ : gmap string string.

Lemma stdio_cleanup_reliable (srv : MCPServer) (w : world E) :
  (forall r e, (release r e).1 = None) ->
  session (cleanup E release (srv, w)).2.1 = None.
Proof.
  intros Hrel. unfold cleanup, bind, self, emit, try_except, aclose, set_self.
  simpl. pose proof (unwind_reliable (exit_stack srv) None
                       {| w_env := w_env w;
                          w_trace := w_trace w ++ [EvCleanup (name srv)] |} Hrel) as Hu.
  destruct (unwind E release (exit_stack srv) None _) as [[x|] w1];
    simpl in *; [discriminate | reflexivity].
Qed.

Lemma stdio_cleanup_failing (srv : MCPServer) (w : world E) r :
  r ∈ exit_stack srv ->
  (forall e, (release r e).1 <> None) ->
  session (cleanup E release (srv, w)).2.1 = session srv.
Proof.
  intros Hin Hfail. unfold cleanup, bind, self, emit, try_except, aclose, set_self.
  simpl. pose proof (unwind_failing (exit_stack srv) r None
                       {| w_env := w_env w;
                          w_trace := w_trace w ++ [EvCleanup (name srv)] |} Hin Hfail) as Hu.
  destruct (unwind E release (exit_stack srv) None _) as [[x|] w1];
    simpl in *; [reflexivity | congruence].
Qed.

Lemma filter_all {A} (P : A -> Prop) `{forall x, Decision (P x)} (l : list A) :
  Forall P l -> filter P l = l.
Proof.
  induction 1 as [|x l Hx _ IH]; [reflexivity|].
  rewrite filter_cons_True by exact Hx. now rewrite IH.
Qed.

Lemma filter_none {A} (P : A -> Prop) `{forall x, Decision (P x)} (l : list A) :
  Forall (fun x => ~ P x) l -> filter P l = [].
Proof.
  induction 1 as [|x l Hx _ IH]; [reflexivity|].
  now rewrite filter_cons_False by exact Hx.
Qed.


Abbreviation init := (initialize E release spawn which_npx os_environ).
Abbreviation init_all :=
  (initialize_all_servers E release spawn which_npx os_environ).

(** X18. [MCPStudio.initialize_all_servers] returns exactly when every
    [initialize] returned, the servers and the world being those the
    visits in turn leave; every server is initialized then. *)
Theorem stdio_initialize_all_returns_iff (servers : list MCPServer) (w : world E) st :
  (init_all (servers, w) = (Returned tt, st)
   <-> Forall (fun r => r = Returned tt) (each_in_turn E init servers w).1
       /\ st = (each_in_turn E init servers w).2)
  /\ (init_all (servers, w) = (Returned tt, st) ->
      get_initialized_servers st.1 = st.1).
Proof.
  assert (Hiff : init_all (servers, w) = (Returned tt, st)
                 <-> Forall (fun r => r = Returned tt) (each_in_turn E init servers w).1
                     /\ st = (each_in_turn E init servers w).2).
  { unfold initialize_all_servers. cbn [fst].
    pose proof (for_each_forward_returns init
                  (fun _ => cleanup_all_servers E release) [] servers w st) as H.
    cbn [app length] in H. rewrite H.
    - destruct (each_in_turn E init servers w) as [rs [os' w']]. reflexivity.
    - intros e s. destruct (stdio_cleanup_all_total release s) as [s' Hs'].
      exists e, s'. unfold bind. now rewrite Hs'. }
  split; [exact Hiff|]. intros Hret. apply Hiff in Hret as [Hok ->].
  destruct (each_in_turn E init servers w) as [rs [os' w']] eqn:Heach.
  simpl in *. unfold get_initialized_servers. apply filter_all.
  eapply (each_in_turn_returned init (fun o => is_initialized o = true));
    [|exact Heach|exact Hok].
  intros o w0 o' w0' Ho.
  exact (StdioFacts.initialize_returned_initialized release spawn which_npx
           os_environ o w0 o' w0' Ho).
Qed.

(** X19. When no release raises, no server of the subprocess studio is
    initialized after [cleanup_all_servers]. *)
Theorem stdio_cleanup_all_leaves_none_initialized (servers : list MCPServer)
    (w : world E) :
  (forall r e, (release r e).1 = None) ->
  get_initialized_servers (cleanup_all_servers E release (servers, w)).2.1 = [].
Proof.
  intros Hrel. rewrite stdio_cleanup_all_eq. cbn [fst snd].
  unfold get_initialized_servers. apply filter_none.
  apply Forall_rev.
  apply (each_in_turn_Forall (cleanup E release)
           (fun o => ~ is_initialized o = true)).
  intros o w0. unfold is_initialized.
  now rewrite (stdio_cleanup_reliable o w0 Hrel).
Qed.

(** X20. When the release of a context on the exit stack raises,
    [MCPServer.cleanup] still returns, the exit stack is emptied, but
    the session is kept: a server that was initialized still reports so. *)
Theorem stdio_failed_release_keeps_session (srv : MCPServer) (w : world E) r :
  r ∈ exit_stack srv ->
  (forall e, (release r e).1 <> None) ->
  exists srv' w',
    cleanup E release (srv, w) = (Returned tt, (srv', w'))
    /\ is_initialized srv' = is_initialized srv
    /\ exit_stack srv' = [].
Proof.
  intros Hin Hfail.
  pose proof (stdio_cleanup_returns release srv w) as Hr.
  pose proof (stdio_cleanup_failing srv w r Hin Hfail) as Hs.
  destruct (stdio_cleanup_spec release srv w) as [[_ Hempty] _].
  destruct (cleanup E release (srv, w)) as [res [srv' w']]. simpl in *.
  exists srv', w'. subst res. split; [reflexivity|].
  unfold is_initialized. rewrite Hs. now split.
Qed.

End Stdio.

Section Http.
Import McpSeeHttpPy.

Lemma http_cleanup_reliable (srv : HttpMCPServer) (w : world E) :
  (forall r e, (release r e).1 = None) ->
  is_connected (cleanup E release (srv, w)).2.1 = false.
Proof.
  intros Hrel. unfold cleanup, bind, self, emit, try_except, aclose, set_self.
  simpl. destruct (session srv); simpl; [|reflexivity].
  pose proof (unwind_reliable (exit_stack srv) None
                {| w_env := w_env w;
                   w_trace := w_trace w ++ [EvCleanup (name srv)] |} Hrel) as Hu.
  destruct (unwind E release (exit_stack srv) None _) as [[x|] w1];
    simpl in *; [discriminate | reflexivity].
Qed.

(** X21. When no release raises, no server of the network studio is
    initialized after [cleanup_all_servers]. *)
Theorem http_cleanup_all_leaves_none_initialized (servers : list HttpMCPServer)
    (w : world E) :
  (forall r e, (release r e).1 = None) ->
  get_initialized_servers (cleanup_all_servers E release (servers, w)).2.1 = [].
Proof.
  intros Hrel. rewrite http_cleanup_all_eq. cbn [fst snd].
  unfold get_initialized_servers. apply filter_none.
  apply Forall_rev.
  apply (each_in_turn_Forall (cleanup E release)
           (fun o => ~ is_initialized o = true)).
  intros o w0. unfold is_initialized.
  now rewrite (http_cleanup_reliable o w0 Hrel).
Qed.

(** X22. When the release of a context raises, [HttpMCPServer.cleanup]
    returns with the exit stack emptied and everything else as it was:
    the session, the connected flag and the session token are kept. *)
Theorem http_failed_release_keeps_server_connected (srv : HttpMCPServer)
    (w : world E) s r :
  session srv = Some s ->
  r ∈ exit_stack srv ->
  (forall e, (release r e).1 <> None) ->
  exists w',
    cleanup E release (srv, w) = (Returned tt, (set_exit_stack [] srv, w'))
    /\ is_initialized (set_exit_stack [] srv) = is_initialized srv.
Proof.
  intros Hs Hin Hfail. unfold cleanup, bind, self, emit, try_except, aclose, set_self.
  simpl. rewrite Hs. simpl.
  pose proof (unwind_failing (exit_stack srv) r None
                {| w_env := w_env w;
                   w_trace := w_trace w ++ [EvCleanup (name srv)] |} Hin Hfail) as Hu.
  destruct (unwind E release (exit_stack srv) None _) as [[x|] w1];
    simpl in *; [|congruence].
  exists w1. split; reflexivity.
Qed.

End Http.
End Facts.
End FleetFacts.


(** ** More on the network client *)

Module HttpMore.
Import Runtime McpSeeHttpPy StudioFacts HttpFacts.

Section Facts.
Context {E : Type}.
Variable release : resource -> E -> option py_exc * E.
Variable open_session : string -> HttpServerConfig -> E -> PyResult resource * E.
Variable new_client : string -> HttpServerConfig -> E -> PyResult resource * E.
Variable get_tools : resource -> E -> PyResult (list (adapter_tool E)) * E.
Variable serve : request -> E -> reply * E.
Variable urljoin : string -> string -> string.
Variable clock : E -> string.

Abbreviation sent srv rqs := (map (EvRequest (name srv)) rqs).
Abbreviation exchanged := (McpSeeHttpPy.exchanged E serve).

(** A call cascade that raises has tried every endpoint and the JSON-RPC
    request, and raises the wrapped error of the last step. *)
Lemma call_cascade_raises tool_name arguments eps (srv : HttpMCPServer)
    (w : world E) e srv' w' :
  call_cascade E serve urljoin clock tool_name arguments eps (srv, w)
  = (Raised e, (srv', w')) ->
  (exists cause, e = all_failed cause)
  /\ exists rqs,
       w_trace w' = w_trace w ++ sent srv rqs
       /\ map rq_url rqs = map (urljoin (base_url srv)) eps ++ [base_url srv]
       /\ Forall (fun rq => rq_method rq = POST) rqs.
Proof.
  revert w. induction eps as [|ep eps IH]; intros w.
  - simpl. unfold bind at 1. unfold self at 1. simpl.
    unfold bind at 1. rewrite send_eq.
    match goal with |- context [serve ?r (w_env w)] => set (rq := r) end.
    assert (Hone : forall cause,
               (@Raised json (all_failed cause), (srv, exchanged srv rq w))
               = (Raised e, (srv', w')) ->
               (exists cause, e = all_failed cause)
               /\ exists rqs,
                    w_trace w' = w_trace w ++ sent srv rqs
                    /\ map rq_url rqs = [base_url srv]
                    /\ Forall (fun rq => rq_method rq = POST) rqs).
    { intros cause [= <- _ <-]. split; [now exists cause|]. exists [rq].
      split; [reflexivity|]. split; [reflexivity | now repeat constructor]. }
    destruct (serve rq (w_env w)).1 as [x|st hd [result|y] [text|z]]; simpl;
      try destruct (st =? 200)%Z; try destruct (parse_rpc_call result);
      try apply Hone; discriminate.
  - simpl. unfold bind at 1. unfold self at 1. simpl.
    unfold bind at 1. unfold env_call at 1. simpl.
    unfold bind at 1. rewrite send_eq.
    match goal with |- context [serve ?r ?e] => set (rq := r) end.
    match goal with |- context [exchanged srv rq ?v] => set (w0 := v) end.
    assert (Hnext :
      call_cascade E serve urljoin clock tool_name arguments eps
        (srv, exchanged srv rq w0) = (Raised e, (srv', w')) ->
      (exists cause, e = all_failed cause)
      /\ exists rqs,
           w_trace w' = w_trace w ++ sent srv rqs
           /\ map rq_url rqs
              = urljoin (base_url srv) ep
                :: map (urljoin (base_url srv)) eps ++ [base_url srv]
           /\ Forall (fun rq => rq_method rq = POST) rqs).
    { intros H. destruct (IH _ H) as (Hc & rqs & Htr & Hu & Hm).
      split; [exact Hc|]. exists (rq :: rqs). split; [|split].
      - rewrite Htr. unfold McpSeeHttpPy.exchanged. simpl. now rewrite <- app_assoc.
      - cbn [map]. now rewrite Hu.
      - constructor; [reflexivity | exact Hm]. }
    destruct (serve rq (w_env w0)).1 as [x|st hd [result|y] t]; simpl.
    + exact Hnext.
    + destruct (st =? 200)%Z; [discriminate|].
      destruct (st =? 404)%Z; exact Hnext.
    + destruct (st =? 200)%Z; [exact Hnext|].
      destruct (st =? 404)%Z; exact Hnext.
Qed.

Lemma call_tool_plain_http (srv : HttpMCPServer) (w : world E) tool_name arguments :
  is_connected srv = true ->
  _langchain_client srv = None ->
  call_tool E get_tools serve urljoin clock tool_name arguments (srv, w)
  = _call_tool_aiohttp E serve urljoin clock tool_name arguments (srv, w).
Proof.
  intros Hc Hl. unfold call_tool. unfold bind at 1. unfold self. cbn [fst].
  now rewrite Hc, Hl.
Qed.

(** X23. On a connected plain-http server, [call_tool] raises only a
    [ClientError] whose message starts with All tool call methods
    failed, and only after four POST requests: the three tool paths, then
    the base URL, each with the session headers; the server is unchanged. *)
Theorem call_failure_comes_after_all_four_requests (srv : HttpMCPServer)
    (w : world E) s tool_name arguments e srv' w' :
  is_connected srv = true ->
  _langchain_client srv = None ->
  session srv = Some s ->
  call_tool E get_tools serve urljoin clock tool_name arguments (srv, w)
  = (Raised e, (srv', w')) ->
  srv' = srv
  /\ exc_class e = "ClientError"
  /\ (exists cause, exc_msg e = "All tool call methods failed: " +:+ cause)
  /\ exists rqs,
       w_trace w' = w_trace w ++ sent srv rqs
       /\ map rq_url rqs
          = [urljoin (base_url srv) ("/tools/" +:+ tool_name);
             urljoin (base_url srv) ("/api/tools/" +:+ tool_name);
             urljoin (base_url srv) ("/mcp/tools/" +:+ tool_name);
             base_url srv]
       /\ Forall (fun rq => rq_method rq = POST
                            /\ rq_headers rq = session_headers srv) rqs.
Proof.
  intros Hc Hl Hs H. rewrite (call_tool_plain_http _ _ _ _ Hc Hl) in H.
  rewrite (call_tool_with_session serve urljoin clock srv w s _ _ Hs) in H.
  destruct (call_cascade_headers serve urljoin clock _ _ _ _ _ _ _ _ H)
    as (Hsame & rqs1 & Htr1 & Hh).
  destruct (call_cascade_raises _ _ _ _ _ _ _ _ H)
    as ((cause & ->) & rqs & Htr & Hu & Hm).
  split; [exact Hsame|]. split; [reflexivity|].
  split; [now exists (exc_msg cause)|]. exists rqs.
  split; [exact Htr|]. split; [exact Hu|].
  rewrite Htr in Htr1. apply app_inv_head in Htr1.
  assert (rqs = rqs1) as <-.
  { clear -Htr1. revert rqs1 Htr1. induction rqs as [|a l IH]; intros [|b l'] H;
      try discriminate; [reflexivity|].
    injection H as -> H. f_equal. now apply IH. }
  clear -Hh Hm. induction Hm as [|rq l Hrq _ IH]; [constructor|].
  apply Forall_cons in Hh as [Hh1 Hh2]. constructor; [now split | now apply IH].
Qed.

(** [list_tools] on an initialized connection of either kind returns. *)
Lemma list_tools_total (srv : HttpMCPServer) (w : world E) :
  is_initialized srv = true ->
  exists v w', list_tools E get_tools serve urljoin (srv, w) = (Returned v, (srv, w')).
Proof.
  intros Hi. destruct (_langchain_client srv) as [c|] eqn:Hl.
  - unfold is_initialized in Hi. apply andb_true_iff in Hi as [Hc _].
    unfold list_tools. unfold bind at 1. unfold self. cbn [fst].
    rewrite Hc, Hl. cbn [negb]. unfold _list_tools_langchain, bind, env_call.
    cbn [fst snd]. destruct (get_tools c (w_env w)) as [[tools|x] e']; eauto.
  - destruct (list_tools_plain_http get_tools serve urljoin srv w Hi Hl) as [Hs ->].
    destruct (session srv) as [s|] eqn:Hs'; [|congruence].
    rewrite (list_tools_with_session serve urljoin srv w s Hs').
    destruct (listing_total serve urljoin tool_endpoints srv w)
      as (v & w' & k & Hl' & _).
    unfold try_except. rewrite Hl'. eauto.
Qed.


(** X25. After a [cleanup] in which no release raised, [call_tool] and
    [list_tools] raise the not-initialized [RuntimeError] and leave the
    world untouched: no request is sent. *)
Theorem calls_after_cleanup_are_refused (srv : HttpMCPServer) (w : world E)
    srv' w' v tool_name arguments :
  (forall r e, (release r e).1 = None) ->
  cleanup E release (srv, w) = (Returned tt, (srv', w')) ->
  let refused := RuntimeError ("Server " +:+ name srv +:+ " not initialized") in
  call_tool E get_tools serve urljoin clock tool_name arguments (srv', v)
  = (Raised refused, (srv', v))
  /\ list_tools E get_tools serve urljoin (srv', v) = (Raised refused, (srv', v)).
Proof.
  intros Hrel Hc refused.
  pose proof (FleetFacts.http_cleanup_reliable release srv w Hrel) as Hoff.
  destruct (http_cleanup_spec release srv w) as [(Hn & _) _].
  rewrite Hc in Hoff, Hn. simpl in Hoff, Hn. subst refused. rewrite <- Hn.
  unfold call_tool, list_tools. unfold bind, self. cbn [fst].
  rewrite Hoff. split; reflexivity.
Qed.

Abbreviation init_http :=
  (initialize E release open_session new_client serve urljoin).

Abbreviation uses_adapter srv :=
  (String.eqb (lower (hc_transport (config srv))) "sse"
   || String.eqb (lower (hc_transport (config srv))) "streamable_http").

(** X26. On the plain transport [initialize] returns whenever the session
    opens, whatever the connectivity probe meets: the session is pushed
    on the exit stack and the server is connected. On the adapter
    transports it opens no session and sends no request. *)
Theorem initialize_by_transport (srv : HttpMCPServer) (w : world E) :
  (uses_adapter srv = false ->
   forall s e',
     open_session (name srv) (config srv) (w_env w) = (Returned s, e') ->
     exists srv' w',
       init_http (srv, w) = (Returned tt, (srv', w'))
       /\ session srv' = Some s
       /\ is_connected srv' = true
       /\ exit_stack srv' = s :: exit_stack srv
       /\ _langchain_client srv' = _langchain_client srv)
  /\ (uses_adapter srv = true ->
      forall c e',
        new_client (name srv) (config srv) (w_env w) = (Returned c, e') ->
        init_http (srv, w)
        = (Returned tt,
           (set_is_connected true (set_langchain_client (Some c) srv),
            {| w_env := e';
               w_trace := w_trace w ++ [EvInitialize (name srv);
                                        EvLangchainClient (name srv)] |}))).
Proof.
  split; intros Ht.
  - intros s e' Hopen.
    unfold initialize. unfold bind at 1. unfold self at 1. cbn [fst snd].
    unfold bind at 1. unfold emit at 1. cbn [fst snd]. unfold try_except.
    rewrite Ht.
    unfold _initialize_aiohttp. unfold bind at 1. unfold self at 1. cbn [fst snd].
    unfold bind at 1. unfold emit at 1. cbn [fst snd w_env w_trace].
    unfold bind at 1. unfold env_call at 1. cbn [fst snd w_env w_trace].
    rewrite Hopen. unfold bind, set_self. cbn [fst snd].
    match goal with
    | |- context [_test_connection E serve urljoin (?s0, ?v)] =>
        destruct (test_connection_keeps_server serve urljoin s0 v) as [Hr Hk];
        destruct (_test_connection E serve urljoin (s0, v)) as [[[]|y] [s1 w1]]
    end; simpl in *; [|discriminate].
    eexists _, _. split; [reflexivity|]. simpl.
    split; [now apply (f_equal session) in Hk|].
    split; [reflexivity|].
    split; [now apply (f_equal exit_stack) in Hk|].
    now apply (f_equal _langchain_client) in Hk.
  - intros c e' Hnew.
    unfold initialize. unfold bind at 1. unfold self at 1. cbn [fst snd].
    unfold bind at 1. unfold emit at 1. cbn [fst snd]. unfold try_except.
    rewrite Ht.
    unfold _initialize_langchain. unfold bind at 1. unfold self at 1. cbn [fst snd].
    unfold bind at 1. unfold emit at 1. cbn [fst snd w_env w_trace].
    unfold bind at 1. unfold env_call at 1. cbn [fst snd w_env w_trace].
    rewrite Hnew. unfold bind, set_self. cbn [fst snd].
    now rewrite <- app_assoc.
Qed.

(** X27. A server that holds an adapter client never uses the HTTP
    session: neither a listing nor a call sends a request or changes the
    server. *)
Theorem adapter_connection_sends_no_request (srv : HttpMCPServer) (w : world E)
    c tool_name arguments :
  _langchain_client srv = Some c ->
  (forall r srv' w',
     list_tools E get_tools serve urljoin (srv, w) = (r, (srv', w')) ->
     srv' = srv /\ w_trace w' = w_trace w)
  /\ (forall r srv' w',
        call_tool E get_tools serve urljoin clock tool_name arguments (srv, w)
        = (r, (srv', w')) ->
        srv' = srv /\ w_trace w' = w_trace w).
Proof.
  intros Hl. split; intros r srv' w'.
  - unfold list_tools. unfold bind at 1. unfold self. cbn [fst].
    destruct (is_connected srv); cbn [negb].
    + rewrite Hl. unfold _list_tools_langchain, bind, env_call. cbn [fst snd].
      destruct (get_tools c (w_env w)) as [[tools|x] e'];
        intros [= _ <- <-]; now split.
    + intros [= _ <- <-]. now split.
  - unfold call_tool. unfold bind at 1. unfold self. cbn [fst].
    destruct (is_connected srv); cbn [negb].
    + rewrite Hl. unfold _call_tool_langchain, bind, self, env_call. cbn [fst snd].
      destruct (get_tools c (w_env w)) as [[tools|x] e']; cbn [fst snd w_env w_trace].
      * destruct (List.find _ tools) as [t|]; cbn [fst snd w_env w_trace].
        -- destruct (at_ainvoke t arguments e') as [[v|x] e2];
             intros [= _ <- <-]; now split.
        -- intros [= _ <- <-]. now split.
      * intros [= _ <- <-]. now split.
    + intros [= _ <- <-]. now split.
Qed.

End Facts.
End HttpMore.


(** ** The base URL *)

Module UrlFacts.
Import Py Runtime Pydantic McpSeeHttpPy.

Lemma append_cons (a : ascii) (s t : string) :
  String a s +:+ t = String a (s +:+ t).
Proof. reflexivity. Qed.

Lemma append_nil_l (t : string) : "" +:+ t = t.
Proof. reflexivity. Qed.

Lemma append_nil_r (s : string) : s +:+ "" = s.
Proof.
  induction s as [|a s IH]; [reflexivity|]. now rewrite append_cons, IH.
Qed.

Lemma append_assoc (s t u : string) : (s +:+ t) +:+ u = s +:+ (t +:+ u).
Proof.
  induction s as [|a s IH]; [reflexivity|]. now rewrite !append_cons, IH.
Qed.

Lemma rev_app_eq (s acc : string) : String.rev_app s acc = String.rev s +:+ acc.
Proof.
  unfold String.rev. revert acc. induction s as [|a s IH]; intros acc.
  - reflexivity.
  - cbn [String.rev_app]. rewrite (IH (String a "")), IH, append_assoc.
    reflexivity.
Qed.

Lemma rev_cons (a : ascii) (s : string) :
  String.rev (String a s) = String.rev s +:+ String a "".
Proof. unfold String.rev at 1. cbn [String.rev_app]. apply rev_app_eq. Qed.

Lemma rev_append (s t : string) :
  String.rev (s +:+ t) = String.rev t +:+ String.rev s.
Proof.
  induction s as [|a s IH].
  - now rewrite append_nil_l, append_nil_r.
  - now rewrite append_cons, !rev_cons, IH, append_assoc.
Qed.

Lemma rev_rev (s : string) : String.rev (String.rev s) = s.
Proof.
  induction s as [|a s IH]; [reflexivity|].
  now rewrite rev_cons, rev_append, IH.
Qed.

(** A string splits into its leading slashes and the rest. *)
Lemma lstrip_slash_split (u : string) :
  exists sl, u = sl +:+ lstrip_slash u /\ lstrip_slash sl = "".
Proof.
  induction u as [|a u (sl & Hu & Hsl)]; [now exists ""|].
  cbn [lstrip_slash]. destruct (Ascii.eqb a "/") eqn:Ha.
  - apply Ascii.eqb_eq in Ha as ->. exists (String "/" sl).
    rewrite append_cons. split; [now rewrite <- Hu | exact Hsl].
  - now exists "".
Qed.

Lemma lstrip_slash_head (u : string) a r :
  lstrip_slash u = String a r -> a <> "/"%char.
Proof.
  induction u as [|b u IH]; cbn [lstrip_slash]; [discriminate|].
  destruct (Ascii.eqb b "/") eqn:Hb; [exact IH|].
  intros [= -> _]. now apply Ascii.eqb_neq.
Qed.

Lemma lstrip_slash_append (s t : string) :
  lstrip_slash s = "" -> lstrip_slash (s +:+ t) = lstrip_slash t.
Proof.
  induction s as [|a s IH]; [reflexivity|].
  rewrite append_cons. cbn [lstrip_slash].
  destruct (Ascii.eqb a "/"); [exact IH | discriminate].
Qed.

Lemma slashes_rev (s : string) :
  lstrip_slash s = "" -> lstrip_slash (String.rev s) = "".
Proof.
  induction s as [|a s IH]; [reflexivity|]. cbn [lstrip_slash].
  destruct (Ascii.eqb a "/") eqn:Ha; [|discriminate].
  intros Hs. rewrite rev_cons, lstrip_slash_append by now apply IH.
  cbn [lstrip_slash]. now rewrite Ha.
Qed.

Lemma rstrip_slash_spec (url : string) :
  (exists tail, url = rstrip_slash url +:+ tail /\ lstrip_slash tail = "")
  /\ forall t, rstrip_slash url <> t +:+ "/".
Proof.
  unfold rstrip_slash. split.
  - destruct (lstrip_slash_split (String.rev url)) as (sl & Hu & Hsl).
    exists (String.rev sl). split; [|now apply slashes_rev].
    rewrite <- rev_append, <- Hu. now rewrite rev_rev.
  - intros t H. apply (f_equal String.rev) in H.
    rewrite rev_rev, rev_append in H. change (String.rev "/") with "/" in H.
    rewrite append_cons in H. now apply lstrip_slash_head in H.
Qed.

(** X28. [HttpMCPServer.__init__] keeps the name and stores as base URL the
    configured URL without its trailing slashes: the URL is the base URL
    followed by slashes only, and the base URL does not end in a slash. *)
Theorem base_url_has_no_trailing_slash (int_of_str : string -> option Z)
    (nm : string) (cfg : dict) srv :
  HttpMCPServer_new int_of_str nm cfg = Returned srv ->
  name srv = nm
  /\ (exists tail, hc_url (config srv) = base_url srv +:+ tail
                   /\ lstrip_slash tail = "")
  /\ forall t, base_url srv <> t +:+ "/".
Proof.
  unfold HttpMCPServer_new, and_then.
  destruct (HttpServerConfig_new int_of_str cfg) as [c|e]; [|discriminate].
  intros [= <-]. simpl. split; [reflexivity|]. apply rstrip_slash_spec.
Qed.

End UrlFacts.


(** ** The listing of a studio, and descriptors that stay *)

Module StudioListingFacts.
Import Runtime RuntimeFacts McpSeeHttpPy HttpStudioPy HttpMore.

Section Facts.
Context {E : Type}.
Variable get_tools : resource -> E -> PyResult (list (adapter_tool E)) * E.
Variable serve : request -> E -> reply * E.
Variable urljoin : string -> string -> string.

Lemma initialized_indices_spec (servers : list HttpMCPServer) (i : nat) :
  i ∈ initialized_indices servers
  <-> exists srv, servers !! i = Some srv /\ is_initialized srv = true.
Proof.
  unfold initialized_indices. rewrite list_elem_of_filter, elem_of_seq. split.
  - intros [Hi _]. destruct (servers !! i) as [srv|]; [eauto | discriminate].
  - intros (srv & Hs & Hi). rewrite Hs. split; [exact Hi|].
    apply lookup_lt_Some in Hs. lia.
Qed.

Lemma initialized_servers_spec (servers : list HttpMCPServer) (srv : HttpMCPServer) :
  srv ∈ get_initialized_servers servers
  <-> exists i, i ∈ initialized_indices servers /\ servers !! i = Some srv.
Proof.
  unfold get_initialized_servers. rewrite list_elem_of_filter, list_elem_of_lookup.
  split.
  - intros (Hi & i & Hs). exists i. split; [|exact Hs].
    apply initialized_indices_spec. eauto.
  - intros (i & Hin & Hs). apply initialized_indices_spec in Hin as (srv' & Hs' & Hi).
    rewrite Hs in Hs'. injection Hs' as <-. eauto.
Qed.

(** One round of the loop on an initialized server. *)
Lemma collect_step (i : nat) rest acc (servers : list HttpMCPServer) srv (w : world E) :
  servers !! i = Some srv ->
  is_initialized srv = true ->
  exists v w',
    collect E get_tools serve urljoin (i :: rest) acc (servers, w)
    = collect E get_tools serve urljoin rest (<[name srv := v]> acc) (servers, w').
Proof.
  intros Hs Hi. destruct (list_tools_total get_tools serve urljoin srv w Hi)
    as (v & w' & Hl).
  exists v, w'. cbn [collect]. unfold bind at 1. unfold try_except, on_server.
  cbn [fst snd]. rewrite Hs, Hl. rewrite list_insert_id by exact Hs.
  unfold bind at 1. cbn [fst snd]. now rewrite Hs.
Qed.

Lemma collect_spec (idxs : list nat) acc (servers : list HttpMCPServer) (w : world E) :
  (forall i, i ∈ idxs -> exists srv, servers !! i = Some srv /\ is_initialized srv = true) ->
  exists result w',
    collect E get_tools serve urljoin idxs acc (servers, w)
    = (Returned result, (servers, w'))
    /\ forall n, is_Some (result !! n)
                 <-> is_Some (acc !! n)
                     \/ exists i srv, i ∈ idxs /\ servers !! i = Some srv /\ name srv = n.
Proof.
  revert acc w. induction idxs as [|i idxs IH]; intros acc w Hall.
  - exists acc, w. split; [reflexivity|]. intros n. split; [auto|].
    intros [H|(i & srv & Hin & _)]; [exact H | now apply elem_of_nil in Hin].
  - destruct (Hall i) as (srv & Hs & Hi); [constructor|].
    destruct (collect_step i idxs acc servers srv w Hs Hi) as (v & w1 & ->).
    destruct (IH (<[name srv := v]> acc) w1) as (result & w' & -> & Hdom).
    { intros j Hj. apply Hall. now constructor. }
    exists result, w'. split; [reflexivity|]. intros n. rewrite Hdom. split.
    + intros [Hacc|(j & s & Hj & Hsj & Hn)].
      * destruct (decide (name srv = n)) as [<-|Hne].
        -- right. exists i, srv. split; [constructor | auto].
        -- left. now rewrite lookup_insert_ne in Hacc.
      * right. exists j, s. split; [now constructor | auto].
    + intros [Hacc|(j & s & Hj & Hsj & Hn)].
      * left. destruct (decide (name srv = n)) as [<-|Hne].
        -- rewrite lookup_insert_eq. eauto.
        -- now rewrite lookup_insert_ne.
      * apply elem_of_cons in Hj as [->|Hj].
        -- left. rewrite Hs in Hsj. injection Hsj as <-. rewrite Hn.
           rewrite lookup_insert_eq. eauto.
        -- right. eauto.
Qed.

(** X29. [HttpMCPStudio.get_all_tools] returns and leaves the servers as
    they are; its result has an entry exactly for the names of the
    initialized servers. *)
Theorem studio_listing_covers_initialized_servers (servers : list HttpMCPServer)
    (w : world E) :
  exists result w',
    get_all_tools E get_tools serve urljoin (servers, w)
    = (Returned result, (servers, w'))
    /\ forall n, is_Some (result !! n)
                 <-> exists srv, srv ∈ get_initialized_servers servers /\ name srv = n.
Proof.
  unfold get_all_tools. cbn [fst].
  destruct (collect_spec (initialized_indices servers) ∅ servers w)
    as (result & w' & Hc & Hdom).
  { intros i Hi. now apply initialized_indices_spec. }
  exists result, w'. split; [exact Hc|]. intros n. rewrite Hdom. split.
  - intros [Hempty|(i & srv & Hi & Hs & Hn)].
    + rewrite lookup_empty in Hempty. now destruct Hempty.
    + exists srv. split; [|exact Hn]. apply initialized_servers_spec. eauto.
  - intros (srv & Hin & Hn). apply initialized_servers_spec in Hin as (i & Hi & Hs).
    right. eauto.
Qed.

End Facts.
End StudioListingFacts.

Module DescriptorFacts.
Import ToolsManagerPy RegistryFacts RegistryMore.

Section Facts.
Context {W : Type}.

Lemma info_kept_entry str call nm (m : ToolsManager W) entry (n : string) :
  is_Some (tool_info m !! n) ->
  is_Some (tool_info (load_aiohttp_entry str call nm m entry).2 !! n).
Proof.
  intros H. unfold load_aiohttp_entry. cbv zeta.
  destruct (ToolInfo_new _ _ _ _ _) as [i|e]; [|exact H]. simpl.
  destruct (decide (default (nm +:+ "_tool") (td_name entry) = n)) as [->|Hne].
  - rewrite lookup_insert_eq. eauto.
  - now rewrite lookup_insert_ne.
Qed.

Lemma info_kept_apply (m : ToolsManager W) (o : operation W) (n : string) :
  is_Some (tool_info m !! n) -> is_Some (tool_info (apply m o) !! n).
Proof.
  destruct o as [servers|nm got|str call nm listed|tools|tools|b]; simpl; intros H.
  - unfold load_mcp_tools.
    assert (H0 : is_Some (tool_info (with_mcp_tools m []) !! n)) by exact H.
    revert H0. generalize (with_mcp_tools m []).
    induction servers as [|[nm [tools|e]] servers IH]; intros m0 H0; simpl.
    + exact H0.
    + apply IH. simpl. now apply store_infos_keeps.
    + now apply IH.
  - destruct got as [tools|e]; [|exact H]. simpl.
    now apply store_langchain_infos_keeps.
  - destruct listed as [entries|e]; [|exact H]. simpl.
    revert m H. induction entries as [|entry entries IH]; intros m H; [exact H|].
    simpl. pose proof (info_kept_entry str call nm m entry n H) as H1.
    destruct (load_aiohttp_entry str call nm m entry) as [[u|e] m'].
    + now apply IH.
    + exact H1.
  - rewrite add_custom_tools_eq. simpl. now apply foldl_ins_keeps.
  - rewrite add_see_tools_eq. simpl. now apply foldl_ins_keeps.
  - exact H.
Qed.

(** X30. No operation of the registry removes a [ToolInfo]: a name that has
    a descriptor keeps one through any sequence of operations, also when a
    reload has dropped the tool itself. *)
Theorem descriptors_are_never_removed (ops : list (operation W))
    (m : ToolsManager W) (n : string) :
  is_Some (tool_info m !! n) ->
  is_Some (tool_info (foldl apply m ops) !! n).
Proof.
  revert m. induction ops as [|o ops IH]; intros m H; [exact H|].
  simpl. apply IH. now apply info_kept_apply.
Qed.

End Facts.
End DescriptorFacts.


(** ** The properties on the scenarios *)

Module ScenarioFacts.
Import Runtime Samples HttpSamples StdioSamples Scenarios.

Lemma execute_without_approval_invokes_once_witness :
  ToolsManagerPy.execute_tool_call one_failing_tool call_x (console [])
  = (Returned
       {| ToolsManagerPy.tr_tool_name := "x";
          ToolsManagerPy.tr_success := false;
          ToolsManagerPy.tr_result := JNull;
          ToolsManagerPy.tr_error := Some "Error executing tool 'x': boom" |},
     {| ToolsManagerPy.w_stdin := [];
        ToolsManagerPy.w_tools := 1%nat;
        ToolsManagerPy.w_trace := [ToolsManagerPy.EvInvoke "x" []] |}).
Proof.
  destruct (RegistryMore.execute_without_approval_invokes_once
              one_failing_tool call_x (console []) (failing_tool "x" "boom")
              (fun _ calls => (Raised (Exc "RuntimeError" "boom"), S calls))
              eq_refl eq_refl eq_refl eq_refl) as [Hw Hr].
  destruct (ToolsManagerPy.execute_tool_call one_failing_tool call_x (console []))
    as [r w']. simpl in Hw, Hr. now rewrite Hw, Hr.
Defined.

Lemma resolvable_tools_have_descriptors_witness :
  is_Some (ToolsManagerPy.tool_info
             (ToolsManagerPy.after
                [ToolsManagerPy.AddCustomTools [x_from_B];
                 ToolsManagerPy.LoadAiohttpTools plain_str answered_call "math"
                   (Returned [add_entry])])
           !! "add").
Proof.
  apply (RegistryMore.resolvable_tools_have_descriptors
           [ToolsManagerPy.AddCustomTools [x_from_B];
            ToolsManagerPy.LoadAiohttpTools plain_str answered_call "math"
              (Returned [add_entry])]
           ltac:(repeat constructor)
           (ToolsManagerPy._create_http_tool plain_str answered_call add_entry)).
  constructor.
Defined.


Lemma http_tool_failure_is_reported_as_success_witness :
  ToolsManagerPy.execute_tool_call refused_registry call_add (console [])
  = (Returned
       {| ToolsManagerPy.tr_tool_name := "add";
          ToolsManagerPy.tr_success := true;
          ToolsManagerPy.tr_result :=
            JStr ("Error executing HTTP tool add: "
                  +:+ "All tool call methods failed: down");
          ToolsManagerPy.tr_error := None |},
     {| ToolsManagerPy.w_stdin := [];
        ToolsManagerPy.w_tools := 1%nat;
        ToolsManagerPy.w_trace := [ToolsManagerPy.EvInvoke "add" []] |}).
Proof.
  exact (RegistryMore.http_tool_failure_is_reported_as_success
           plain_str refused_call add_entry refused_registry call_add (console [])
           (Exc "ClientError" "All tool call methods failed: down") 1%nat
           eq_refl eq_refl eq_refl).
Defined.

Lemma stdio_config_loading_witness :
  StudioConfigPy.stdio_load_servers_from_config nat (Returned two_servers) ([], start)
  = (Returned tt, ([server_of "first" with_command], start)).
Proof.
  refine (proj1 (StudioConfigFacts.stdio_config_loading two_servers
                   [("first", JObj with_command); ("remote", JObj network_descriptor)]
                   [] start eq_refl) _).
  repeat constructor.
Defined.

Lemma added_server_is_found_unless_shadowed_witness :
  start = start
  /\ exists srv,
       McpStudioPy.MCPServer_new "first" without_command = Returned srv
       /\ [server_of "first" with_command; server_of "first" without_command]
          = [server_of "first" with_command] ++ [srv]
       /\ McpStudioPy.is_initialized srv = false
       /\ StudioConfigPy.get_server_by_name "first"
            [server_of "first" with_command; server_of "first" without_command]
          = Some (default srv
                    (StudioConfigPy.get_server_by_name "first"
                       [server_of "first" with_command])).
Proof.
  exact (StudioConfigFacts.added_server_is_found_unless_shadowed
           "first" without_command [server_of "first" with_command]
           [server_of "first" with_command; server_of "first" without_command]
           start start eq_refl).
Defined.

Lemma initialize_returns_iff_initialized_witness :
  Returned tt = Returned tt
  <-> McpStudioPy.is_initialized connected_server = true.
Proof.
  exact (StdioFacts.initialize_returns_iff_initialized release_ok spawn_ok None ∅
           (server_of "first" with_command) start (Returned tt) connected_server
           {| w_env := 1%nat;
              w_trace := [EvInitialize "first";
                          EvSpawn "first" "python" ["server.py"]] |}
           eq_refl eq_refl).
Defined.

Lemma failed_bring_up_releases_what_it_entered_witness :
  exists srv' w',
    McpStudioPy.initialize nat release_ok handshake_fails None ∅
      (server_of "first" with_command, start)
    = (Raised (Exc "McpError" "handshake failed"), (srv', w'))
    /\ McpStudioPy.exit_stack srv' = []
    /\ w_trace w'
       = [EvInitialize "first"; EvSpawn "first" "python" ["server.py"];
          EvCleanup "first"; EvRelease 1%nat; EvRelease 0%nat].
Proof.
  refine (StdioFacts.failed_bring_up_releases_what_it_entered
            release_ok handshake_fails None ∅
            (server_of "first" with_command) start "python"
            (McpStudioPy.HandshakeFails 0 1 (Exc "McpError" "handshake failed"))
            1%nat (Exc "McpError" "handshake failed") _ eq_refl eq_refl eq_refl).
  split; [reflexivity|]. exists "python".
  split; [reflexivity|]. split; [discriminate | reflexivity].
Defined.

Lemma spawn_sees_merged_environment_witness :
  exists merged,
    McpStudioPy.sp_env
      (StdioBringUp.server_params process_environment with_environment "python")
    = Some merged
    /\ merged !! "HOME" = Some "/srv"
    /\ merged !! "PATH" = Some "/bin".
Proof.
  assert (Hres : StdioBringUp.resolves_to None with_environment "python").
  { split; [reflexivity|]. exists "python".
    split; [reflexivity|]. split; [discriminate | reflexivity]. }
  destruct (proj2 (StdioFacts.spawn_sees_merged_environment
                     (E:=nat) release_ok None process_environment
                     with_environment start "python" Hres))
    as (merged & Hm & Hk).
  exists merged. split; [exact Hm|]. split; rewrite Hk; reflexivity.
Defined.

Lemma stdio_cleanup_all_leaves_none_initialized_witness :
  McpStudioPy.get_initialized_servers
    (McpStudioPy.cleanup_all_servers nat release_ok
       ([connected_server; server_of "last" with_command], start)).2.1
  = [].
Proof.
  apply (FleetFacts.stdio_cleanup_all_leaves_none_initialized release_ok).
  intros r e. reflexivity.
Defined.

Lemma stdio_failed_release_keeps_session_witness :
  exists srv' w',
    McpStudioPy.cleanup nat release_fails (connected_server, start)
    = (Returned tt, (srv', w'))
    /\ McpStudioPy.is_initialized srv' = McpStudioPy.is_initialized connected_server
    /\ McpStudioPy.exit_stack srv' = [].
Proof.
  apply (FleetFacts.stdio_failed_release_keeps_session release_fails
           connected_server start 1%nat).
  - constructor.
  - intros e. discriminate.
Defined.

Lemma http_cleanup_all_leaves_none_initialized_witness :
  McpSeeHttpPy.get_initialized_servers
    (McpSeeHttpPy.cleanup_all_servers unit no_release
       ([ready_server; adapter_server], quiet)).2.1
  = [].
Proof.
  apply (FleetFacts.http_cleanup_all_leaves_none_initialized no_release).
  intros r e. reflexivity.
Defined.

Lemma http_failed_release_keeps_server_connected_witness :
  exists w',
    McpSeeHttpPy.cleanup unit broken_release (ready_server, quiet)
    = (Returned tt, (McpSeeHttpPy.set_exit_stack [] ready_server, w'))
    /\ McpSeeHttpPy.is_initialized (McpSeeHttpPy.set_exit_stack [] ready_server)
       = McpSeeHttpPy.is_initialized ready_server.
Proof.
  apply (FleetFacts.http_failed_release_keeps_server_connected broken_release
           ready_server quiet 7%nat 7%nat eq_refl).
  - constructor.
  - intros e. discriminate.
Defined.

Lemma call_failure_comes_after_all_four_requests_witness :
  exists e w',
    McpSeeHttpPy.call_tool unit no_adapter nothing_there join fixed_clock
      "add" [] (ready_server, quiet)
    = (Raised e, (ready_server, w'))
    /\ exc_class e = "ClientError"
    /\ map rq_url (requests_of (w_trace w'))
       = ["http://h/tools/add"; "http://h/api/tools/add";
          "http://h/mcp/tools/add"; "http://h"].
Proof.
  destruct (McpSeeHttpPy.call_tool unit no_adapter nothing_there join fixed_clock
              "add" [] (ready_server, quiet)) as [[v|e] [srv' w']] eqn:Hcall;
    [vm_compute in Hcall; discriminate Hcall|].
  destruct (HttpMore.call_failure_comes_after_all_four_requests
              no_adapter nothing_there join fixed_clock
              ready_server quiet 7%nat "add" [] e srv' w'
              eq_refl eq_refl eq_refl Hcall)
    as (-> & Hcls & _ & rqs & Htr & Hurls & _).
  exists e, w'. split; [reflexivity|]. split; [exact Hcls|].
  rewrite Htr. change (w_trace quiet) with (@nil event). cbn [app].
  transitivity (map rq_url rqs); [|exact Hurls].
  f_equal. clear. induction rqs as [|rq rqs IH]; [reflexivity|].
  simpl. f_equal. exact IH.
Defined.


Lemma calls_after_cleanup_are_refused_witness :
  McpSeeHttpPy.call_tool unit no_adapter rpc_only join fixed_clock "add" []
    ((McpSeeHttpPy.cleanup unit no_release (ready_server, quiet)).2.1, quiet)
  = (Raised (McpSeeHttpPy.RuntimeError "Server math not initialized"),
     ((McpSeeHttpPy.cleanup unit no_release (ready_server, quiet)).2.1, quiet))
  /\ McpSeeHttpPy.list_tools unit no_adapter rpc_only join
       ((McpSeeHttpPy.cleanup unit no_release (ready_server, quiet)).2.1, quiet)
     = (Raised (McpSeeHttpPy.RuntimeError "Server math not initialized"),
        ((McpSeeHttpPy.cleanup unit no_release (ready_server, quiet)).2.1, quiet)).
Proof.
  refine (HttpMore.calls_after_cleanup_are_refused no_release no_adapter rpc_only
            join fixed_clock ready_server quiet
            (McpSeeHttpPy.cleanup unit no_release (ready_server, quiet)).2.1
            (McpSeeHttpPy.cleanup unit no_release (ready_server, quiet)).2.2
            quiet "add" [] _ eq_refl).
  intros r e. reflexivity.
Defined.

Lemma adapter_connection_sends_no_request_witness :
  (forall r srv' w',
     McpSeeHttpPy.list_tools unit no_adapter rpc_only join (adapter_server, quiet)
     = (r, (srv', w')) ->
     srv' = adapter_server /\ w_trace w' = w_trace quiet)
  /\ (forall r srv' w',
        McpSeeHttpPy.call_tool unit no_adapter rpc_only join fixed_clock "add" []
          (adapter_server, quiet)
        = (r, (srv', w')) ->
        srv' = adapter_server /\ w_trace w' = w_trace quiet).
Proof.
  exact (HttpMore.adapter_connection_sends_no_request no_adapter rpc_only join
           fixed_clock adapter_server quiet 9%nat "add" [] eq_refl).
Defined.

Lemma base_url_has_no_trailing_slash_witness :
  exists srv,
    McpSeeHttpPy.HttpMCPServer_new decimal "remote" network_descriptor = Returned srv
    /\ McpSeeHttpPy.base_url srv = "http://h"
    /\ McpSeeHttpPy.hc_url (McpSeeHttpPy.config srv) = "http://h//"
    /\ forall t, McpSeeHttpPy.base_url srv <> t +:+ "/".
Proof.
  destruct (McpSeeHttpPy.HttpMCPServer_new decimal "remote" network_descriptor)
    as [srv|e] eqn:Hnew; [|vm_compute in Hnew; discriminate Hnew].
  destruct (UrlFacts.base_url_has_no_trailing_slash decimal "remote"
              network_descriptor
              srv Hnew) as (_ & _ & Hno).
  exists srv. split; [reflexivity|].
  vm_compute in Hnew. injection Hnew as <-.
  split; [reflexivity|]. split; [reflexivity|]. exact Hno.
Defined.

Lemma descriptors_are_never_removed_witness :
  is_Some (ToolsManagerPy.tool_info
             (ToolsManagerPy.load_mcp_tools []
                (ToolsManagerPy.load_mcp_tools [("A", Returned [x_from_A])]
                   ToolsManagerPy.init))
           !! "x")
  /\ ToolsManagerPy.find_tool_by_name
       (ToolsManagerPy.load_mcp_tools []
          (ToolsManagerPy.load_mcp_tools [("A", Returned [x_from_A])]
             ToolsManagerPy.init)) "x"
     = None.
Proof.
  split; [|reflexivity].
  apply (DescriptorFacts.descriptors_are_never_removed
           [ToolsManagerPy.LoadMcpTools []]
           (ToolsManagerPy.load_mcp_tools [("A", Returned [x_from_A])]
              ToolsManagerPy.init) "x").
  eexists. vm_compute. reflexivity.
Defined.

End ScenarioFacts.
